(** * Order submission scripts: a shallow embedding and its properties

    The repository holds three TypeScript scripts that place an order with
    an on-chain order processor:

    - the direct script ([Direct], src/unnamed/part_000): the holder's key
      signs an EIP-2612 permit and sends [multicall([selfPermit, createOrder])];
    - the sponsored script ([Sponsored], src/unnamed/part_001): a smart
      account sends the batch [[approve, createOrder]] through a bundler;
    - src/smart_account.ts ([SmartAccount]): the sponsored script with a
      token transfer selected by the constant [SENT_STOCKS].

    Scripts are embedded as programs of a small monad [M]: a program reads
    the outside world (chain, pricing service, bundler, libraries) from a
    record of answers and produces a trace of what it did, together with a
    value or a thrown exception.

    Conventions of the embedding:

    - an [await] of an outside call is a [request]: the call is recorded in
      the trace and the world gives its answer, a value or an exception;
    - a contract object is identified with its address, a client object
      (provider, pricing client, bundler, smart-account client) with the
      world;
    - calldata is kept symbolic: the function and its arguments;
    - a [bigint] is a [Z]; a [number] that takes part in a conversion or in
      [*], [**], [%] is a [Number.t]; numbers that only hold small integers
      (chain ids, block numbers and times, the [uint8] results of
      [decimals] and [orderDecimalReduction]) are kept as [Z] or [N];
    - the trace also records where an exception is raised ([ERaise]) and
      the console output that reports a result or an error. *)

From Stdlib Require Import ZArith NArith List String Ascii Bool Lia.
From Stdlib Require Import DecimalString.
Import ListNotations.

Local Open Scope string_scope.
Local Open Scope list_scope.
Local Open Scope Z_scope.

(** ** JavaScript Numbers

    An ECMAScript Number is an IEEE-754 binary64 value.  The scripts move
    token amounts between [bigint] and [number] and compute with [*], [**]
    and [%], so Numbers are modelled with their rounding.  A finite value is
    kept as [m * 2^e] with [m] odd (zero is [Fin 0 0]; the sign of zero is
    not tracked, no operation the scripts use tells [-0] from [+0]). *)
Module Number.

Inductive t : Type :=
| Fin (m e : Z)
| Inf (negative : bool)
| NaN.

Fixpoint odd_part (p : positive) : positive :=
  match p with
  | xO q => odd_part q
  | _ => p
  end.

Fixpoint twos (p : positive) : Z :=
  match p with
  | xO q => 1 + twos q
  | _ => 0
  end.

(** The canonical form of [m * 2^e]. *)
Definition canon (m e : Z) : t :=
  match m with
  | Z0 => Fin 0 0
  | Zpos p => Fin (Zpos (odd_part p)) (e + twos p)
  | Zneg p => Fin (Zneg (odd_part p)) (e + twos p)
  end.

Definition prec : Z := 53.
Definition emin : Z := -1074.
Definition emax : Z := 1024.

(** [a / 2^sh] rounded to the nearest integer, ties to even
    ([0 <= a], [0 < sh]). *)
Definition shr_even (a sh : Z) : Z :=
  let q := Z.shiftr a sh in
  let r := a - Z.shiftl q sh in
  let half := Z.shiftl 1 (sh - 1) in
  if (half <? r) || ((half =? r) && Z.odd q) then q + 1 else q.

(** Round the real [m * 2^e] to binary64: 53 significant bits, no bit
    below [2^emin], overflow to infinity. *)
Definition round (m e : Z) : t :=
  let a := Z.abs m in
  let sh := Z.max (Z.log2 a + 1 - prec) (emin - e) in
  let a' := if 0 <? sh then shr_even a sh else a in
  let e' := if 0 <? sh then e + sh else e in
  if (0 <? a') && (emax <=? Z.log2 a' + e')
  then Inf (m <? 0)
  else canon (Z.sgn m * a') e'.

(** Round the rational [p / q] ([0 < q]): the quotient is taken with
    enough bits and a sticky bit records an inexact division. *)
Definition of_ratio (p q : Z) : t :=
  let s := Z.max 0 (prec + 4 + Z.log2 q - Z.log2 (Z.abs p)) in
  let n := Z.abs p * 2 ^ s in
  let sticky := if n mod q =? 0 then 0 else 1 in
  round (Z.sgn p * (2 * (n / q) + sticky)) (- s - 1).

(** [Number(n)] for a bigint [n], and integer literals. *)
Definition of_Z (n : Z) : t := round n 0.

Definition is_neg (x : t) : bool :=
  match x with
  | Fin m _ => m <? 0
  | Inf s => s
  | NaN => false
  end.

(** [x * y] *)
Definition mul (x y : t) : t :=
  match x, y with
  | Fin m1 e1, Fin m2 e2 => round (m1 * m2) (e1 + e2)
  | NaN, _ | _, NaN => NaN
  | Inf _, Fin 0 _ | Fin 0 _, Inf _ => NaN
  | _, _ => Inf (xorb (is_neg x) (is_neg y))
  end.

(** [10 ** k] for a non-negative integer [k].  ECMAScript leaves [**]
    implementation-approximated; the correctly rounded value is taken. *)
Definition pow10 (k : N) : t := round (10 ^ Z.of_N k) 0.

(** [x % y]: the remainder of the truncated division, which binary64
    always represents exactly. *)
Definition rem (x y : t) : t :=
  match x, y with
  | NaN, _ | _, NaN => NaN
  | Inf _, _ => NaN
  | _, Fin 0 _ => NaN
  | Fin _ _, Inf _ => x
  | Fin m1 e1, Fin m2 e2 =>
      let e := Z.min e1 e2 in
      canon (Z.rem (m1 * 2 ^ (e1 - e)) (m2 * 2 ^ (e2 - e))) e
  end.

(** [x != 0] *)
Definition nonzero (x : t) : bool :=
  match x with
  | Fin 0 _ => false
  | _ => true
  end.

(** [BigInt(x)]: the integer [x] holds, [None] (a RangeError) when [x] is
    not an integer. *)
Definition to_bigint (x : t) : option Z :=
  match x with
  | Fin m e => if 0 <=? e then Some (m * 2 ^ e) else None
  | _ => None
  end.

End Number.

(** ** Values exchanged with the outside world *)

Definition address := string.

(** A thrown JavaScript exception: the constructor's name and the message. *)
Record exn := mkExn { exn_name : string; exn_message : string }.

Definition Error (msg : string) : exn := mkExn "Error" msg.
Definition RangeError (msg : string) : exn := mkExn "RangeError" msg.
Definition SyntaxError (msg : string) : exn := mkExn "SyntaxError" msg.
Definition TimeoutError (msg : string) : exn :=
  mkExn "WaitForUserOperationReceiptTimeoutError" msg.

(** The exception of [BigInt(x)] for a Number that is not an integer, and
    the exception of the bundler client when no receipt came in time. *)
Definition not_an_integer : exn :=
  RangeError
    "The number cannot be converted to a BigInt because it is not an integer".
Definition timed_out : exn :=
  TimeoutError "Timed out while waiting for user operation".

Inductive result (A : Type) : Type :=
| Ok (a : A)
| Throw (e : exn).
Arguments Ok {A} a.
Arguments Throw {A} e.

(** A numeric field of a JSON document: a number or a string of digits. *)
Inductive json : Type :=
| JNumber (x : Number.t)
| JString (s : string).

(** The object [configureOrder] returns ([interface OrderParams]). *)
Record OrderParams := mkOrderParams {
  requestTimestamp : Number.t;
  recipient : address;
  assetToken : address;
  paymentToken : address;
  sell : bool;
  orderType : Number.t;
  assetTokenQuantity : Number.t;
  paymentTokenQuantity : Number.t;
  price : Number.t;
  tif : Number.t
}.

(** The pricing service's answer: [{fee_quote: {...}, fee_quote_signature}]. *)
Record FeeQuote := mkFeeQuote {
  fq_orderId : json;
  fq_requester : address;
  fq_fee : json;
  fq_timestamp : json;
  fq_deadline : json
}.

Record FeeQuoteResponse := mkFeeQuoteResponse {
  fee_quote : FeeQuote;
  fee_quote_signature : string
}.

(** The body of the fee request. *)
Record FeeQuoteData := mkFeeQuoteData {
  chain_id : Z;
  contract_address : address;
  order_data : OrderParams
}.

(** EIP-712 permit: domain, message and split signature. *)
Record PermitDomain := mkPermitDomain {
  pd_name : string;
  pd_version : string;
  pd_chainId : Z;
  pd_verifyingContract : address
}.

Record PermitMessage := mkPermitMessage {
  pm_owner : address;
  pm_spender : address;
  pm_value : Z;
  pm_nonce : Z;
  pm_deadline : Z
}.

Record Signature := mkSignature {
  sig_v : Z;
  sig_r : string;
  sig_s : string
}.

(** The result of [encodeFunctionData], kept symbolic: the function and its
    arguments. *)
Inductive calldata : Type :=
| SelfPermitData (token owner : address) (value deadline : Z)
                 (v : Z) (r s : string)
| CreateOrderData (order : OrderParams) (quote : FeeQuote) (signature : string)
| ApproveData (spender : address) (amount : Z)
| TransferData (to_ : address) (amount : Z).

(** One entry of a smart-account batch: [{to, data, value}]. *)
Record transaction := mkTransaction {
  to : address;
  data : calldata;
  tx_value : Z
}.

Record Log := mkLog {
  log_address : string;
  log_topics : list string;
  log_data : string
}.

Record Receipt := mkReceipt {
  transactionHash : string;
  logs : list Log
}.

(** [receipt.receipt.transactionHash] of a user-operation receipt. *)
Record UserOperationReceipt := mkUserOperationReceipt {
  uo_transactionHash : string
}.

(** ** The outside world

    Every answer the scripts obtain from outside: the process environment,
    the chain, the pricing service, the bundler, and the library functions
    whose code is not part of the repository.  An answer is a value or a
    thrown exception ([result]). *)
Record World := mkWorld {
  w_env : string -> option string;
  w_now : Z;
  w_networkAddresses : Z -> option address;
  w_getEventTopic : string -> string;
  w_parseLog : Log -> result (list string);
  w_stringToBigInt : string -> option Z;
  w_walletAddress : string -> result address;
  w_getNetwork : result Z;
  w_orderDecimalReduction : address -> address -> result N;
  w_decimals : address -> result N;
  w_post : string -> FeeQuoteData -> result FeeQuoteResponse;
  w_nonces : address -> address -> result Z;
  w_getBlockNumber : result Z;
  w_getBlock : Z -> result (option Z);
  w_name : address -> result string;
  w_version : address -> result string;
  w_signTypedData : PermitDomain -> PermitMessage -> result string;
  w_splitSignature : string -> result Signature;
  w_multicall : address -> list calldata -> result string;
  w_wait : string -> result Receipt;
  w_getOrderStatus : address -> option string -> result string;
  w_smartAccountAddress : string -> result address;
  w_sendTransactions : list transaction -> result string;
  (** when the bundler has the receipt of a user operation: the number of
      milliseconds after the wait starts, [None] when it never has one *)
  w_userOperationReceipt : string -> option (Z * UserOperationReceipt);
  w_getTransactionReceipt : string -> result Receipt
}.

(** ** Traces *)

(** A request that leaves the process, or a signature made with the key. *)
Inductive call : Type :=
| GetNetwork
| OrderDecimalReduction (processor asset : address)
| Decimals (token : address)
| Post (url : string) (body : FeeQuoteData)
| Nonces (token owner : address)
| GetBlockNumber
| GetBlock (number : Z)
| TokenName (token : address)
| TokenVersion (token : address)
| SignTypedData (domain : PermitDomain) (message : PermitMessage)
| Multicall (processor : address) (calls : list calldata)
| Wait (tx : string)
| GetOrderStatus (processor : address) (orderId : option string)
| SignerToSimpleSmartAccount (key : string)
| SendTransactions (transactions : list transaction)
| WaitForUserOperationReceipt (hash : string) (timeout : Z)
| GetTransactionReceipt (hash : string).

(** Console output that reports a result or an error (the scripts'
    other, purely informational [console.log] lines are not traced). *)
Inductive console : Type :=
| LogTx (tx : string)
| LogTxHash (hash : string)
| LogUserOperationHash (hash : string)
| LogSentTokenHash (hash : string)
| LogTransactionReceipt (r : Receipt)
| LogOrderId (id : option string)
| LogOrderAccount (account : option string)
| LogOrderStatus (status : string)
| LogNoOrderCreated
| LogAllLogs (l : list Log)
| LogCaught (e : exn)
| LogFatal (e : exn).

(** [ERaise] marks the point where an exception is thrown. *)
Inductive event : Type :=
| ECall (c : call)
| ERaise (e : exn)
| EConsole (l : console).

(** ** The monad of scripts *)

Definition M (A : Type) : Type := World -> list event * result A.

Definition ret {A} (a : A) : M A := fun _ => ([], Ok a).

Definition bind {A B} (m : M A) (k : A -> M B) : M B :=
  fun w =>
    match m w with
    | (t1, Ok a) => let (t2, r) := k a w in (t1 ++ t2, r)
    | (t1, Throw e) => (t1, Throw e)
    end.

(** [throw e] *)
Definition throw {A} (e : exn) : M A := fun _ => ([ERaise e], Throw e).

(** [await] of an outside call [c] whose answer the world gives. *)
Definition request {A} (c : call) (answer : World -> result A) : M A :=
  fun w =>
    match answer w with
    | Ok a => ([ECall c], Ok a)
    | Throw e => ([ECall c; ERaise e], Throw e)
    end.

(** A library function that computes in the process and may throw. *)
Definition compute {A} (answer : World -> result A) : M A :=
  fun w =>
    match answer w with
    | Ok a => ([], Ok a)
    | Throw e => ([ERaise e], Throw e)
    end.

(** Reading a value that cannot fail. *)
Definition read {A} (f : World -> A) : M A := fun w => ([], Ok (f w)).

Definition console_log (l : console) : M unit := fun _ => ([EConsole l], Ok tt).

(** [try { m } catch (e) { handler e }] *)
Definition try_catch {A} (m : M A) (handler : exn -> M A) : M A :=
  fun w =>
    match m w with
    | (t1, Ok a) => (t1, Ok a)
    | (t1, Throw e) => let (t2, r) := handler e w in (t1 ++ t2, r)
    end.

Declare Scope script_scope.
Delimit Scope script_scope with script.
Notation "x <- m ;; k" := (bind m (fun x => k))
  (at level 61, m at next level, right associativity) : script_scope.
Notation "' p <- m ;; k" := (bind m (fun p => k))
  (at level 61, p pattern, m at next level, right associativity) : script_scope.
Notation "m ;; k" := (bind m (fun _ => k))
  (at level 61, right associativity) : script_scope.
Local Open Scope script_scope.

Definition trace {A} (m : M A) (w : World) : list event := fst (m w).
Definition outcome {A} (m : M A) (w : World) : result A := snd (m w).

(** [main().then(() => process.exit(0)).catch((error) => {
      console.error(error); process.exit(1); })]: the trace of the process
    and its exit status. *)
Definition run_script (main : M unit) (w : World) : list event * Z :=
  match main w with
  | (t, Ok _) => (t, 0)
  | (t, Throw e) => (t ++ [EConsole (LogFatal e)], 1)
  end.

(** ** Library functions *)

(** [BigInt(x)] for a Number. *)
Definition BigInt_of_number (x : Number.t) : M Z :=
  match Number.to_bigint x with
  | Some n => ret n
  | None => throw not_an_integer
  end.

(** [BigInt(j)] for a numeric JSON field. *)
Definition BigInt (j : json) : M Z :=
  match j with
  | JNumber x => BigInt_of_number x
  | JString s =>
      n <- read (fun w => w_stringToBigInt w s) ;;
      match n with
      | Some n => ret n
      | None => throw (SyntaxError "Cannot convert string to a BigInt")
      end
  end.

(** [s.toLowerCase()] on ASCII letters. *)
Definition lower_ascii (c : ascii) : ascii :=
  let n := nat_of_ascii c in
  if (Nat.leb 65 n && Nat.leb n 90)%bool then ascii_of_nat (n + 32) else c.

Fixpoint toLowerCase (s : string) : string :=
  match s with
  | EmptyString => EmptyString
  | String c s' => String (lower_ascii c) (toLowerCase s')
  end.

(** The text of an integer inside a template literal. *)
Definition string_of_Z (n : Z) : string := NilZero.string_of_int (Z.to_int n).

(** [!x] for an optional string: undefined and the empty string are falsy. *)
Definition falsy (x : option string) : bool :=
  match x with
  | None => true
  | Some s => String.eqb s ""
  end.

(** [log.topics[0] === topic] *)
Definition first_topic_is (topic : string) (l : Log) : bool :=
  match log_topics l with
  | t :: _ => String.eqb t topic
  | [] => false
  end.

(** [new ethers.Contract(addressOrName, abi, signer)]; the contract object
    is identified with its address. *)
Definition new_Contract (addressOrName : option address) : M address :=
  match addressOrName with
  | Some a => ret a
  | None => throw (Error "invalid contract address or ENS name")
  end.

(** [bundlerClient.waitForUserOperationReceipt({hash, timeout})]: the
    receipt when the bundler has it within [timeout] milliseconds, a
    timeout error otherwise. *)
Definition waitForUserOperationReceipt (hash : string) (timeout : Z)
  : M UserOperationReceipt :=
  request (WaitForUserOperationReceipt hash timeout)
    (fun w =>
       match w_userOperationReceipt w hash with
       | Some (t, r) =>
           if t <=? timeout then Ok r
           else Throw timed_out
       | None => Throw timed_out
       end).

(** ** Functions the scripts share

    Each of these has the same text in the files named at it. *)
Module Common.

(** [getContractVersion] (part_000 lines 26-34, part_001 lines 45-53). *)
Definition getContractVersion (contract : address) : M string :=
  try_catch
    (request (TokenVersion contract) (fun w => w_version w contract))
    (fun _ => ret "1").

(** [getFeeQuote] (part_000 lines 333-352, part_001 lines 278-297,
    smart_account.ts lines 380-399). *)
Definition getFeeQuote (chainId : Z) (orderProcessorAddress : address)
    (orderParams : OrderParams) : M (Z * FeeQuoteResponse) :=
  let feeQuoteData :=
    {| chain_id := chainId;
       contract_address := orderProcessorAddress;
       order_data := orderParams |} in
  feeQuoteResponse <-
    request (Post "/api/v1/web3/orders/fee" feeQuoteData)
      (fun w => w_post w "/api/v1/web3/orders/fee" feeQuoteData) ;;
  fees <- BigInt (fq_fee (fee_quote feeQuoteResponse)) ;;
  ret (fees, feeQuoteResponse).

(** [validateSellOrderPrecision] (part_000 lines 246-263, part_001 lines
    258-276; smart_account.ts lines 361-378 with the constant
    [ASSET_TOKEN_ADDRESS] for [assetTokenAddress]). *)
Definition validateSellOrderPrecision (orderProcessor assetToken : address)
    (assetTokenAddress : address) (orderAmount : Z) : M unit :=
  allowedDecimalReduction <-
    request (OrderDecimalReduction orderProcessor assetTokenAddress)
      (fun w => w_orderDecimalReduction w orderProcessor assetTokenAddress) ;;
  let allowablePrecisionReduction := Number.pow10 allowedDecimalReduction in
  if Number.nonzero
       (Number.rem (Number.of_Z orderAmount) allowablePrecisionReduction)
  then
    assetTokenDecimals <-
      request (Decimals assetToken) (fun w => w_decimals w assetToken) ;;
    let maxDecimals :=
      Z.of_N assetTokenDecimals - Z.of_N allowedDecimalReduction in
    throw (Error ("Order amount precision exceeds max decimals of "
                    ++ string_of_Z maxDecimals))
  else ret tt.

(** [const totalSpendAmount = BigInt(orderParams.paymentTokenQuantity) + fees]
    (part_000 line 135, part_001 line 133, smart_account.ts line 203). *)
Definition totalSpendAmount (orderParams : OrderParams) (fees : Z) : M Z :=
  quantity <- BigInt_of_number (paymentTokenQuantity orderParams) ;;
  ret (quantity + fees).

(** The [createOrder] calldata (part_000 lines 302-326, part_001 lines
    160-185, smart_account.ts lines 261-286). *)
Definition encodeCreateOrder (orderParams : OrderParams)
    (feeQuoteResponse : FeeQuoteResponse) : calldata :=
  CreateOrderData orderParams (fee_quote feeQuoteResponse)
    (fee_quote_signature feeQuoteResponse).

(** The predicate of [txReceipt.logs.find] in [executeOrderTransaction]. *)
Definition is_order_created (orderProcessor : address) (topic : string)
    (log : Log) : bool :=
  String.eqb (toLowerCase (log_address log)) (toLowerCase orderProcessor)
  && first_topic_is topic log.

(** Parsing the [OrderCreated] event of the transaction receipt
    ([executeOrderTransaction], part_001 lines 401-420, smart_account.ts
    lines 502-521). *)
Definition orderCreatedEvent (txReceipt : Receipt)
    (orderProcessor : address) : M unit :=
  topic <- read (fun w => w_getEventTopic w "OrderCreated") ;;
  match find (is_order_created orderProcessor topic) (logs txReceipt) with
  | Some orderCreatedEvent =>
      args <- compute (fun w => w_parseLog w orderCreatedEvent) ;;
      let orderId := nth_error args 0 in
      let orderAccount := nth_error args 1 in
      console_log (LogOrderId orderId) ;;
      console_log (LogOrderAccount orderAccount) ;;
      orderStatus <-
        request (GetOrderStatus orderProcessor orderId)
          (fun w => w_getOrderStatus w orderProcessor orderId) ;;
      console_log (LogOrderStatus orderStatus)
  | None =>
      console_log LogNoOrderCreated ;;
      console_log (LogAllLogs (logs txReceipt))
  end.

(** [executeOrderTransaction] (part_001 lines 375-421, smart_account.ts
    lines 476-522). *)
Definition executeOrderTransaction (transactions : list transaction)
    (orderProcessor : address) : M unit :=
  hash <-
    request (SendTransactions transactions)
      (fun w => w_sendTransactions w transactions) ;;
  console_log (LogUserOperationHash hash) ;;
  receipt <- waitForUserOperationReceipt hash 60000 ;;
  txReceipt <-
    request (GetTransactionReceipt (uo_transactionHash receipt))
      (fun w => w_getTransactionReceipt w (uo_transactionHash receipt)) ;;
  console_log (LogTransactionReceipt txReceipt) ;;
  orderCreatedEvent txReceipt orderProcessor.

End Common.

(** ** The direct script (src/unnamed/part_000) *)
Module Direct.

(** [if (!x) throw new Error(msg)] for an environment variable. *)
Definition getenv (name msg : string) : M string :=
  x <- read (fun w => w_env w name) ;;
  match x with
  | Some s => if falsy x then throw (Error msg) else ret s
  | None => throw (Error msg)
  end.

(** [configureOrder] (lines 209-244). *)
Definition configureOrder (orderProcessor assetToken : address)
    (signer : address) (assetTokenAddress paymentTokenAddress : address)
  : M OrderParams :=
  orderAmount <- BigInt_of_number (Number.of_Z 1000000) ;;
  let sellOrder := false in
  let orderType := Number.of_Z 0 in
  let limitPrice := Number.of_Z 0 in
  (if sellOrder
   then Common.validateSellOrderPrecision orderProcessor assetToken
          assetTokenAddress orderAmount
   else ret tt) ;;
  now <- read w_now ;;
  ret {| requestTimestamp := Number.of_Z now;
         recipient := signer;
         assetToken := assetTokenAddress;
         paymentToken := paymentTokenAddress;
         sell := sellOrder;
         orderType := orderType;
         assetTokenQuantity := Number.of_Z 0;
         paymentTokenQuantity := Number.of_Z orderAmount;
         price := limitPrice;
         tif := Number.of_Z 1 |}.

(** [configurePermit] (lines 265-294). *)
Definition configurePermit (signer : address) (paymentToken : address)
    (orderProcessorAddress : address) (totalSpendAmount : Z)
  : M (PermitDomain * PermitMessage) :=
  nonce <- request (Nonces paymentToken signer)
             (fun w => w_nonces w paymentToken signer) ;;
  blockNumber <- request GetBlockNumber w_getBlockNumber ;;
  blockTime <- request (GetBlock blockNumber)
                 (fun w => w_getBlock w blockNumber) ;;
  match blockTime with
  | None => throw (Error "no block time")
  | Some blockTime =>
      if blockTime =? 0 then throw (Error "no block time")
      else
        let deadline := blockTime + 60 * 5 in
        name <- request (TokenName paymentToken)
                  (fun w => w_name w paymentToken) ;;
        version <- Common.getContractVersion paymentToken ;;
        chainId <- request GetNetwork w_getNetwork ;;
        let permitDomain :=
          {| pd_name := name;
             pd_version := version;
             pd_chainId := chainId;
             pd_verifyingContract := paymentToken |} in
        let permitMessage :=
          {| pm_owner := signer;
             pm_spender := orderProcessorAddress;
             pm_value := totalSpendAmount;
             pm_nonce := nonce;
             pm_deadline := deadline |} in
        ret (permitDomain, permitMessage)
  end.

(** [submitOrder] (lines 296-331). *)
Definition submitOrder (orderProcessor : address) (selfPermitData : calldata)
    (orderParams : OrderParams) (feeQuoteResponse : FeeQuoteResponse)
  : M Receipt :=
  let requestOrderData :=
    Common.encodeCreateOrder orderParams feeQuoteResponse in
  tx <- request (Multicall orderProcessor [selfPermitData; requestOrderData])
          (fun w => w_multicall w orderProcessor
                      [selfPermitData; requestOrderData]) ;;
  console_log (LogTx tx) ;;
  request (Wait tx) (fun w => w_wait w tx).

(** [Array.prototype.map] with a callback that may throw. *)
Fixpoint map_M {A B} (f : A -> M B) (l : list A) : M (list B) :=
  match l with
  | [] => ret []
  | x :: l' => y <- f x ;; ys <- map_M f l' ;; ret (y :: ys)
  end.

(** The order event of a receipt ([main], lines 184-195): the logs whose
    first topic is the [OrderCreated] topic are parsed, the first one
    gives the order id and the order account. *)
Definition orderEvent (orderProcessor : address) (receipt : Receipt)
  : M (option string * option string) :=
  topic <- read (fun w => w_getEventTopic w "OrderCreated") ;;
  parsed <- map_M (fun log => compute (fun w => w_parseLog w log))
              (filter (first_topic_is topic) (logs receipt)) ;;
  match parsed with
  | [] => throw (Error "no order event")
  | args :: _ =>
      let orderId := nth_error args 0 in
      let orderAccount := nth_error args 1 in
      console_log (LogOrderId orderId) ;;
      console_log (LogOrderAccount orderAccount) ;;
      ret (orderId, orderAccount)
  end.

(** [main] (lines 36-200). *)
Definition main : M unit :=
  privateKey <- getenv "PRIVATE_KEY_EOA" "empty key" ;;
  _ <- getenv "RPC_URL" "empty rpc url" ;;
  assetTokenAddress <- getenv "ASSETTOKEN" "empty asset token address" ;;
  paymentTokenAddress <- getenv "PAYMENTTOKEN" "empty payment token address" ;;
  _ <- getenv "DINARI_API_KEY" "empty dinari api key" ;;
  signer <- compute (fun w => w_walletAddress w privateKey) ;;
  chainId <- request GetNetwork w_getNetwork ;;
  orderProcessorAddress <- read (fun w => w_networkAddresses w chainId) ;;
  paymentToken <- new_Contract (Some paymentTokenAddress) ;;
  assetToken <- new_Contract (Some assetTokenAddress) ;;
  orderProcessor <- new_Contract orderProcessorAddress ;;
  (* from here on [orderProcessorAddress] is the address [orderProcessor] *)
  (* Configure Order *)
  orderParams <- configureOrder orderProcessor assetToken signer
                   assetTokenAddress paymentTokenAddress ;;
  '(fees, feeQuoteResponse) <-
    Common.getFeeQuote chainId orderProcessor orderParams ;;
  totalSpendAmount <- Common.totalSpendAmount orderParams fees ;;
  (* Configure Permit *)
  '(permitDomain, permitMessage) <-
    configurePermit signer paymentToken orderProcessor totalSpendAmount ;;
  permitSignatureBytes <-
    request (SignTypedData permitDomain permitMessage)
      (fun w => w_signTypedData w permitDomain permitMessage) ;;
  permitSignature <-
    compute (fun w => w_splitSignature w permitSignatureBytes) ;;
  let selfPermitData :=
    SelfPermitData paymentTokenAddress (pm_owner permitMessage)
      (pm_value permitMessage) (pm_deadline permitMessage)
      (sig_v permitSignature) (sig_r permitSignature)
      (sig_s permitSignature) in
  (* Submit Order *)
  receipt <- submitOrder orderProcessor selfPermitData orderParams
               feeQuoteResponse ;;
  console_log (LogTxHash (transactionHash receipt)) ;;
  '(orderId, orderAccount) <- orderEvent orderProcessor receipt ;;
  orderStatus <-
    request (GetOrderStatus orderProcessor orderId)
      (fun w => w_getOrderStatus w orderProcessor orderId) ;;
  console_log (LogOrderStatus orderStatus).

End Direct.

(** ** The sponsored script (src/unnamed/part_001) *)
Module Sponsored.

(** [setupSmartAccount] (lines 323-350): the account's address. *)
Definition setupSmartAccount (privateKey : string) : M address :=
  request (SignerToSimpleSmartAccount privateKey)
    (fun w => w_smartAccountAddress w privateKey).

(** [setupContracts] (lines 352-373). *)
Definition setupContracts (chainId : Z)
    (paymentTokenAddress assetTokenAddress : address)
  : M (address * address * address) :=
  orderProcessorAddress <- read (fun w => w_networkAddresses w chainId) ;;
  paymentToken <- new_Contract (Some paymentTokenAddress) ;;
  assetToken <- new_Contract (Some assetTokenAddress) ;;
  orderProcessor <- new_Contract orderProcessorAddress ;;
  ret (paymentToken, assetToken, orderProcessor).

(** [configureOrder] (lines 221-256). *)
Definition configureOrder (orderProcessor assetToken : address)
    (recipientAddress : address)
    (assetTokenAddress paymentTokenAddress : address) : M OrderParams :=
  orderAmount <- BigInt_of_number (Number.of_Z 1000000) ;;
  let sellOrder := false in
  let orderType := Number.of_Z 0 in
  let limitPrice := Number.of_Z 0 in
  (if sellOrder
   then Common.validateSellOrderPrecision orderProcessor assetToken
          assetTokenAddress orderAmount
   else ret tt) ;;
  now <- read w_now ;;
  ret {| requestTimestamp := Number.of_Z now;
         recipient := recipientAddress;
         assetToken := assetTokenAddress;
         paymentToken := paymentTokenAddress;
         sell := sellOrder;
         orderType := orderType;
         assetTokenQuantity := Number.of_Z 0;
         paymentTokenQuantity := Number.of_Z orderAmount;
         price := limitPrice;
         tif := Number.of_Z 1 |}.

(** The six environment variables of [main] (lines 58-75). *)
Definition environment : M (string * address * address) :=
  privateKey <- read (fun w => w_env w "PRIVATE_KEY") ;;
  RPC_URL <- read (fun w => w_env w "RPC_URL") ;;
  assetTokenAddress <- read (fun w => w_env w "ASSETTOKEN") ;;
  paymentTokenAddress <- read (fun w => w_env w "PAYMENTTOKEN") ;;
  dinariApiKey <- read (fun w => w_env w "DINARI_API_KEY") ;;
  PIMLICO_API_KEY <- read (fun w => w_env w "PIMLICO_API_KEY") ;;
  match privateKey, assetTokenAddress, paymentTokenAddress with
  | Some key, Some asset, Some payment =>
      if falsy privateKey || falsy RPC_URL || falsy assetTokenAddress
         || falsy paymentTokenAddress || falsy dinariApiKey
         || falsy PIMLICO_API_KEY
      then throw (Error "Missing environment variables")
      else ret (key, asset, payment)
  | _, _, _ => throw (Error "Missing environment variables")
  end.

(** [main] (lines 55-212). *)
Definition main : M unit :=
  '(privateKey, assetTokenAddress, paymentTokenAddress) <- environment ;;
  eoaSigner <- compute (fun w => w_walletAddress w privateKey) ;;
  chainId <- request GetNetwork w_getNetwork ;;
  (* Smart Account Setup *)
  account <- setupSmartAccount privateKey ;;
  '(paymentToken, assetToken, orderProcessor) <-
    setupContracts chainId paymentTokenAddress assetTokenAddress ;;
  (* Order Configuration *)
  orderParams <- configureOrder orderProcessor assetToken account
                   assetTokenAddress paymentTokenAddress ;;
  '(fees, feeQuoteResponse) <-
    Common.getFeeQuote chainId orderProcessor orderParams ;;
  totalSpendAmount <- Common.totalSpendAmount orderParams fees ;;
  (* Create Batch Transaction *)
  let approvalData := ApproveData orderProcessor totalSpendAmount in
  let createOrderData :=
    Common.encodeCreateOrder orderParams feeQuoteResponse in
  try_catch
    (let transactions :=
       [ {| to := paymentTokenAddress; data := approvalData; tx_value := 0 |};
         {| to := orderProcessor; data := createOrderData; tx_value := 0 |} ] in
     Common.executeOrderTransaction transactions orderProcessor)
    (fun error => console_log (LogCaught error)).

End Sponsored.

(** ** src/smart_account.ts *)
Module SmartAccount.

Definition STOCK_ADDRESSES_APPLE : address :=
  "0xD771a71E5bb303da787b4ba2ce559e39dc6eD85c".
Definition STOCK_ADDRESSES_NVIDIA : address :=
  "0x4B47153A241b9d22ae37c2aAEe7A6519fF2Dbfc6".
Definition ISAAC_MAIN_WALLET : address :=
  "0x02C48c159FDfc1fC18BA0323D67061dE1dEA329F".

Definition ASSET_TOKEN_ADDRESS : address := STOCK_ADDRESSES_NVIDIA.
Definition SENT_STOCKS : bool := true.

(** A parameter with a default value. *)
Definition default {A} (d : A) (x : option A) : A :=
  match x with
  | Some a => a
  | None => d
  end.

(** [sendToken] (lines 72-129). *)
Definition sendToken (asset to_ : option address) : M unit :=
  let asset := default STOCK_ADDRESSES_APPLE asset in
  let to_ := default ISAAC_MAIN_WALLET to_ in
  tokenAmount <-
    BigInt_of_number (Number.mul (Number.of_ratio 1 10) (Number.pow10 18)) ;;
  let approvalData := ApproveData asset tokenAmount in
  let transferData := TransferData to_ tokenAmount in
  let transactions_1 :=
    [ {| to := asset; data := approvalData; tx_value := 0 |};
      {| to := asset; data := transferData; tx_value := 0 |} ] in
  txHash <-
    request (SendTransactions transactions_1)
      (fun w => w_sendTransactions w transactions_1) ;;
  console_log (LogSentTokenHash txHash).

(** [setupSmartAccount] (lines 421-448). *)
Definition setupSmartAccount (privateKey : string) : M address :=
  request (SignerToSimpleSmartAccount privateKey)
    (fun w => w_smartAccountAddress w privateKey).

(** [setupContracts] (lines 450-474). *)
Definition setupContracts (chainId : Z) (paymentTokenAddress : address)
  : M (address * address * address) :=
  orderProcessorAddress <- read (fun w => w_networkAddresses w chainId) ;;
  paymentToken <- new_Contract (Some paymentTokenAddress) ;;
  assetToken <- new_Contract (Some ASSET_TOKEN_ADDRESS) ;;
  orderProcessor <- new_Contract orderProcessorAddress ;;
  ret (paymentToken, assetToken, orderProcessor).

(** [validateSellOrderPrecision] (lines 361-378). *)
Definition validateSellOrderPrecision (orderProcessor assetToken : address)
    (orderAmount : Z) : M unit :=
  Common.validateSellOrderPrecision orderProcessor assetToken
    ASSET_TOKEN_ADDRESS orderAmount.

(** [configureOrder] (lines 329-359); [amount] defaults to
    [100 * 10 ** 6]. *)
Definition configureOrder (orderProcessor assetToken : address)
    (recipientAddress : address) (paymentTokenAddress : address)
    (amount : option Number.t) : M OrderParams :=
  let amount :=
    default (Number.mul (Number.of_Z 100) (Number.pow10 6)) amount in
  orderAmount <- BigInt_of_number amount ;;
  let sellOrder := false in
  let orderType := Number.of_Z 0 in
  let limitPrice := Number.of_Z 0 in
  (if sellOrder
   then validateSellOrderPrecision orderProcessor assetToken orderAmount
   else ret tt) ;;
  now <- read w_now ;;
  ret {| requestTimestamp := Number.of_Z now;
         recipient := recipientAddress;
         assetToken := ASSET_TOKEN_ADDRESS;
         paymentToken := paymentTokenAddress;
         sell := sellOrder;
         orderType := orderType;
         assetTokenQuantity := Number.of_Z 0;
         paymentTokenQuantity := Number.of_Z orderAmount;
         price := limitPrice;
         tif := Number.of_Z 1 |}.

(** [createOrder] (lines 233-308). *)
Definition createOrder (orderProcessor : address)
    (orderParams : OrderParams) (feeQuoteResponse : FeeQuoteResponse)
    (totalSpendAmount : Z) (orderProcessorAddress : address)
    (PAYMENT_TOKEN_ADDRESS : address) : M unit :=
  let approvalData := ApproveData orderProcessorAddress totalSpendAmount in
  let createOrderData :=
    Common.encodeCreateOrder orderParams feeQuoteResponse in
  let transactions :=
    [ {| to := PAYMENT_TOKEN_ADDRESS; data := approvalData; tx_value := 0 |};
      {| to := orderProcessorAddress; data := createOrderData;
         tx_value := 0 |} ] in
  Common.executeOrderTransaction transactions orderProcessor.

(** The five environment variables of [main] (lines 132-148). *)
Definition environment : M (string * address) :=
  PRIVATE_KEY <- read (fun w => w_env w "PRIVATE_KEY") ;;
  RPC_URL <- read (fun w => w_env w "RPC_URL") ;;
  PAYMENT_TOKEN_ADDRESS <- read (fun w => w_env w "PAYMENTTOKEN") ;;
  DINARI_API_KEY <- read (fun w => w_env w "DINARI_API_KEY") ;;
  PIMLICO_API_KEY <- read (fun w => w_env w "PIMLICO_API_KEY") ;;
  match PRIVATE_KEY, PAYMENT_TOKEN_ADDRESS with
  | Some key, Some payment =>
      if falsy PRIVATE_KEY || falsy RPC_URL || falsy PAYMENT_TOKEN_ADDRESS
         || falsy DINARI_API_KEY || falsy PIMLICO_API_KEY
      then throw (Error "Missing environment variables")
      else ret (key, payment)
  | _, _ => throw (Error "Missing environment variables")
  end.

(** [main] (lines 139-231). *)
Definition main : M unit :=
  '(PRIVATE_KEY, PAYMENT_TOKEN_ADDRESS) <- environment ;;
  eoaSigner <- compute (fun w => w_walletAddress w PRIVATE_KEY) ;;
  chainId <- request GetNetwork w_getNetwork ;;
  (* Smart Account Setup *)
  account <- setupSmartAccount PRIVATE_KEY ;;
  '(paymentToken, assetToken, orderProcessor) <-
    setupContracts chainId PAYMENT_TOKEN_ADDRESS ;;
  (* Order Configuration *)
  orderParams <- configureOrder orderProcessor assetToken account
                   PAYMENT_TOKEN_ADDRESS None ;;
  '(fees, feeQuoteResponse) <-
    Common.getFeeQuote chainId orderProcessor orderParams ;;
  totalSpendAmount <- Common.totalSpendAmount orderParams fees ;;
  (* Create Batch Transaction *)
  try_catch
    (if SENT_STOCKS
     then sendToken None None
     else createOrder orderProcessor orderParams feeQuoteResponse
            totalSpendAmount orderProcessor PAYMENT_TOKEN_ADDRESS)
    (fun error => console_log (LogCaught error)).

End SmartAccount.

(** ** Sample worlds *)
Module Demo.

Definition processor : address := "0xProcessor".
Definition usdc : address := "0xUSDC".
Definition topic : string := "0xOrderCreatedTopic".

Definition quote (fee : json) : FeeQuoteResponse :=
  {| fee_quote :=
       {| fq_orderId := JString "77";
          fq_requester := "0xRequester";
          fq_fee := fee;
          fq_timestamp := JNumber (Number.of_Z 1700000000);
          fq_deadline := JNumber (Number.of_Z 1700000300) |};
     fee_quote_signature := "0xquotesig" |}.

(** An order of one payment token. *)
Definition order : OrderParams :=
  {| requestTimestamp := Number.of_Z 1700000000000;
     recipient := "0xSmartAccount";
     assetToken := "0xAsset";
     paymentToken := usdc;
     sell := false;
     orderType := Number.of_Z 0;
     assetTokenQuantity := Number.of_Z 0;
     paymentTokenQuantity := Number.of_Z 1000000;
     price := Number.of_Z 0;
     tif := Number.of_Z 1 |}.

(** The creation event of the processor (its address in lower case, as
    nodes report it), a token event, and a log of another contract that
    carries the creation topic. *)
Definition created : Log :=
  {| log_address := "0xprocessor";
     log_topics := [topic];
     log_data := "0x01" |}.
Definition approval : Log :=
  {| log_address := usdc;
     log_topics := ["0xApproval"];
     log_data := "0x02" |}.
Definition foreign : Log :=
  {| log_address := "0xOther";
     log_topics := [topic];
     log_data := "0x03" |}.

(** A world given by the decimal [reduction] and the [decimals] of the
    asset, the answer [sent] to a batch of the smart account, the time
    [receipt_after] at which the bundler has the receipt (if ever), and
    the [logs] of the transaction; every other call succeeds. *)
Definition world_with (reduction decimals : N) (sent : result string)
    (receipt_after : option Z) (txlogs : list Log) : World :=
  {| w_env := fun _ => Some "0xENV";
     w_now := 1700000000000;
     w_networkAddresses := fun _ => Some processor;
     w_getEventTopic := fun _ => topic;
     w_parseLog := fun l => Ok [("order-" ++ log_data l)%string; "0xAccount"];
     w_stringToBigInt := fun _ => None;
     w_walletAddress := fun _ => Ok "0xSigner";
     w_getNetwork := Ok 11155111;
     w_orderDecimalReduction := fun _ _ => Ok reduction;
     w_decimals := fun _ => Ok decimals;
     w_post := fun _ _ => Ok (quote (JNumber (Number.of_Z 2500)));
     w_nonces := fun _ _ => Ok 4;
     w_getBlockNumber := Ok 100;
     w_getBlock := fun _ => Ok (Some 1700000000);
     w_name := fun _ => Ok "USD Coin";
     w_version := fun _ => Ok "2";
     w_signTypedData := fun _ _ => Ok "0xsignature";
     w_splitSignature :=
       fun _ => Ok {| sig_v := 27; sig_r := "0xr"; sig_s := "0xs" |};
     w_multicall := fun _ _ => Ok "0xtx";
     w_wait := fun tx => Ok {| transactionHash := tx; logs := txlogs |};
     w_getOrderStatus := fun _ _ => Ok "ACTIVE";
     w_smartAccountAddress := fun _ => Ok "0xSmartAccount";
     w_sendTransactions := fun _ => sent;
     w_userOperationReceipt :=
       fun _ =>
         match receipt_after with
         | Some t => Some (t, {| uo_transactionHash := "0xtx" |})
         | None => None
         end;
     w_getTransactionReceipt :=
       fun h => Ok {| transactionHash := h; logs := txlogs |} |}.

(** Every call succeeds and the order is created. *)
Definition world : World :=
  world_with 9 18 (Ok "0xuserop") (Some 1500) [approval; created].

End Demo.

(** ** Specification vocabulary *)

(** Every event of the run of [m] in [w] satisfies [P]. *)
Definition all_events (P : event -> Prop) (w : World) {A} (m : M A) : Prop :=
  Forall P (trace m w).

(** The fields every order of the scripts has: a buy, a market order
    ([orderType = 0], [price = 0]) paid in the payment token. *)
Definition buy_market_order (o : OrderParams) : Prop :=
  sell o = false
  /\ orderType o = Number.of_Z 0
  /\ assetTokenQuantity o = Number.of_Z 0
  /\ price o = Number.of_Z 0
  /\ tif o = Number.of_Z 1.

(** The chain reads of [validateSellOrderPrecision]. *)
Definition is_precision_call (ev : event) : bool :=
  match ev with
  | ECall (OrderDecimalReduction _ _) => true
  | ECall (Decimals _) => true
  | _ => false
  end.

(** Calldata that authorizes spending, and calldata that creates an order. *)
Definition is_authorization (c : calldata) : bool :=
  match c with
  | SelfPermitData _ _ _ _ _ _ _ => true
  | ApproveData _ _ => true
  | _ => false
  end.

Definition is_order_creation (c : calldata) : bool :=
  match c with
  | CreateOrderData _ _ _ => true
  | _ => false
  end.

(** A batch of exactly two calls, the authorization first. *)
Definition order_batch (calls : list calldata) : Prop :=
  exists a o,
    calls = [a; o] /\ is_authorization a = true /\ is_order_creation o = true.

(** An event that submits a batch submits an order batch. *)
Definition submits_order_batch (ev : event) : Prop :=
  match ev with
  | ECall (Multicall _ calls) => order_batch calls
  | ECall (SendTransactions transactions) =>
      order_batch (map data transactions)
  | _ => True
  end.

(** The batches a trace submits. *)
Definition batches (tr : list event) : list (list calldata) :=
  flat_map
    (fun ev =>
       match ev with
       | ECall (Multicall _ calls) => [calls]
       | ECall (SendTransactions transactions) => [map data transactions]
       | _ => []
       end) tr.

(** The batch of the direct and of the sponsored script in [Demo.world]. *)
Definition demo_direct_batch : list calldata :=
  Eval vm_compute in hd [] (batches (trace Direct.main Demo.world)).

Definition demo_sponsored_transactions : list transaction :=
  Eval vm_compute in
    hd []
      (flat_map
         (fun ev =>
            match ev with
            | ECall (SendTransactions transactions) => [transactions]
            | _ => []
            end) (trace Sponsored.main Demo.world)).

(** The error [validateSellOrderPrecision] throws. *)
Definition precision_error (maxDecimals : Z) : exn :=
  Error ("Order amount precision exceeds max decimals of "
           ++ string_of_Z maxDecimals).

(** The bundler has no receipt for [hash] within [timeout] milliseconds. *)
Definition no_receipt_within (w : World) (hash : string) (timeout : Z) : Prop :=
  match w_userOperationReceipt w hash with
  | Some (t, _) => timeout < t
  | None => True
  end.

(** Every wait for a user-operation receipt is bounded by 60 000 ms. *)
Definition waits_60000 (ev : event) : Prop :=
  match ev with
  | ECall (WaitForUserOperationReceipt _ timeout) => timeout = 60000
  | _ => True
  end.

(** [x] is the first element of [l] that satisfies [P]. *)
Definition first_such {A} (P : A -> bool) (l : list A) (x : A) : Prop :=
  exists pre post,
    l = pre ++ x :: post /\ P x = true /\ forall y, In y pre -> P y = false.

(** The batch [createOrder] of smart_account.ts sends for [Demo.order]. *)
Definition demo_create_order_transactions : list transaction :=
  [ {| to := Demo.usdc;
       data := ApproveData Demo.processor 1002500;
       tx_value := 0 |};
    {| to := Demo.processor;
       data := Common.encodeCreateOrder Demo.order
                 (Demo.quote (JNumber (Number.of_Z 2500)));
       tx_value := 0 |} ].

(** The batch [sendToken] sends with its default arguments: an approval
    and a transfer of [10^17] units, both addressed to the token. *)
Definition sent_token_batch : list transaction :=
  [ {| to := SmartAccount.STOCK_ADDRESSES_APPLE;
       data := ApproveData SmartAccount.STOCK_ADDRESSES_APPLE (10 ^ 17);
       tx_value := 0 |};
    {| to := SmartAccount.STOCK_ADDRESSES_APPLE;
       data := TransferData SmartAccount.ISAAC_MAIN_WALLET (10 ^ 17);
       tx_value := 0 |} ].

(** An event that submits [createOrder] calldata. *)
Definition creates_order (ev : event) : bool :=
  match ev with
  | ECall (Multicall _ calls) => existsb is_order_creation calls
  | ECall (SendTransactions transactions) =>
      existsb (fun t => is_order_creation (data t)) transactions
  | _ => false
  end.

(** The event that dispatches a batch of the smart account. *)
Definition is_send (ev : event) : bool :=
  match ev with
  | ECall (SendTransactions _) => true
  | _ => false
  end.

(** The events [pre] end with the probe of the token's version. *)
Definition version_probe (pre : list event) : Prop :=
  exists pre' token, pre = pre' ++ [ECall (TokenVersion token)].

(** No exception is handled. *)
Definition never (pre : list event) : Prop := False.

(** Errors surface: an exception raised during the run, unless it is
    [handled] (told from the events before it), is the last event of the
    run and is what the run throws; and what the run throws was raised as
    its last event. *)
Definition surfaces (handled : list event -> Prop) {A}
    (tr : list event) (out : result A) : Prop :=
  (forall e pre post,
      tr = pre ++ ERaise e :: post ->
      handled pre \/ (post = [] /\ out = Throw e))
  /\ (forall e, out = Throw e -> exists pre, tr = pre ++ [ERaise e]).

(** Errors surface until the batch is dispatched and are caught after:
    an exception raised before any [sendTransactions] ends the run and
    is thrown; an exception raised after one is followed by its report on
    the console only, and the run returns. *)
Definition caught_after_dispatch (tr : list event) (out : result unit)
  : Prop :=
  (forall e pre post,
      tr = pre ++ ERaise e :: post ->
      if existsb is_send pre
      then post = [EConsole (LogCaught e)] /\ out = Ok tt
      else post = [] /\ out = Throw e)
  /\ (forall e, out = Throw e -> exists pre, tr = pre ++ [ERaise e]).

(** The errors of the script [m] surface in the world [w]. *)
Definition sf (handled : list event -> Prop) (w : World) {A} (m : M A)
  : Prop :=
  surfaces handled (trace m w) (outcome m w).

(** The errors of the script [m] are caught after the dispatch. *)
Definition cad (w : World) (m : M unit) : Prop :=
  caught_after_dispatch (trace m w) (outcome m w).

(** A world whose bundler rejects the batch, and one whose bundler never
    has the receipt. *)
Definition demo_rejecting_world : World :=
  Demo.world_with 9 18 (Throw (Error "bundler rejected")) (Some 1500)
    [Demo.approval; Demo.created].

Definition demo_silent_world : World :=
  Demo.world_with 9 18 (Ok "0xuserop") None [Demo.approval; Demo.created].

(** What the sponsored script does in [demo_rejecting_world] before the
    bundler's answer. *)
Definition demo_rejected_prefix : list event :=
  Eval vm_compute in firstn 4 (trace Sponsored.main demo_rejecting_world).

(** A world whose bundler has the receipt one millisecond too late. *)
Definition demo_late_world : World :=
  Demo.world_with 9 18 (Ok "0xuserop") (Some 60001)
    [Demo.approval; Demo.created].

(** ** Vocabulary for the further properties *)

(** [w] with some of its answers replaced: the environment, the block
    read by [getBlock], the token's version, the answer of the pricing
    service, the log parser. *)
Definition demo_vary (w : World)
    (env : option (string -> option string))
    (block : option (result (option Z)))
    (version : option (result string))
    (posted : option (result FeeQuoteResponse))
    (parse : option (Log -> result (list string))) : World :=
  {| w_env := match env with Some f => f | None => w_env w end;
     w_now := w_now w;
     w_networkAddresses := w_networkAddresses w;
     w_getEventTopic := w_getEventTopic w;
     w_parseLog := match parse with Some f => f | None => w_parseLog w end;
     w_stringToBigInt := w_stringToBigInt w;
     w_walletAddress := w_walletAddress w;
     w_getNetwork := w_getNetwork w;
     w_orderDecimalReduction := w_orderDecimalReduction w;
     w_decimals := w_decimals w;
     w_post :=
       match posted with Some r => fun _ _ => r | None => w_post w end;
     w_nonces := w_nonces w;
     w_getBlockNumber := w_getBlockNumber w;
     w_getBlock :=
       match block with Some b => fun _ => b | None => w_getBlock w end;
     w_name := w_name w;
     w_version :=
       match version with Some v => fun _ => v | None => w_version w end;
     w_signTypedData := w_signTypedData w;
     w_splitSignature := w_splitSignature w;
     w_multicall := w_multicall w;
     w_wait := w_wait w;
     w_getOrderStatus := w_getOrderStatus w;
     w_smartAccountAddress := w_smartAccountAddress w;
     w_sendTransactions := w_sendTransactions w;
     w_userOperationReceipt := w_userOperationReceipt w;
     w_getTransactionReceipt := w_getTransactionReceipt w |}.

(** Kinds of events. *)
Definition is_call (ev : event) : bool :=
  match ev with
  | ECall _ => true
  | _ => false
  end.

Definition is_post (ev : event) : bool :=
  match ev with
  | ECall (Post _ _) => true
  | _ => false
  end.

Definition is_sign (ev : event) : bool :=
  match ev with
  | ECall (SignTypedData _ _) => true
  | _ => false
  end.

Definition is_multicall (ev : event) : bool :=
  match ev with
  | ECall (Multicall _ _) => true
  | _ => false
  end.

Definition is_wait (ev : event) : bool :=
  match ev with
  | ECall (Wait _) => true
  | _ => false
  end.

Definition is_get_order_status (ev : event) : bool :=
  match ev with
  | ECall (GetOrderStatus _ _) => true
  | _ => false
  end.

Definition is_wait_for_receipt (ev : event) : bool :=
  match ev with
  | ECall (WaitForUserOperationReceipt _ _) => true
  | _ => false
  end.

Definition is_get_transaction_receipt (ev : event) : bool :=
  match ev with
  | ECall (GetTransactionReceipt _) => true
  | _ => false
  end.

(** The number of events of a kind in a trace. *)
Definition count_events (kind : event -> bool) (tr : list event) : nat :=
  List.length (filter kind tr).

(** Every event of kind [b] comes after an event of kind [a]. *)
Definition always_after (a b : event -> bool) (tr : list event) : Prop :=
  forall pre x post,
    tr = pre ++ x :: post -> b x = true -> existsb a pre = true.

(** A scan that decides [always_after]: the first event of either kind
    is of kind [a]. *)
Fixpoint precedes (a b : event -> bool) (tr : list event) : bool :=
  match tr with
  | [] => true
  | x :: rest =>
      if b x then false else if a x then true else precedes a b rest
  end.


(** The permit of the direct script in [Demo.world]. *)
Definition demo_domain : PermitDomain :=
  {| pd_name := "USD Coin";
     pd_version := "2";
     pd_chainId := 11155111;
     pd_verifyingContract := "0xENV" |}.

Definition demo_message : PermitMessage :=
  {| pm_owner := "0xSigner";
     pm_spender := Demo.processor;
     pm_value := 1002500;
     pm_nonce := 4;
     pm_deadline := 1700000300 |}.

(** [Demo.world] with a latest block whose time is 0. *)
Definition demo_genesis_world : World :=
  demo_vary Demo.world None (Some (Ok (Some 0))) None None None.

(** Some environment variable of the sponsored script, and of
    smart_account.ts, is missing or empty. *)
Definition sponsored_environment_missing (w : World) : bool :=
  falsy (w_env w "PRIVATE_KEY") || falsy (w_env w "RPC_URL")
  || falsy (w_env w "ASSETTOKEN") || falsy (w_env w "PAYMENTTOKEN")
  || falsy (w_env w "DINARI_API_KEY") || falsy (w_env w "PIMLICO_API_KEY").

Definition smart_account_environment_missing (w : World) : bool :=
  falsy (w_env w "PRIVATE_KEY") || falsy (w_env w "RPC_URL")
  || falsy (w_env w "PAYMENTTOKEN") || falsy (w_env w "DINARI_API_KEY")
  || falsy (w_env w "PIMLICO_API_KEY").

(** The exception of the sponsored scripts for a missing variable. *)
Definition missing_environment : exn := Error "Missing environment variables".

(** A world without environment, and one with an empty [RPC_URL]. *)
Definition demo_bare_world : World :=
  demo_vary Demo.world (Some (fun _ => None)) None None None None.

Definition demo_no_rpc_world : World :=
  demo_vary Demo.world
    (Some (fun name => if String.eqb name "RPC_URL" then Some ""
                       else Some "0xENV"))
    None None None None.

(** The fee requests of a trace, and those of the three scripts in
    [Demo.world]. *)
Definition posted (tr : list event) : list FeeQuoteData :=
  flat_map
    (fun ev =>
       match ev with
       | ECall (Post _ body) => [body]
       | _ => []
       end) tr.

Definition demo_request (main : M unit) : FeeQuoteData :=
  hd {| chain_id := 0; contract_address := ""; order_data := Demo.order |}
    (posted (trace main Demo.world)).

Definition demo_direct_request : FeeQuoteData :=
  Eval vm_compute in demo_request Direct.main.

Definition demo_sponsored_request : FeeQuoteData :=
  Eval vm_compute in demo_request Sponsored.main.

Definition demo_smart_account_request : FeeQuoteData :=
  Eval vm_compute in demo_request SmartAccount.main.

(** [Demo.world] with a parser that rejects the log [Demo.foreign]. *)
Definition demo_strict_parser_world : World :=
  demo_vary Demo.world None None None None
    (Some (fun l =>
             if String.eqb (log_data l) "0x03"
             then Throw (Error "data out-of-bounds")
             else Ok [("order-" ++ log_data l)%string; "0xAccount"])).

(** [Demo.world] with an asset whose decimals cannot be read. *)
Definition demo_no_decimals_world : World :=
  {| w_env := w_env Demo.world;
     w_now := w_now Demo.world;
     w_networkAddresses := w_networkAddresses Demo.world;
     w_getEventTopic := w_getEventTopic Demo.world;
     w_parseLog := w_parseLog Demo.world;
     w_stringToBigInt := w_stringToBigInt Demo.world;
     w_walletAddress := w_walletAddress Demo.world;
     w_getNetwork := w_getNetwork Demo.world;
     w_orderDecimalReduction := w_orderDecimalReduction Demo.world;
     w_decimals := fun _ => Throw (Error "call revert exception");
     w_post := w_post Demo.world;
     w_nonces := w_nonces Demo.world;
     w_getBlockNumber := w_getBlockNumber Demo.world;
     w_getBlock := w_getBlock Demo.world;
     w_name := w_name Demo.world;
     w_version := w_version Demo.world;
     w_signTypedData := w_signTypedData Demo.world;
     w_splitSignature := w_splitSignature Demo.world;
     w_multicall := w_multicall Demo.world;
     w_wait := w_wait Demo.world;
     w_getOrderStatus := w_getOrderStatus Demo.world;
     w_smartAccountAddress := w_smartAccountAddress Demo.world;
     w_sendTransactions := w_sendTransactions Demo.world;
     w_userOperationReceipt := w_userOperationReceipt Demo.world;
     w_getTransactionReceipt := w_getTransactionReceipt Demo.world |}.

(** * Properties *)

(** ** Numbers that hold integers *)
Module NumberFacts.

Import Number.

Lemma twos_nonneg (p : positive) : 0 <= twos p.
Proof. induction p; cbn [twos]; lia. Qed.

Lemma odd_part_twos (p : positive) :
  Zpos p = Zpos (odd_part p) * 2 ^ twos p.
Proof.
  induction p as [p IH | p IH | ]; cbn [twos odd_part].
  - rewrite Z.pow_0_r; lia.
  - replace (1 + twos p) with (Z.succ (twos p)) by lia.
    rewrite Z.pow_succ_r by apply twos_nonneg.
    change (Zpos p~0) with (2 * Zpos p). rewrite IH at 1. ring.
  - reflexivity.
Qed.

(** [canon m 0] denotes the integer [m]. *)
Lemma canon_spec (m : Z) :
  exists m' e',
    canon m 0 = Fin m' e' /\ 0 <= e' /\ m = m' * 2 ^ e' /\ (m' = 0 <-> m = 0).
Proof.
  destruct m as [ | p | p]; cbn [canon].
  - exists 0, 0. repeat split; try reflexivity; lia.
  - exists (Zpos (odd_part p)), (0 + twos p).
    pose proof (twos_nonneg p). pose proof (odd_part_twos p).
    rewrite Z.add_0_l.
    repeat split; try lia; discriminate.
  - exists (Zneg (odd_part p)), (0 + twos p).
    pose proof (twos_nonneg p). pose proof (odd_part_twos p) as E.
    rewrite Z.add_0_l.
    repeat split; try lia; discriminate.
Qed.

Lemma to_bigint_canon (n : Z) : to_bigint (canon n 0) = Some n.
Proof.
  destruct (canon_spec n) as (m' & e' & -> & He & Hn & _).
  cbn [to_bigint]. destruct (Z.leb_spec 0 e'); [ | lia ].
  now rewrite Hn.
Qed.

Lemma nonzero_canon (m e : Z) : nonzero (canon m e) = negb (m =? 0).
Proof. destruct m; reflexivity. Qed.

(** [Number(n)] is exact below [2^53]. *)
Lemma of_Z_small (n : Z) : Z.abs n < 2 ^ 53 -> of_Z n = canon n 0.
Proof.
  intros Hn. unfold of_Z, round.
  assert (Hlog : Z.log2 (Z.abs n) < 53).
  { destruct (Z.eq_dec (Z.abs n) 0) as [-> | Hz]; [ reflexivity | ].
    apply Z.log2_lt_pow2; lia. }
  assert (Hsh : Z.max (Z.log2 (Z.abs n) + 1 - prec) (emin - 0) <= 0)
    by (unfold prec, emin; lia).
  destruct (Z.ltb_spec 0 (Z.max (Z.log2 (Z.abs n) + 1 - prec) (emin - 0)));
    [ lia | ].
  replace (emax <=? Z.log2 (Z.abs n) + 0) with false
    by (symmetry; apply Z.leb_gt; unfold emax; lia).
  rewrite andb_false_r. f_equal. lia.
Qed.

Lemma of_Z_exact (n : Z) : Z.abs n <= 2 ^ 53 -> of_Z n = canon n 0.
Proof.
  intros Hn. destruct (Z.eq_dec (Z.abs n) (2 ^ 53)) as [E | E].
  - destruct (Z.abs_spec n) as [[_ A] | [_ A]]; rewrite A in E.
    + subst n. vm_compute. reflexivity.
    + replace n with (- 2 ^ 53) by lia. vm_compute. reflexivity.
  - apply of_Z_small. lia.
Qed.

(** [BigInt(Number(n)) = n] for [|n| <= 2^53]. *)
Lemma to_bigint_of_Z (n : Z) :
  Z.abs n <= 2 ^ 53 -> to_bigint (of_Z n) = Some n.
Proof. intros Hn. rewrite of_Z_exact by exact Hn. apply to_bigint_canon. Qed.

(** [10 ** k] is exact up to [10 ** 22]. *)
Lemma pow10_exact (k : N) :
  (k <= 22)%N -> pow10 k = canon (10 ^ Z.of_N k) 0.
Proof.
  intros Hk.
  assert (HIn : In k (map N.of_nat (seq 0 23))).
  { apply in_map_iff. exists (N.to_nat k). split.
    - apply N2Nat.id.
    - apply in_seq. lia. }
  cbn [seq map] in HIn.
  repeat (destruct HIn as [<- | HIn]; [ vm_compute; reflexivity | ]).
  destruct HIn.
Qed.

(** On integers, [%] is the remainder of the integers. *)
Lemma rem_canon (a b : Z) :
  b <> 0 -> nonzero (rem (canon a 0) (canon b 0)) = negb (Z.rem a b =? 0).
Proof.
  intros Hb.
  destruct (canon_spec a) as (ma & ea & -> & Hea & Ha & _).
  destruct (canon_spec b) as (mb & eb & -> & Heb & Hb' & Hb0).
  assert (Hmb : mb <> 0) by (intros E; apply Hb, Hb0, E).
  assert (Hrem : rem (Fin ma ea) (Fin mb eb)
                 = canon (Z.rem (ma * 2 ^ (ea - Z.min ea eb))
                                (mb * 2 ^ (eb - Z.min ea eb)))
                     (Z.min ea eb)).
  { destruct mb; [ congruence | reflexivity | reflexivity ]. }
  rewrite Hrem, nonzero_canon. f_equal.
  set (e := Z.min ea eb).
  assert (He : 0 <= e) by (unfold e; lia).
  assert (Hpa : 2 ^ ea = 2 ^ (ea - e) * 2 ^ e)
    by (rewrite <- Z.pow_add_r by (unfold e; lia); f_equal; lia).
  assert (Hpb : 2 ^ eb = 2 ^ (eb - e) * 2 ^ e)
    by (rewrite <- Z.pow_add_r by (unfold e; lia); f_equal; lia).
  assert (H2 : 2 ^ e <> 0) by (apply Z.pow_nonzero; lia).
  rewrite Ha, Hb', Hpa, Hpb, !Z.mul_assoc.
  rewrite Z.mul_rem_distr_r.
  - destruct (Z.eqb_spec (Z.rem (ma * 2 ^ (ea - e)) (mb * 2 ^ (eb - e))) 0)
      as [E | E].
    + rewrite E. reflexivity.
    + symmetry. apply Z.eqb_neq. intros F.
      apply Z.mul_eq_0 in F. tauto.
  - apply Z.neq_mul_0. split; [ exact Hmb | ].
    apply Z.pow_nonzero; unfold e; lia.
  - exact H2.
Qed.

(** The test of [validateSellOrderPrecision] where it is exact. *)
Lemma precision_test_exact (q : Z) (k : N) :
  Z.abs q <= 2 ^ 53 -> (k <= 22)%N ->
  nonzero (rem (of_Z q) (pow10 k)) = negb (Z.rem q (10 ^ Z.of_N k) =? 0).
Proof.
  intros Hq Hk. rewrite of_Z_exact, pow10_exact by assumption.
  apply rem_canon. apply Z.pow_nonzero; lia.
Qed.

(** [canon] keeps the value and does not lower the exponent. *)
Lemma canon_nonzero_spec (m e : Z) :
  m <> 0 ->
  exists m' e', canon m e = Fin m' e' /\ e <= e' /\ m = m' * 2 ^ (e' - e).
Proof.
  intros Hm. destruct m as [ | p | p]; [ congruence | | ]; cbn [canon].
  - exists (Zpos (odd_part p)), (e + twos p).
    pose proof (twos_nonneg p). pose proof (odd_part_twos p).
    replace (e + twos p - e) with (twos p) by lia.
    repeat split; lia.
  - exists (Zneg (odd_part p)), (e + twos p).
    pose proof (twos_nonneg p). pose proof (odd_part_twos p).
    replace (e + twos p - e) with (twos p) by lia.
    repeat split; lia.
Qed.

Lemma shr_even_lower (a sh : Z) : Z.shiftr a sh <= shr_even a sh.
Proof. unfold shr_even. destruct (_ || _); lia. Qed.

(** Rounding an integer of at least [2^j] gives at least [2^j]
    ([53 <= j]). *)
Lemma round_large (n j : Z) :
  53 <= j -> 2 ^ j <= n ->
  round n 0 = Inf false
  \/ exists m e, round n 0 = Fin m e /\ 0 <= e /\ 2 ^ j <= m * 2 ^ e.
Proof.
  intros Hj Hn. unfold round.
  assert (Hpos : 0 < n).
  { apply Z.lt_le_trans with (2 ^ j); [ apply Z.pow_pos_nonneg; lia | lia ]. }
  rewrite (Z.abs_eq n) by lia.
  assert (HL : j <= Z.log2 n) by (apply Z.log2_le_pow2; lia).
  set (L := Z.log2 n) in *.
  replace (Z.max (L + 1 - prec) (emin - 0)) with (L - 52)
    by (unfold prec, emin; lia).
  destruct (Z.ltb_spec 0 (L - 52)) as [Hsh | ]; [ | lia ].
  set (a' := shr_even n (L - 52)).
  assert (Ha' : 2 ^ 52 <= a').
  { eapply Z.le_trans; [ | apply shr_even_lower ].
    rewrite Z.shiftr_div_pow2 by lia.
    apply Z.div_le_lower_bound; [ apply Z.pow_pos_nonneg; lia | ].
    rewrite <- Z.pow_add_r by lia.
    replace (L - 52 + 52) with L by lia.
    apply Z.log2_spec. exact Hpos. }
  replace (n <? 0) with false by (symmetry; apply Z.ltb_ge; lia).
  destruct (_ && _); [ now left | right ].
  rewrite (Z.sgn_pos n Hpos), Z.mul_1_l, Z.add_0_l.
  assert (Ha0 : a' <> 0).
  { assert (0 < 2 ^ 52) by (apply Z.pow_pos_nonneg; lia). lia. }
  destruct (canon_nonzero_spec a' (L - 52) Ha0) as (m' & e' & -> & He & Hm).
  exists m', e'. repeat split; [ lia | ].
  replace e' with ((e' - (L - 52)) + (L - 52)) by lia.
  rewrite Z.pow_add_r by lia.
  rewrite Z.mul_assoc, <- Hm.
  apply Z.le_trans with (2 ^ 52 * 2 ^ (L - 52)).
  - rewrite <- Z.pow_add_r by lia. apply Z.pow_le_mono_r; lia.
  - apply Z.mul_le_mono_nonneg_r; [ apply Z.pow_nonneg; lia | exact Ha' ].
Qed.

(** A remainder by a larger Number is the dividend. *)
Lemma rem_canon_large (q m e : Z) :
  0 <= e -> Z.abs q < m * 2 ^ e ->
  nonzero (rem (canon q 0) (Fin m e)) = negb (q =? 0).
Proof.
  intros He Hq.
  destruct (canon_spec q) as (mq & eq & -> & Heq & Hv & _).
  assert (H2e : 0 < 2 ^ e) by (apply Z.pow_pos_nonneg; lia).
  assert (Hm : 0 < m) by nia.
  assert (Hrem : rem (Fin mq eq) (Fin m e)
                 = canon (Z.rem (mq * 2 ^ (eq - Z.min eq e))
                                (m * 2 ^ (e - Z.min eq e)))
                     (Z.min eq e)).
  { destruct m; [ lia | reflexivity | lia ]. }
  rewrite Hrem, nonzero_canon. f_equal.
  set (k := Z.min eq e) in *.
  assert (Hk : 0 <= k) by (unfold k; lia).
  assert (H2k : 0 < 2 ^ k) by (apply Z.pow_pos_nonneg; lia).
  set (A := mq * 2 ^ (eq - k)). set (B := m * 2 ^ (e - k)).
  assert (HA : q = A * 2 ^ k).
  { unfold A. rewrite <- Z.mul_assoc, <- Z.pow_add_r by (unfold k; lia).
    replace (eq - k + k) with eq by lia. exact Hv. }
  assert (HB : m * 2 ^ e = B * 2 ^ k).
  { unfold B. rewrite <- Z.mul_assoc, <- Z.pow_add_r by (unfold k; lia).
    now replace (e - k + k) with e by lia. }
  assert (HAB : Z.abs A < B).
  { rewrite HA, HB, Z.abs_mul, (Z.abs_eq (2 ^ k)) in Hq by lia. nia. }
  assert (HR : Z.rem A B = A).
  { destruct (Z.abs_spec A) as [[HA0 E] | [HA0 E]]; rewrite E in HAB.
    - apply Z.rem_small. lia.
    - replace A with (- (- A)) at 1 by lia.
      rewrite Z.rem_opp_l by lia. rewrite Z.rem_small by lia. lia. }
  rewrite HR, HA.
  destruct (Z.eqb_spec A 0) as [-> | HA0]; [ reflexivity | ].
  symmetry. apply Z.eqb_neq. nia.
Qed.

Lemma pow10_large (k : N) :
  (22 < k)%N ->
  pow10 k = Inf false
  \/ exists m e, pow10 k = Fin m e /\ 0 <= e /\ 2 ^ 54 <= m * 2 ^ e.
Proof.
  intros Hk. apply round_large; [ lia | ].
  apply Z.le_trans with (10 ^ 17); [ vm_compute; discriminate | ].
  apply Z.pow_le_mono_r; lia.
Qed.

(** The test of [validateSellOrderPrecision] is exact on amounts of at
    most [2^53]: it tells whether [10^k] divides the amount. *)
Lemma precision_test (q : Z) (k : N) :
  Z.abs q <= 2 ^ 53 ->
  nonzero (rem (of_Z q) (pow10 k)) = negb (Z.rem q (10 ^ Z.of_N k) =? 0).
Proof.
  intros Hq. destruct (N.leb_spec k 22) as [Hk | Hk].
  - now apply precision_test_exact.
  - assert (Hbig : Z.abs q < 10 ^ Z.of_N k).
    { apply Z.le_lt_trans with (2 ^ 53); [ exact Hq | ].
      apply Z.lt_le_trans with (10 ^ 16); [ vm_compute; reflexivity | ].
      apply Z.pow_le_mono_r; lia. }
    assert (HR : (Z.rem q (10 ^ Z.of_N k) =? 0) = (q =? 0)).
    { destruct (Z.abs_spec q) as [[H0 E] | [H0 E]]; rewrite E in Hbig.
      - rewrite Z.rem_small by lia. reflexivity.
      - replace q with (- (- q)) at 1 by lia.
        rewrite Z.rem_opp_l, Z.rem_small by lia.
        destruct (Z.eqb_spec (- - q) 0), (Z.eqb_spec q 0); lia || reflexivity. }
    rewrite HR, of_Z_exact by exact Hq.
    destruct (pow10_large k Hk) as [-> | (m & e & -> & He & Hm)].
    + destruct (canon_spec q) as (mq & eq & E & _ & Hv & Hz).
      rewrite E. destruct (Z.eqb_spec q 0) as [-> | Hq0].
      * assert (mq = 0) by (apply Hz; reflexivity). subst mq. reflexivity.
      * destruct mq; [ exfalso; apply Hq0, Hz; reflexivity | | ];
          reflexivity.
    + apply rem_canon_large; [ exact He | ].
      assert (2 ^ 53 < 2 ^ 54) by (vm_compute; reflexivity). lia.
Qed.

End NumberFacts.

Example toLowerCase_address :
  toLowerCase "0xD771a71E5bb303da787b4ba2ce559e39dc6eD85c"
  = "0xd771a71e5bb303da787b4ba2ce559e39dc6ed85c".
Proof. reflexivity. Qed.

(** ** Running a script step by step *)
Section Steps.

Context {A B : Type}.
Variables (m : M A) (k : A -> M B) (w : World).

Lemma trace_bind_ok (a : A) :
  outcome m w = Ok a -> trace (bind m k) w = trace m w ++ trace (k a) w.
Proof.
  unfold outcome, trace, bind. destruct (m w) as [t1 [a' | e]]; cbn.
  - intros [= ->]. now destruct (k a w).
  - discriminate.
Qed.

Lemma outcome_bind_ok (a : A) :
  outcome m w = Ok a -> outcome (bind m k) w = outcome (k a) w.
Proof.
  unfold outcome, bind. destruct (m w) as [t1 [a' | e]]; cbn.
  - intros [= ->]. now destruct (k a w).
  - discriminate.
Qed.

Lemma trace_bind_throw (e : exn) :
  outcome m w = Throw e -> trace (bind m k) w = trace m w.
Proof.
  unfold outcome, trace, bind. destruct (m w) as [t1 [a' | e']]; cbn.
  - discriminate.
  - reflexivity.
Qed.

Lemma outcome_bind_throw (e : exn) :
  outcome m w = Throw e -> outcome (bind m k) w = Throw e.
Proof.
  unfold outcome, bind. destruct (m w) as [t1 [a' | e']]; cbn.
  - discriminate.
  - intros [= ->]. reflexivity.
Qed.

(** A sequence that returns went through both of its parts. *)
Lemma outcome_bind_inv (b : B) :
  outcome (bind m k) w = Ok b ->
  exists a, outcome m w = Ok a /\ outcome (k a) w = Ok b.
Proof.
  destruct (outcome m w) as [a | e] eqn:E.
  - rewrite (outcome_bind_ok a E). eauto.
  - rewrite (outcome_bind_throw e E). discriminate.
Qed.

End Steps.

(** ** Properties of every event of a run *)
Section AllEvents.

Variable P : event -> Prop.
Variable w : World.

Hypothesis P_raise : forall e, P (ERaise e).
Hypothesis P_console : forall l, P (EConsole l).

Lemma all_ret {A} (a : A) : all_events P w (ret a).
Proof. constructor. Qed.

Lemma all_read {A} (f : World -> A) : all_events P w (read f).
Proof. constructor. Qed.

Lemma all_throw {A} (e : exn) : all_events P w (@throw A e).
Proof. repeat constructor. apply P_raise. Qed.

Lemma all_console_log (l : console) : all_events P w (console_log l).
Proof. repeat constructor. apply P_console. Qed.

Lemma all_compute {A} (f : World -> result A) :
  all_events P w (compute f).
Proof.
  unfold all_events, trace, compute. destruct (f w); repeat constructor.
  apply P_raise.
Qed.

Lemma all_request {A} (c : call) (f : World -> result A) :
  P (ECall c) -> all_events P w (request c f).
Proof.
  intros Hc. unfold all_events, trace, request.
  destruct (f w); repeat constructor; auto.
Qed.

Lemma all_bind {A B} (m : M A) (k : A -> M B) :
  all_events P w m ->
  (forall a, outcome m w = Ok a -> all_events P w (k a)) ->
  all_events P w (bind m k).
Proof.
  intros Hm Hk. unfold all_events in *.
  destruct (outcome m w) as [a | e] eqn:E.
  - rewrite (trace_bind_ok _ _ _ a E). apply Forall_app. auto.
  - now rewrite (trace_bind_throw _ _ _ e E).
Qed.

Lemma all_try_catch {A} (m : M A) (h : exn -> M A) :
  all_events P w m -> (forall e, all_events P w (h e)) ->
  all_events P w (try_catch m h).
Proof.
  intros Hm Hh. unfold all_events, trace, try_catch in *.
  destruct (m w) as [t1 [a | e]]; cbn in *; [ exact Hm | ].
  specialize (Hh e). destruct (h e w) as [t2 r]; cbn in *.
  apply Forall_app. auto.
Qed.

Lemma all_BigInt_of_number (x : Number.t) :
  all_events P w (BigInt_of_number x).
Proof.
  unfold BigInt_of_number. destruct (Number.to_bigint x);
    [ apply all_ret | apply all_throw ].
Qed.

Lemma all_BigInt (j : json) : all_events P w (BigInt j).
Proof.
  destruct j as [x | s]; cbn [BigInt].
  - apply all_BigInt_of_number.
  - apply all_bind; [ apply all_read | ].
    intros [n | ] _; [ apply all_ret | apply all_throw ].
Qed.

Lemma all_new_Contract (a : option address) :
  all_events P w (new_Contract a).
Proof. destruct a; [ apply all_ret | apply all_throw ]. Qed.

Lemma all_totalSpendAmount (o : OrderParams) (fees : Z) :
  all_events P w (Common.totalSpendAmount o fees).
Proof.
  apply all_bind; [ apply all_BigInt_of_number | intros; apply all_ret ].
Qed.

Lemma all_map_parseLog (l : list Log) :
  all_events P w
    (Direct.map_M (fun log => compute (fun w => w_parseLog w log)) l).
Proof.
  induction l as [ | x l IH]; cbn [Direct.map_M].
  - apply all_ret.
  - apply all_bind; [ apply all_compute | intros y _ ].
    apply all_bind; [ exact IH | intros; apply all_ret ].
Qed.

Lemma all_orderEvent (p : address) (r : Receipt) :
  all_events P w (Direct.orderEvent p r).
Proof.
  apply all_bind; [ apply all_read | intros topic _ ].
  apply all_bind; [ apply all_map_parseLog | intros [ | args parsed] _ ].
  - apply all_throw.
  - repeat (apply all_bind; [ apply all_console_log | intros _ _ ]).
    apply all_ret.
Qed.

Lemma all_getenv (name msg : string) :
  all_events P w (Direct.getenv name msg).
Proof.
  apply all_bind; [ apply all_read | intros [s | ] _ ].
  - destruct (falsy (Some s)); [ apply all_throw | apply all_ret ].
  - apply all_throw.
Qed.

Lemma all_environment_sponsored : all_events P w Sponsored.environment.
Proof.
  unfold Sponsored.environment.
  repeat (apply all_bind; [ apply all_read | intros ? _ ]).
  repeat match goal with
         | |- all_events P w (match ?x with _ => _ end) => destruct x
         | |- all_events P w (if ?b then _ else _) => destruct b
         end; first [ apply all_throw | apply all_ret ].
Qed.

Lemma all_environment_smart_account :
  all_events P w SmartAccount.environment.
Proof.
  unfold SmartAccount.environment.
  repeat (apply all_bind; [ apply all_read | intros ? _ ]).
  repeat match goal with
         | |- all_events P w (match ?x with _ => _ end) => destruct x
         | |- all_events P w (if ?b then _ else _) => destruct b
         end; first [ apply all_throw | apply all_ret ].
Qed.

End AllEvents.

(** ** The order builder *)

Lemma to_bigint_1000000 :
  Number.to_bigint (Number.of_Z 1000000) = Some 1000000.
Proof. reflexivity. Qed.

Lemma to_bigint_default_amount :
  Number.to_bigint (Number.mul (Number.of_Z 100) (Number.pow10 6))
  = Some 100000000.
Proof. reflexivity. Qed.

Lemma Direct_configureOrder_run (w : World)
    (orderProcessor assetToken signer asset payment : address) :
  Direct.configureOrder orderProcessor assetToken signer asset payment w
  = ([], Ok {| requestTimestamp := Number.of_Z (w_now w);
               recipient := signer;
               assetToken := asset;
               paymentToken := payment;
               sell := false;
               orderType := Number.of_Z 0;
               assetTokenQuantity := Number.of_Z 0;
               paymentTokenQuantity := Number.of_Z 1000000;
               price := Number.of_Z 0;
               tif := Number.of_Z 1 |}).
Proof.
  unfold Direct.configureOrder, BigInt_of_number.
  rewrite to_bigint_1000000. reflexivity.
Qed.

Lemma Sponsored_configureOrder_run (w : World)
    (orderProcessor assetToken recipientAddress asset payment : address) :
  Sponsored.configureOrder orderProcessor assetToken recipientAddress
    asset payment w
  = ([], Ok {| requestTimestamp := Number.of_Z (w_now w);
               recipient := recipientAddress;
               assetToken := asset;
               paymentToken := payment;
               sell := false;
               orderType := Number.of_Z 0;
               assetTokenQuantity := Number.of_Z 0;
               paymentTokenQuantity := Number.of_Z 1000000;
               price := Number.of_Z 0;
               tif := Number.of_Z 1 |}).
Proof.
  unfold Sponsored.configureOrder, BigInt_of_number.
  rewrite to_bigint_1000000. reflexivity.
Qed.

Lemma SmartAccount_configureOrder_run (w : World)
    (orderProcessor assetToken recipientAddress payment : address)
    (amount : option Number.t) :
  SmartAccount.configureOrder orderProcessor assetToken recipientAddress
    payment amount w
  = match Number.to_bigint
            (SmartAccount.default
               (Number.mul (Number.of_Z 100) (Number.pow10 6)) amount) with
    | Some orderAmount =>
        ([], Ok {| requestTimestamp := Number.of_Z (w_now w);
                   recipient := recipientAddress;
                   assetToken := SmartAccount.ASSET_TOKEN_ADDRESS;
                   paymentToken := payment;
                   sell := false;
                   orderType := Number.of_Z 0;
                   assetTokenQuantity := Number.of_Z 0;
                   paymentTokenQuantity := Number.of_Z orderAmount;
                   price := Number.of_Z 0;
                   tif := Number.of_Z 1 |})
    | None =>
        ([ERaise not_an_integer],
         Throw not_an_integer)
    end.
Proof.
  unfold SmartAccount.configureOrder, BigInt_of_number.
  destruct (Number.to_bigint _); reflexivity.
Qed.

Lemma all_Direct_configureOrder (P : event -> Prop) (w : World)
    (orderProcessor assetToken signer asset payment : address) :
  all_events P w
    (Direct.configureOrder orderProcessor assetToken signer asset payment).
Proof.
  unfold all_events, trace. rewrite Direct_configureOrder_run. constructor.
Qed.

Lemma all_Sponsored_configureOrder (P : event -> Prop) (w : World)
    (orderProcessor assetToken recipientAddress asset payment : address) :
  all_events P w
    (Sponsored.configureOrder orderProcessor assetToken recipientAddress
       asset payment).
Proof.
  unfold all_events, trace. rewrite Sponsored_configureOrder_run. constructor.
Qed.

Lemma all_SmartAccount_configureOrder (P : event -> Prop) (w : World)
    (orderProcessor assetToken recipientAddress payment : address)
    (amount : option Number.t) :
  (forall e, P (ERaise e)) ->
  all_events P w
    (SmartAccount.configureOrder orderProcessor assetToken recipientAddress
       payment amount).
Proof.
  intros HP. unfold all_events, trace.
  rewrite SmartAccount_configureOrder_run.
  destruct (Number.to_bigint _); repeat constructor. apply HP.
Qed.

(** One step of a proof that every event of a script satisfies a property;
    [tac] proves the property of a single event. *)
Ltac all_step tac :=
  lazymatch goal with
  | |- all_events _ _ (ret _) => apply all_ret
  | |- all_events _ _ (read _) => apply all_read
  | |- all_events _ _ (throw _) => apply all_throw
  | |- all_events _ _ (console_log _) => apply all_console_log
  | |- all_events _ _ (compute _) => apply all_compute
  | |- all_events _ _ (BigInt_of_number _) => apply all_BigInt_of_number
  | |- all_events _ _ (BigInt _) => apply all_BigInt
  | |- all_events _ _ (new_Contract _) => apply all_new_Contract
  | |- all_events _ _ (Common.totalSpendAmount _ _) =>
      apply all_totalSpendAmount
  | |- all_events _ _ (Direct.orderEvent _ _) => apply all_orderEvent
  | |- all_events _ _ (Direct.getenv _ _) => apply all_getenv
  | |- all_events _ _ Sponsored.environment =>
      apply all_environment_sponsored
  | |- all_events _ _ SmartAccount.environment =>
      apply all_environment_smart_account
  | |- all_events _ _ (Direct.configureOrder _ _ _ _ _) =>
      apply all_Direct_configureOrder
  | |- all_events _ _ (Sponsored.configureOrder _ _ _ _ _) =>
      apply all_Sponsored_configureOrder
  | |- all_events _ _ (SmartAccount.configureOrder _ _ _ _ _) =>
      apply all_SmartAccount_configureOrder
  | |- all_events _ _ (request _ _) => apply all_request
  | |- all_events _ _ (bind _ _) => apply all_bind; [ | intros ? ? ]
  | |- all_events _ _ (try_catch _ _) => apply all_try_catch; [ | intros ? ]
  | |- all_events _ _ (match ?x with _ => _ end) => destruct x
  | |- all_events _ _ _ => fail
  | |- _ => solve [ intros; tac ]
  end.

Ltac all_script tac := repeat all_step tac.

Lemma Direct_main_no_precision_call (w : World) :
  all_events (fun ev => is_precision_call ev = false) w Direct.main.
Proof.
  unfold Direct.main, Common.getFeeQuote, Direct.configurePermit,
    Common.getContractVersion, Direct.submitOrder.
  all_script reflexivity.
Qed.

Lemma Sponsored_main_no_precision_call (w : World) :
  all_events (fun ev => is_precision_call ev = false) w Sponsored.main.
Proof.
  unfold Sponsored.main, Sponsored.setupSmartAccount,
    Sponsored.setupContracts, Common.getFeeQuote,
    Common.executeOrderTransaction, Common.orderCreatedEvent,
    waitForUserOperationReceipt.
  all_script reflexivity.
Qed.

Lemma SmartAccount_main_no_precision_call (w : World) :
  all_events (fun ev => is_precision_call ev = false) w SmartAccount.main.
Proof.
  unfold SmartAccount.main, SmartAccount.setupSmartAccount,
    SmartAccount.setupContracts, Common.getFeeQuote, SmartAccount.sendToken.
  cbv iota delta [SmartAccount.SENT_STOCKS].
  all_script reflexivity.
Qed.

(** C9. Whatever the arguments and the world, the order [configureOrder]
    builds is a buy-side market order: [sell = false], [orderType = 0],
    [assetTokenQuantity = 0], [price = 0], [tif = 1].  In the direct and
    the sponsored script it always returns such an order; in
    smart_account.ts it does so for the default amount, and for any other
    amount it returns such an order or throws.  It never reads the
    decimal reduction or the decimals, and neither does any of the three
    [main]s: the sell-order precision check is not reachable. *)
Theorem configureOrder_builds_buy_market_orders (w : World) :
  (forall orderProcessor assetToken signer asset payment,
      exists o,
        Direct.configureOrder orderProcessor assetToken signer asset payment w
        = ([], Ok o)
        /\ buy_market_order o)
  /\ (forall orderProcessor assetToken recipientAddress asset payment,
         exists o,
           Sponsored.configureOrder orderProcessor assetToken
             recipientAddress asset payment w
           = ([], Ok o)
           /\ buy_market_order o)
  /\ (forall orderProcessor assetToken recipientAddress payment,
         exists o,
           SmartAccount.configureOrder orderProcessor assetToken
             recipientAddress payment None w
           = ([], Ok o)
           /\ buy_market_order o)
  /\ (forall orderProcessor assetToken recipientAddress payment amount,
         let m := SmartAccount.configureOrder orderProcessor assetToken
                    recipientAddress payment amount in
         match outcome m w with
         | Ok o => buy_market_order o
         | Throw e => trace m w = [ERaise e]
         end
         /\ all_events (fun ev => is_precision_call ev = false) w m)
  /\ all_events (fun ev => is_precision_call ev = false) w Direct.main
  /\ all_events (fun ev => is_precision_call ev = false) w Sponsored.main
  /\ all_events (fun ev => is_precision_call ev = false) w SmartAccount.main.
Proof.
  repeat apply conj.
  - intros. eexists. split; [ apply Direct_configureOrder_run | ].
    repeat split.
  - intros. eexists. split; [ apply Sponsored_configureOrder_run | ].
    repeat split.
  - intros. eexists. split.
    + rewrite SmartAccount_configureOrder_run. cbn [SmartAccount.default].
      rewrite to_bigint_default_amount. reflexivity.
    + repeat split.
  - intros. subst m. split.
    + unfold outcome, trace. rewrite SmartAccount_configureOrder_run.
      destruct (Number.to_bigint _); cbn; [ repeat split | reflexivity ].
    + apply all_SmartAccount_configureOrder. reflexivity.
  - apply Direct_main_no_precision_call.
  - apply Sponsored_main_no_precision_call.
  - apply SmartAccount_main_no_precision_call.
Qed.

(** ** The shape of the batches *)

Lemma Direct_main_batches (w : World) :
  all_events submits_order_batch w Direct.main.
Proof.
  unfold Direct.main, Common.getFeeQuote, Direct.configurePermit,
    Common.getContractVersion, Direct.submitOrder, Common.encodeCreateOrder.
  all_script ltac:(first [ exact I | repeat esplit ]).
Qed.

Lemma executeOrderTransaction_batches (w : World)
    (transactions : list transaction) (orderProcessor : address) :
  order_batch (map data transactions) ->
  all_events submits_order_batch w
    (Common.executeOrderTransaction transactions orderProcessor).
Proof.
  intros Hb.
  unfold Common.executeOrderTransaction, Common.orderCreatedEvent,
    waitForUserOperationReceipt.
  all_script ltac:(first [ exact I | exact Hb ]).
Qed.

Lemma Sponsored_main_batches (w : World) :
  all_events submits_order_batch w Sponsored.main.
Proof.
  unfold Sponsored.main, Sponsored.setupSmartAccount,
    Sponsored.setupContracts, Common.getFeeQuote, Common.encodeCreateOrder.
  all_script ltac:(exact I).
  apply executeOrderTransaction_batches. repeat esplit.
Qed.

(** C3. Every batch submitted for order creation has exactly two calls,
    the spend authorization ([selfPermit] on the direct path, [approve] on
    the sponsored path) first and [createOrder] second: the [multicall] of
    the direct script, the [sendTransactions] of the sponsored script, and
    the [sendTransactions] of [createOrder] in smart_account.ts. *)
Theorem order_batches_have_two_calls (w : World) :
  (forall processor calls,
      In (ECall (Multicall processor calls)) (trace Direct.main w) ->
      order_batch calls)
  /\ (forall transactions,
         In (ECall (SendTransactions transactions)) (trace Sponsored.main w) ->
         order_batch (map data transactions))
  /\ (forall orderProcessor orderParams feeQuoteResponse totalSpendAmount
             orderProcessorAddress payment transactions,
         In (ECall (SendTransactions transactions))
           (trace
              (SmartAccount.createOrder orderProcessor orderParams
                 feeQuoteResponse totalSpendAmount orderProcessorAddress
                 payment) w) ->
         order_batch (map data transactions)).
Proof.
  repeat apply conj.
  - intros processor calls HIn.
    pose proof (Direct_main_batches w) as H.
    unfold all_events in H. rewrite Forall_forall in H.
    exact (H _ HIn).
  - intros transactions HIn.
    pose proof (Sponsored_main_batches w) as H.
    unfold all_events in H. rewrite Forall_forall in H.
    exact (H _ HIn).
  - intros op o resp total opa pay transactions HIn.
    assert (H : all_events submits_order_batch w
                  (SmartAccount.createOrder op o resp total opa pay)).
    { apply executeOrderTransaction_batches. repeat esplit. }
    unfold all_events in H. rewrite Forall_forall in H.
    exact (H _ HIn).
Qed.

Lemma order_batches_have_two_calls_witness :
  (In (ECall (Multicall Demo.processor demo_direct_batch))
     (trace Direct.main Demo.world)
   /\ order_batch demo_direct_batch)
  /\ (In (ECall (SendTransactions demo_sponsored_transactions))
        (trace Sponsored.main Demo.world)
      /\ order_batch (map data demo_sponsored_transactions))
  /\ (In (ECall (SendTransactions demo_create_order_transactions))
        (trace
           (SmartAccount.createOrder Demo.processor Demo.order
              (Demo.quote (JNumber (Number.of_Z 2500))) 1002500
              Demo.processor Demo.usdc) Demo.world)
      /\ order_batch (map data demo_create_order_transactions)).
Proof.
  assert (H1 : In (ECall (Multicall Demo.processor demo_direct_batch))
                 (trace Direct.main Demo.world))
    by (vm_compute; tauto).
  assert (H2 : In (ECall (SendTransactions demo_sponsored_transactions))
                 (trace Sponsored.main Demo.world))
    by (vm_compute; tauto).
  assert (H3 : In (ECall (SendTransactions demo_create_order_transactions))
                 (trace
                    (SmartAccount.createOrder Demo.processor Demo.order
                       (Demo.quote (JNumber (Number.of_Z 2500))) 1002500
                       Demo.processor Demo.usdc) Demo.world))
    by (vm_compute; tauto).
  destruct (order_batches_have_two_calls Demo.world) as (D & S & C).
  exact (conj (conj H1 (D _ _ H1))
           (conj (conj H2 (S _ H2)) (conj H3 (C _ _ _ _ _ _ _ H3)))).
Defined.

(** ** The sell-order precision check *)

Lemma not_divide (d n : Z) : d <> 0 -> n mod d <> 0 -> ~ (d | n).
Proof.
  intros Hd Hm H. apply Hm. apply Z.mod_divide; assumption.
Qed.

Lemma nonzero_rem_iff (q : Z) (k : N) :
  Z.abs q <= 2 ^ 53 ->
  Number.nonzero (Number.rem (Number.of_Z q) (Number.pow10 k)) = true
  <-> ~ (10 ^ Z.of_N k | q).
Proof.
  intros Hq. rewrite NumberFacts.precision_test by exact Hq.
  assert (H10 : 10 ^ Z.of_N k <> 0) by (apply Z.pow_nonzero; lia).
  rewrite negb_true_iff, Z.eqb_neq.
  now rewrite (Z.rem_divide q _ H10).
Qed.

(** The run of the check when both chain reads answer. *)
Lemma validateSellOrderPrecision_run (w : World)
    (orderProcessor assetToken assetTokenAddress : address)
    (orderAmount : Z) (reduction decimals : N) :
  w_orderDecimalReduction w orderProcessor assetTokenAddress = Ok reduction ->
  w_decimals w assetToken = Ok decimals ->
  Common.validateSellOrderPrecision orderProcessor assetToken
    assetTokenAddress orderAmount w
  = if Number.nonzero
         (Number.rem (Number.of_Z orderAmount) (Number.pow10 reduction))
    then
      ([ECall (OrderDecimalReduction orderProcessor assetTokenAddress);
        ECall (Decimals assetToken);
        ERaise (precision_error (Z.of_N decimals - Z.of_N reduction))],
       Throw (precision_error (Z.of_N decimals - Z.of_N reduction)))
    else ([ECall (OrderDecimalReduction orderProcessor assetTokenAddress)],
          Ok tt).
Proof.
  intros Hr Hd.
  unfold Common.validateSellOrderPrecision, bind, request.
  rewrite Hr. destruct (Number.nonzero _).
  - rewrite Hd. reflexivity.
  - reflexivity.
Qed.

(** C2, amended. A sell amount of magnitude at most [2^53] that is not
    divisible by [10^allowedDecimalReduction] is rejected: after the two
    chain reads [orderDecimalReduction] and [decimals], and before any
    other call, [validateSellOrderPrecision] throws an error whose message
    names the maximum decimals [assetDecimals - allowedDecimalReduction]. *)
Theorem validateSellOrderPrecision_rejects (w : World)
    (orderProcessor assetToken assetTokenAddress : address)
    (orderAmount : Z) (reduction decimals : N) :
  w_orderDecimalReduction w orderProcessor assetTokenAddress = Ok reduction ->
  w_decimals w assetToken = Ok decimals ->
  Z.abs orderAmount <= 2 ^ 53 ->
  ~ (10 ^ Z.of_N reduction | orderAmount) ->
  Common.validateSellOrderPrecision orderProcessor assetToken
    assetTokenAddress orderAmount w
  = ([ECall (OrderDecimalReduction orderProcessor assetTokenAddress);
      ECall (Decimals assetToken);
      ERaise (precision_error (Z.of_N decimals - Z.of_N reduction))],
     Throw (precision_error (Z.of_N decimals - Z.of_N reduction))).
Proof.
  intros Hr Hd Hq Hndiv.
  rewrite (validateSellOrderPrecision_run w _ _ _ _ _ _ Hr Hd).
  apply (nonzero_rem_iff orderAmount reduction Hq) in Hndiv.
  now rewrite Hndiv.
Qed.

Lemma validateSellOrderPrecision_rejects_witness :
  Common.validateSellOrderPrecision Demo.processor "0xAsset" "0xAsset"
    1500000001 (Demo.world_with 9 18 (Ok "0xuserop") None [])
  = ([ECall (OrderDecimalReduction Demo.processor "0xAsset");
      ECall (Decimals "0xAsset");
      ERaise (precision_error 9)],
     Throw (precision_error 9)).
Proof.
  apply (validateSellOrderPrecision_rejects
           (Demo.world_with 9 18 (Ok "0xuserop") None [])
           Demo.processor "0xAsset" "0xAsset" 1500000001 9 18).
  - reflexivity.
  - reflexivity.
  - vm_compute. discriminate.
  - apply not_divide; vm_compute; discriminate.
Defined.

(** C2 as stated fails: with 18 decimals and a reduction of 2 the amount
    100 is not divisible by [10^(18 - 2)], yet it is accepted; and the
    amount 150, which is rejected, is rejected only after two chain
    reads. *)
Lemma validateSellOrderPrecision_counterexample :
  let w := Demo.world_with 2 18 (Ok "0xuserop") None [] in
  ~ (10 ^ (18 - 2) | 100)
  /\ Common.validateSellOrderPrecision Demo.processor "0xAsset" "0xAsset"
       100 w
     = ([ECall (OrderDecimalReduction Demo.processor "0xAsset")], Ok tt)
  /\ ~ (10 ^ (18 - 2) | 150)
  /\ Common.validateSellOrderPrecision Demo.processor "0xAsset" "0xAsset"
       150 w
     = ([ECall (OrderDecimalReduction Demo.processor "0xAsset");
         ECall (Decimals "0xAsset");
         ERaise (precision_error 16)],
        Throw (precision_error 16)).
Proof.
  repeat apply conj.
  - apply not_divide; vm_compute; discriminate.
  - reflexivity.
  - apply not_divide; vm_compute; discriminate.
  - reflexivity.
Qed.

(** ** Waiting for the receipt on the sponsored path *)

Lemma executeOrderTransaction_waits (w : World)
    (transactions : list transaction) (orderProcessor : address) :
  all_events waits_60000 w
    (Common.executeOrderTransaction transactions orderProcessor).
Proof.
  unfold Common.executeOrderTransaction, Common.orderCreatedEvent,
    waitForUserOperationReceipt.
  all_script ltac:(first [ exact I | reflexivity ]).
Qed.

(** C7. On the sponsored path the wait for the user-operation receipt is
    always made with the timeout 60 000 ms.  When the batch was sent and
    the bundler has no receipt within that bound, the wait throws the
    timeout error, [executeOrderTransaction] ends with it, and the chain
    receipt is not asked for: no [getTransactionReceipt] is made. *)
Theorem executeOrderTransaction_times_out (w : World)
    (transactions : list transaction) (orderProcessor : address) :
  (forall hash timeout,
      In (ECall (WaitForUserOperationReceipt hash timeout))
        (trace (Common.executeOrderTransaction transactions orderProcessor) w)
      -> timeout = 60000)
  /\ (forall hash,
         w_sendTransactions w transactions = Ok hash ->
         no_receipt_within w hash 60000 ->
         Common.executeOrderTransaction transactions orderProcessor w
         = ([ECall (SendTransactions transactions);
             EConsole (LogUserOperationHash hash);
             ECall (WaitForUserOperationReceipt hash 60000);
             ERaise timed_out],
            Throw timed_out)
         /\ forall h,
             ~ In (ECall (GetTransactionReceipt h))
                 (trace
                    (Common.executeOrderTransaction transactions
                       orderProcessor) w)).
Proof.
  split.
  - intros hash timeout HIn.
    pose proof (executeOrderTransaction_waits w transactions orderProcessor)
      as H.
    unfold all_events in H. rewrite Forall_forall in H.
    exact (H _ HIn).
  - intros hash Hsend Hnone.
    assert (Hrun :
              Common.executeOrderTransaction transactions orderProcessor w
              = ([ECall (SendTransactions transactions);
                  EConsole (LogUserOperationHash hash);
                  ECall (WaitForUserOperationReceipt hash 60000);
                  ERaise timed_out],
                 Throw timed_out)).
    { unfold Common.executeOrderTransaction, waitForUserOperationReceipt,
        bind, request, console_log.
      rewrite Hsend. unfold no_receipt_within in Hnone.
      destruct (w_userOperationReceipt w hash) as [[t r] | ].
      - destruct (Z.leb_spec t 60000); [ lia | reflexivity ].
      - reflexivity. }
    split; [ exact Hrun | ].
    intros h. unfold trace. rewrite Hrun. cbn.
    intros [H | [H | [H | [H | []]]]]; discriminate.
Qed.

Lemma executeOrderTransaction_times_out_witness :
  let m :=
    Common.executeOrderTransaction demo_sponsored_transactions
      Demo.processor in
  (In (ECall (WaitForUserOperationReceipt "0xuserop" 60000))
     (trace m demo_late_world)
   /\ 60000 = 60000)
  /\ m demo_late_world
     = ([ECall (SendTransactions demo_sponsored_transactions);
         EConsole (LogUserOperationHash "0xuserop");
         ECall (WaitForUserOperationReceipt "0xuserop" 60000);
         ERaise timed_out],
        Throw timed_out)
  /\ forall h, ~ In (ECall (GetTransactionReceipt h)) (trace m demo_late_world).
Proof.
  intros m.
  assert (H : In (ECall (WaitForUserOperationReceipt "0xuserop" 60000))
                (trace m demo_late_world))
    by (vm_compute; tauto).
  destruct (executeOrderTransaction_times_out demo_late_world
              demo_sponsored_transactions Demo.processor) as [W T].
  assert (Hnone : no_receipt_within demo_late_world "0xuserop" 60000)
    by (unfold no_receipt_within; cbn; lia).
  exact (conj (conj H (W _ _ H)) (T "0xuserop" eq_refl Hnone)).
Defined.

(** ** Token amounts as Numbers *)

Lemma totalSpendAmount_run (w : World) (orderParams : OrderParams)
    (fees quantity : Z) :
  Number.to_bigint (paymentTokenQuantity orderParams) = Some quantity ->
  Common.totalSpendAmount orderParams fees w = ([], Ok (quantity + fees)).
Proof.
  intros Hq. unfold Common.totalSpendAmount, BigInt_of_number, bind.
  rewrite Hq. reflexivity.
Qed.

Lemma to_bigint_token_amount :
  Number.to_bigint (Number.mul (Number.of_ratio 1 10) (Number.pow10 18))
  = Some (10 ^ 17).
Proof. vm_compute. reflexivity. Qed.

(** C6, amended. Token amounts are held as bigints and as Numbers
    (binary64).  Up to a magnitude of [2^53] the arithmetic on them is
    exact: [Number(amount)] converts back to the same integer, the
    precision test [Number(amount) % 10 ** reduction != 0] holds exactly
    when [10^reduction] does not divide the amount, and the total spend is
    the integer sum of the payment quantity and the fee.  The literal
    amounts of the source are exact too: [BigInt(1_000_000)] is 1 000 000,
    [100 * 10 ** 6] is 100 000 000 and [BigInt(0.1 * 10 ** 18)] is
    [10^17]. *)
Theorem token_amounts_exact_up_to_2_53 :
  (forall n, Z.abs n <= 2 ^ 53 -> Number.to_bigint (Number.of_Z n) = Some n)
  /\ (forall q k,
         Z.abs q <= 2 ^ 53 ->
         Number.nonzero (Number.rem (Number.of_Z q) (Number.pow10 k)) = true
         <-> ~ (10 ^ Z.of_N k | q))
  /\ (forall w orderParams fees quantity,
         Number.to_bigint (paymentTokenQuantity orderParams) = Some quantity ->
         Common.totalSpendAmount orderParams fees w
         = ([], Ok (quantity + fees)))
  /\ Number.to_bigint (Number.of_Z 1000000) = Some 1000000
  /\ Number.to_bigint (Number.mul (Number.of_Z 100) (Number.pow10 6))
     = Some 100000000
  /\ Number.to_bigint (Number.mul (Number.of_ratio 1 10) (Number.pow10 18))
     = Some (10 ^ 17).
Proof.
  repeat apply conj.
  - apply NumberFacts.to_bigint_of_Z.
  - apply nonzero_rem_iff.
  - apply totalSpendAmount_run.
  - apply to_bigint_1000000.
  - apply to_bigint_default_amount.
  - apply to_bigint_token_amount.
Qed.

Lemma token_amounts_exact_up_to_2_53_witness :
  Number.to_bigint (Number.of_Z 9007199254740992) = Some 9007199254740992
  /\ (Number.nonzero
        (Number.rem (Number.of_Z 1500000001) (Number.pow10 9)) = true
      <-> ~ (10 ^ Z.of_N 9 | 1500000001))
  /\ Common.totalSpendAmount Demo.order 2500 Demo.world = ([], Ok 1002500).
Proof.
  destruct token_amounts_exact_up_to_2_53 as (H1 & H2 & H3 & _).
  split; [ | split ].
  - apply (H1 9007199254740992). vm_compute. discriminate.
  - apply (H2 1500000001 9%N). vm_compute. discriminate.
  - apply (H3 Demo.world Demo.order 2500 1000000). reflexivity.
Defined.

(** C6 as stated fails: the amount [2^53 + 9] is not a Number; as a
    Number it is [2^53 + 8], so it does not convert back, and the
    precision test with a reduction of 1 accepts it although 10 does not
    divide it. *)
Lemma token_amounts_counterexample :
  let w := Demo.world_with 1 18 (Ok "0xuserop") None [] in
  Number.to_bigint (Number.of_Z 9007199254741001) = Some 9007199254741000
  /\ ~ (10 ^ 1 | 9007199254741001)
  /\ Common.validateSellOrderPrecision Demo.processor "0xAsset" "0xAsset"
       9007199254741001 w
     = ([ECall (OrderDecimalReduction Demo.processor "0xAsset")], Ok tt).
Proof.
  repeat apply conj.
  - vm_compute. reflexivity.
  - apply not_divide; vm_compute; discriminate.
  - vm_compute. reflexivity.
Qed.

(** ** Finding the order event in the receipt *)

Lemma first_such_find {A} (P : A -> bool) (l : list A) (x : A) :
  first_such P l x -> find P l = Some x.
Proof.
  intros (pre & post & -> & Hx & Hpre).
  induction pre as [ | y pre IH]; cbn [app find].
  - now rewrite Hx.
  - rewrite (Hpre y) by (left; reflexivity).
    apply IH. intros z Hz. apply Hpre. right. exact Hz.
Qed.

Lemma none_such_find {A} (P : A -> bool) (l : list A) :
  (forall y, In y l -> P y = false) -> find P l = None.
Proof.
  induction l as [ | y l IH]; intros H; cbn [find]; [ reflexivity | ].
  rewrite (H y) by (left; reflexivity).
  apply IH. intros z Hz. apply H. right. exact Hz.
Qed.

Lemma none_such_filter {A} (P : A -> bool) (l : list A) :
  (forall y, In y l -> P y = false) -> filter P l = [].
Proof.
  induction l as [ | y l IH]; intros H; cbn [filter]; [ reflexivity | ].
  rewrite (H y) by (left; reflexivity).
  apply IH. intros z Hz. apply H. right. exact Hz.
Qed.

Lemma first_such_filter {A} (P : A -> bool) (l : list A) (x : A) :
  first_such P l x -> exists rest, filter P l = x :: rest.
Proof.
  intros (pre & post & -> & Hx & Hpre).
  rewrite filter_app, (none_such_filter P pre Hpre). cbn [app filter].
  rewrite Hx. eauto.
Qed.

(** When every log parses, [map] returns the parsed logs in order. *)
Lemma map_parseLog_run (w : World) (l : list Log) :
  (forall x, In x l -> exists a, w_parseLog w x = Ok a) ->
  exists parsed,
    Direct.map_M (fun log => compute (fun w => w_parseLog w log)) l w
    = ([], Ok parsed)
    /\ forall x rest a,
        l = x :: rest -> w_parseLog w x = Ok a ->
        exists ps, parsed = a :: ps.
Proof.
  induction l as [ | y l IH]; intros H; cbn [Direct.map_M].
  - exists []. split; [ reflexivity | discriminate ].
  - destruct (H y (or_introl eq_refl)) as [a Ha].
    destruct IH as (ps & Hps & _).
    { intros x Hx. apply H. right. exact Hx. }
    exists (a :: ps). split.
    + unfold bind, compute. rewrite Ha. unfold bind, compute in Hps.
      rewrite Hps. reflexivity.
    + intros x rest a' [= <- <-] Ha'. rewrite Ha in Ha'.
      injection Ha' as <-. eauto.
Qed.

(** The direct script, when the logs that carry the topic are the
    processor's and all parse. *)
Lemma Direct_orderEvent_found (w : World) (orderProcessor : address)
    (receipt : Receipt) (log : Log) (args : list string) :
  let topic := w_getEventTopic w "OrderCreated" in
  first_such (Common.is_order_created orderProcessor topic)
    (logs receipt) log ->
  (forall l, In l (logs receipt) -> first_topic_is topic l = true ->
             Common.is_order_created orderProcessor topic l = true
             /\ exists a, w_parseLog w l = Ok a) ->
  w_parseLog w log = Ok args ->
  Direct.orderEvent orderProcessor receipt w
  = ([EConsole (LogOrderId (nth_error args 0));
      EConsole (LogOrderAccount (nth_error args 1))],
     Ok (nth_error args 0, nth_error args 1)).
Proof.
  intros topic Hfirst Hall Hparse.
  assert (Hfirst' : first_such (first_topic_is topic) (logs receipt) log).
  { destruct Hfirst as (pre & post & E & Hx & Hpre).
    exists pre, post. repeat split; [ exact E | | ].
    - unfold Common.is_order_created in Hx.
      apply andb_true_iff in Hx. apply Hx.
    - intros y Hy. destruct (first_topic_is topic y) eqn:Ey; [ | reflexivity ].
      destruct (Hall y) as [Hc _]; [ | exact Ey | ].
      + rewrite E. apply in_or_app. left. exact Hy.
      + rewrite (Hpre y Hy) in Hc. discriminate. }
  destruct (first_such_filter _ _ _ Hfirst') as [rest Hfilter].
  destruct (map_parseLog_run w (filter (first_topic_is topic) (logs receipt)))
    as (parsed & Hrun & Hhead).
  { intros x Hx. apply filter_In in Hx. destruct Hx as [Hx Ht].
    apply (Hall x Hx Ht). }
  destruct (Hhead log rest args Hfilter Hparse) as [ps ->].
  unfold Direct.orderEvent, bind, read. fold topic.
  unfold bind in Hrun. rewrite Hrun. reflexivity.
Qed.

Lemma Direct_orderEvent_missing (w : World) (orderProcessor : address)
    (receipt : Receipt) :
  (forall l, In l (logs receipt) ->
             first_topic_is (w_getEventTopic w "OrderCreated") l = false) ->
  Direct.orderEvent orderProcessor receipt w
  = ([ERaise (Error "no order event")], Throw (Error "no order event")).
Proof.
  intros Hnone. unfold Direct.orderEvent, bind, read.
  rewrite (none_such_filter _ _ Hnone). reflexivity.
Qed.

Lemma orderCreatedEvent_found (w : World) (orderProcessor : address)
    (txReceipt : Receipt) (log : Log) (args : list string) (status : string) :
  first_such
    (Common.is_order_created orderProcessor (w_getEventTopic w "OrderCreated"))
    (logs txReceipt) log ->
  w_parseLog w log = Ok args ->
  w_getOrderStatus w orderProcessor (nth_error args 0) = Ok status ->
  Common.orderCreatedEvent txReceipt orderProcessor w
  = ([EConsole (LogOrderId (nth_error args 0));
      EConsole (LogOrderAccount (nth_error args 1));
      ECall (GetOrderStatus orderProcessor (nth_error args 0));
      EConsole (LogOrderStatus status)],
     Ok tt).
Proof.
  intros Hfirst Hparse Hstatus.
  unfold Common.orderCreatedEvent, bind, read.
  rewrite (first_such_find _ _ _ Hfirst).
  unfold compute, console_log, request. rewrite Hparse, Hstatus. reflexivity.
Qed.

Lemma orderCreatedEvent_missing (w : World) (orderProcessor : address)
    (txReceipt : Receipt) :
  (forall l, In l (logs txReceipt) ->
             Common.is_order_created orderProcessor
               (w_getEventTopic w "OrderCreated") l = false) ->
  Common.orderCreatedEvent txReceipt orderProcessor w
  = ([EConsole LogNoOrderCreated; EConsole (LogAllLogs (logs txReceipt))],
     Ok tt).
Proof.
  intros Hnone. unfold Common.orderCreatedEvent, bind, read.
  rewrite (none_such_find _ _ Hnone). reflexivity.
Qed.

(** C5, amended. Let a created log be a log emitted by the processor
    (addresses compared in lower case) whose first topic is the
    [OrderCreated] topic.

    Direct script: when the receipt has a created log, every log that
    carries the topic is the processor's, and these logs parse, the order
    id and the order account decoded from the first created log are
    returned; when no log carries the topic, [Error("no order event")] is
    thrown.

    Sponsored scripts: when the receipt has a created log that parses, the
    order id and the order account decoded from the first one are reported
    and the status of that order is read; when the receipt has no created
    log, no error is raised: the absence and the logs are written to the
    console and the function returns. *)
Theorem order_event_parsing (w : World) (orderProcessor : address)
    (receipt : Receipt) :
  let topic := w_getEventTopic w "OrderCreated" in
  let created := Common.is_order_created orderProcessor topic in
  (forall log args,
      first_such created (logs receipt) log ->
      (forall l, In l (logs receipt) -> first_topic_is topic l = true ->
                 created l = true /\ exists a, w_parseLog w l = Ok a) ->
      w_parseLog w log = Ok args ->
      Direct.orderEvent orderProcessor receipt w
      = ([EConsole (LogOrderId (nth_error args 0));
          EConsole (LogOrderAccount (nth_error args 1))],
         Ok (nth_error args 0, nth_error args 1)))
  /\ ((forall l, In l (logs receipt) -> first_topic_is topic l = false) ->
      Direct.orderEvent orderProcessor receipt w
      = ([ERaise (Error "no order event")], Throw (Error "no order event")))
  /\ (forall log args status,
         first_such created (logs receipt) log ->
         w_parseLog w log = Ok args ->
         w_getOrderStatus w orderProcessor (nth_error args 0) = Ok status ->
         Common.orderCreatedEvent receipt orderProcessor w
         = ([EConsole (LogOrderId (nth_error args 0));
             EConsole (LogOrderAccount (nth_error args 1));
             ECall (GetOrderStatus orderProcessor (nth_error args 0));
             EConsole (LogOrderStatus status)],
            Ok tt))
  /\ ((forall l, In l (logs receipt) -> created l = false) ->
      Common.orderCreatedEvent receipt orderProcessor w
      = ([EConsole LogNoOrderCreated; EConsole (LogAllLogs (logs receipt))],
         Ok tt)).
Proof.
  intros topic created. repeat apply conj.
  - intros log args. apply Direct_orderEvent_found.
  - apply Direct_orderEvent_missing.
  - intros log args status. apply orderCreatedEvent_found.
  - apply orderCreatedEvent_missing.
Qed.

Lemma order_event_parsing_witness :
  let found := {| transactionHash := "0xtx";
                  logs := [Demo.approval; Demo.created] |} in
  let missing := {| transactionHash := "0xtx"; logs := [Demo.approval] |} in
  Direct.orderEvent Demo.processor found Demo.world
  = ([EConsole (LogOrderId (Some "order-0x01"));
      EConsole (LogOrderAccount (Some "0xAccount"))],
     Ok (Some "order-0x01", Some "0xAccount"))
  /\ Direct.orderEvent Demo.processor missing Demo.world
     = ([ERaise (Error "no order event")], Throw (Error "no order event"))
  /\ Common.orderCreatedEvent found Demo.processor Demo.world
     = ([EConsole (LogOrderId (Some "order-0x01"));
         EConsole (LogOrderAccount (Some "0xAccount"));
         ECall (GetOrderStatus Demo.processor (Some "order-0x01"));
         EConsole (LogOrderStatus "ACTIVE")],
        Ok tt)
  /\ Common.orderCreatedEvent missing Demo.processor Demo.world
     = ([EConsole LogNoOrderCreated; EConsole (LogAllLogs [Demo.approval])],
        Ok tt).
Proof.
  intros found missing.
  assert (Hfirst :
            first_such
              (Common.is_order_created Demo.processor
                 (w_getEventTopic Demo.world "OrderCreated"))
              (logs found) Demo.created).
  { exists [Demo.approval], []. repeat split.
    intros y [<- | []]. reflexivity. }
  destruct (order_event_parsing Demo.world Demo.processor found)
    as (D1 & _ & S1 & _).
  destruct (order_event_parsing Demo.world Demo.processor missing)
    as (_ & D2 & _ & S2).
  repeat apply conj.
  - apply (D1 Demo.created ["order-0x01"; "0xAccount"] Hfirst);
      [ | reflexivity ].
    intros l [<- | [<- | []]].
    + discriminate.
    + intros _. split; [ reflexivity | eexists; reflexivity ].
  - apply D2. intros l [<- | []]. reflexivity.
  - apply (S1 Demo.created ["order-0x01"; "0xAccount"] "ACTIVE" Hfirst);
      reflexivity.
  - apply S2. intros l [<- | []]. reflexivity.
Defined.

(** C5 as stated fails on the sponsored path: a receipt without a created
    log raises no error, and the sponsored script ends with exit status 0.
    On the direct path a log of another contract that carries the topic
    is decoded. *)
Lemma order_event_parsing_counterexample :
  let w := Demo.world_with 9 18 (Ok "0xuserop") (Some 1500) [Demo.approval] in
  let w' := Demo.world_with 9 18 (Ok "0xuserop") (Some 1500) [Demo.foreign] in
  Common.is_order_created Demo.processor Demo.topic Demo.approval = false
  /\ Common.orderCreatedEvent
       {| transactionHash := "0xtx"; logs := [Demo.approval] |}
       Demo.processor w
     = ([EConsole LogNoOrderCreated; EConsole (LogAllLogs [Demo.approval])],
        Ok tt)
  /\ snd (run_script Sponsored.main w) = 0
  /\ (forall e, ~ In (ERaise e) (fst (run_script Sponsored.main w)))
  /\ Common.is_order_created Demo.processor Demo.topic Demo.foreign = false
  /\ Direct.orderEvent Demo.processor
       {| transactionHash := "0xtx"; logs := [Demo.foreign] |} w'
     = ([EConsole (LogOrderId (Some "order-0x03"));
         EConsole (LogOrderAccount (Some "0xAccount"))],
        Ok (Some "order-0x03", Some "0xAccount")).
Proof.
  repeat apply conj; try reflexivity.
  intros e. vm_compute. intuition discriminate.
Qed.

(** ** Running a script on a symbolic world *)

Lemma BigInt_number_outcome (w : World) (j : json) (x : Number.t) (n : Z) :
  j = JNumber x -> Number.to_bigint x = Some n -> outcome (BigInt j) w = Ok n.
Proof.
  intros -> Hx. unfold outcome, BigInt, BigInt_of_number. now rewrite Hx.
Qed.

Lemma BigInt_string_outcome (w : World) (j : json) (s : string) (n : Z) :
  j = JString s -> w_stringToBigInt w s = Some n -> outcome (BigInt j) w = Ok n.
Proof.
  intros -> Hs. unfold outcome, BigInt, bind, read. now rewrite Hs.
Qed.

Lemma orderEvent_makes_no_call (w : World) (p : address) (r : Receipt)
    (c : call) :
  ~ In (ECall c) (fst (Direct.orderEvent p r w)).
Proof.
  intros HIn.
  assert (H : all_events
                (fun ev => match ev with ECall _ => False | _ => True end)
                w (Direct.orderEvent p r))
    by (apply all_orderEvent; intros; exact I).
  unfold all_events in H. rewrite Forall_forall in H.
  exact (H _ HIn).
Qed.

(** The innermost stuck [match] of [H] is decided. *)
Ltac break_match_hyp H :=
  match type of H with
  | context [match ?x with _ => _ end] =>
      lazymatch x with
      | context [match _ with _ => _ end] => fail
      | _ => destruct x eqn:?
      end
  end.

Ltac exec_in H :=
  cbv beta iota zeta delta
    [bind ret read throw request compute console_log try_catch
     new_Contract BigInt BigInt_of_number waitForUserOperationReceipt
     Common.getContractVersion Common.getFeeQuote Common.totalSpendAmount
     Common.encodeCreateOrder Common.executeOrderTransaction
     Common.orderCreatedEvent
     Direct.main Direct.getenv Direct.configureOrder Direct.configurePermit
     Direct.submitOrder
     Sponsored.main Sponsored.environment Sponsored.setupSmartAccount
     Sponsored.setupContracts Sponsored.configureOrder
     SmartAccount.main SmartAccount.environment
     SmartAccount.setupSmartAccount SmartAccount.setupContracts
     SmartAccount.configureOrder SmartAccount.sendToken
     SmartAccount.createOrder SmartAccount.default
     SmartAccount.SENT_STOCKS] in H;
  cbn [app fst snd] in H.

(** Case analysis on the answers of the world along the run recorded in
    [H : main w = (tr, out)]. *)
Ltac run_cases H :=
  exec_in H;
  repeat (break_match_hyp H;
          try rewrite to_bigint_1000000 in H;
          try rewrite to_bigint_default_amount in H;
          try rewrite to_bigint_token_amount in H;
          exec_in H).

(** Splitting a membership in a trace into the events of the trace. *)
Ltac split_in H :=
  cbn [In] in H;
  repeat match type of H with
         | _ \/ _ => destruct H as [H | H]; [ try discriminate H | ]
         | In _ (_ ++ _) => apply in_app_or in H
         | In _ (_ :: _) => cbn [In] in H
         | In _ [] => destruct H
         | False => destruct H
         end.

(** ** The value of the permit on the direct path *)

(** C4. On the direct path, whenever a permit is signed, the fee request
    of the run was answered, and the [value] of the signed message is the
    integer sum of the payment quantity of the order sent for quoting
    ([BigInt(paymentTokenQuantity)]) and of the fee of the answer
    ([BigInt(fee)]).  Every [multicall] of the run carries that same value
    in its [selfPermit] calldata, with the owner and the deadline of the
    signed message, followed by the [createOrder] of that order and
    quote. *)
Theorem permit_value_is_total_spend (w : World) (domain : PermitDomain)
    (message : PermitMessage) :
  In (ECall (SignTypedData domain message)) (trace Direct.main w) ->
  exists body response quantity fee,
    In (ECall (Post "/api/v1/web3/orders/fee" body)) (trace Direct.main w)
    /\ w_post w "/api/v1/web3/orders/fee" body = Ok response
    /\ Number.to_bigint (paymentTokenQuantity (order_data body))
       = Some quantity
    /\ outcome (BigInt (fq_fee (fee_quote response))) w = Ok fee
    /\ pm_value message = quantity + fee
    /\ forall processor calls,
        In (ECall (Multicall processor calls)) (trace Direct.main w) ->
        exists token v r s,
          calls = [SelfPermitData token (pm_owner message) (quantity + fee)
                     (pm_deadline message) v r s;
                   CreateOrderData (order_data body) (fee_quote response)
                     (fee_quote_signature response)].
Proof.
  unfold trace. destruct (Direct.main w) as [tr out] eqn:Hrun.
  cbn [fst]. intros H.
  run_cases Hrun.
  all: injection Hrun as <- <-.
  all: split_in H.
  all: try (exfalso; eapply orderEvent_makes_no_call;
            match goal with
            | E : Direct.orderEvent _ _ _ = _ |- _ => rewrite E
            end;
            exact H).
  all: injection H as <- <-.
  all: do 4 eexists.
  all: split; [ cbn [In]; repeat first [ left; reflexivity | right ] | ].
  all: split; [ eassumption | ].
  all: split; [ eassumption | ].
  all: split;
    [ first [ eapply BigInt_number_outcome; eassumption
            | eapply BigInt_string_outcome; eassumption ] | ].
  all: split; [ reflexivity | ].
  all: intros processor calls H2.
  all: split_in H2.
  all: try (exfalso; eapply orderEvent_makes_no_call;
            match goal with
            | E : Direct.orderEvent _ _ _ = _ |- _ => rewrite E
            end;
            exact H2).
  all: injection H2 as <- <-.
  all: do 4 eexists; reflexivity.
Qed.

Lemma demo_direct_batch_eq :
  demo_direct_batch
  = [SelfPermitData "0xENV" "0xSigner" 1002500 1700000300 27 "0xr" "0xs";
     Common.encodeCreateOrder
       {| requestTimestamp := Number.of_Z 1700000000000;
          recipient := "0xSigner";
          assetToken := "0xENV";
          paymentToken := "0xENV";
          sell := false;
          orderType := Number.of_Z 0;
          assetTokenQuantity := Number.of_Z 0;
          paymentTokenQuantity := Number.of_Z 1000000;
          price := Number.of_Z 0;
          tif := Number.of_Z 1 |}
       (Demo.quote (JNumber (Number.of_Z 2500)))].
Proof. vm_compute. reflexivity. Qed.

Lemma permit_value_is_total_spend_witness :
  let message :=
    {| pm_owner := "0xSigner";
       pm_spender := Demo.processor;
       pm_value := 1002500;
       pm_nonce := 4;
       pm_deadline := 1700000300 |} in
  let domain :=
    {| pd_name := "USD Coin";
       pd_version := "2";
       pd_chainId := 11155111;
       pd_verifyingContract := "0xENV" |} in
  In (ECall (SignTypedData domain message)) (trace Direct.main Demo.world)
  /\ exists body response quantity fee,
      In (ECall (Post "/api/v1/web3/orders/fee" body))
        (trace Direct.main Demo.world)
      /\ w_post Demo.world "/api/v1/web3/orders/fee" body = Ok response
      /\ Number.to_bigint (paymentTokenQuantity (order_data body))
         = Some quantity
      /\ outcome (BigInt (fq_fee (fee_quote response))) Demo.world = Ok fee
      /\ pm_value message = quantity + fee
      /\ forall processor calls,
          In (ECall (Multicall processor calls))
            (trace Direct.main Demo.world) ->
          exists token v r s,
            calls = [SelfPermitData token (pm_owner message) (quantity + fee)
                       (pm_deadline message) v r s;
                     CreateOrderData (order_data body) (fee_quote response)
                       (fee_quote_signature response)].
Proof.
  intros message domain.
  assert (H : In (ECall (SignTypedData domain message))
                (trace Direct.main Demo.world))
    by (vm_compute; tauto).
  exact (conj H (permit_value_is_total_spend Demo.world domain message H)).
Defined.

(** ** The total spend *)

Lemma Direct_main_multicall (w : World) (processor : address)
    (calls : list calldata) :
  In (ECall (Multicall processor calls)) (trace Direct.main w) ->
  exists token owner deadline v r s order quote signature quantity fee,
    calls = [SelfPermitData token owner (quantity + fee) deadline v r s;
             CreateOrderData order quote signature]
    /\ Number.to_bigint (paymentTokenQuantity order) = Some quantity
    /\ outcome (BigInt (fq_fee quote)) w = Ok fee.
Proof.
  unfold trace. destruct (Direct.main w) as [tr out] eqn:Hrun.
  cbn [fst]. intros H.
  run_cases Hrun.
  all: injection Hrun as <- <-.
  all: split_in H.
  all: try (exfalso; eapply orderEvent_makes_no_call;
            match goal with
            | E : Direct.orderEvent _ _ _ = _ |- _ => rewrite E
            end;
            exact H).
  all: injection H as <- <-.
  all: do 11 eexists.
  all: split; [ reflexivity | ].
  all: split; [ eassumption | ].
  all: first [ eapply BigInt_number_outcome; eassumption
             | eapply BigInt_string_outcome; eassumption ].
Qed.

Lemma Sponsored_main_sendTransactions (w : World)
    (transactions : list transaction) :
  In (ECall (SendTransactions transactions)) (trace Sponsored.main w) ->
  exists token spender order quote signature quantity fee,
    transactions
    = [ {| to := token;
           data := ApproveData spender (quantity + fee);
           tx_value := 0 |};
        {| to := spender;
           data := CreateOrderData order quote signature;
           tx_value := 0 |} ]
    /\ Number.to_bigint (paymentTokenQuantity order) = Some quantity
    /\ outcome (BigInt (fq_fee quote)) w = Ok fee.
Proof.
  unfold trace. destruct (Sponsored.main w) as [tr out] eqn:Hrun.
  cbn [fst]. intros H.
  run_cases Hrun.
  all: injection Hrun as <- <-.
  all: split_in H.
  all: injection H as <-.
  all: do 7 eexists.
  all: split; [ reflexivity | ].
  all: split; [ eassumption | ].
  all: first [ eapply BigInt_number_outcome; eassumption
             | eapply BigInt_string_outcome; eassumption ].
Qed.

Lemma SmartAccount_createOrder_sendTransactions (w : World)
    (orderProcessor : address) (orderParams : OrderParams)
    (feeQuoteResponse : FeeQuoteResponse) (totalSpendAmount : Z)
    (orderProcessorAddress payment : address)
    (transactions : list transaction) :
  In (ECall (SendTransactions transactions))
    (trace
       (SmartAccount.createOrder orderProcessor orderParams feeQuoteResponse
          totalSpendAmount orderProcessorAddress payment) w) ->
  transactions
  = [ {| to := payment;
         data := ApproveData orderProcessorAddress totalSpendAmount;
         tx_value := 0 |};
      {| to := orderProcessorAddress;
         data := Common.encodeCreateOrder orderParams feeQuoteResponse;
         tx_value := 0 |} ].
Proof.
  unfold trace.
  destruct (SmartAccount.createOrder _ _ _ _ _ _ w) as [tr out] eqn:Hrun.
  cbn [fst]. intros H.
  run_cases Hrun.
  all: injection Hrun as <- <-.
  all: split_in H.
  all: injection H as <-.
  all: reflexivity.
Qed.

(** C1. The total spend is [BigInt(paymentTokenQuantity) + fees], an
    integer sum: for a quantity of 1 000 000 and a fee of 2 500 it is
    1 002 500.  It is what the scripts pass on: in every [multicall] of
    the direct script the [selfPermit] value, and in every batch of the
    sponsored script the [approve] amount, is the payment quantity of the
    order in that batch plus [BigInt] of the fee of the quote in that
    batch; [createOrder] of smart_account.ts approves exactly the total
    spend it is given. *)
Theorem total_spend_is_quantity_plus_fee (w : World) :
  (forall orderParams fees quantity,
      Number.to_bigint (paymentTokenQuantity orderParams) = Some quantity ->
      Common.totalSpendAmount orderParams fees w = ([], Ok (quantity + fees)))
  /\ (forall orderParams,
         paymentTokenQuantity orderParams = Number.of_Z 1000000 ->
         Common.totalSpendAmount orderParams 2500 w = ([], Ok 1002500))
  /\ (forall processor calls,
         In (ECall (Multicall processor calls)) (trace Direct.main w) ->
         exists token owner deadline v r s order quote signature quantity fee,
           calls = [SelfPermitData token owner (quantity + fee) deadline v r s;
                    CreateOrderData order quote signature]
           /\ Number.to_bigint (paymentTokenQuantity order) = Some quantity
           /\ outcome (BigInt (fq_fee quote)) w = Ok fee)
  /\ (forall transactions,
         In (ECall (SendTransactions transactions)) (trace Sponsored.main w) ->
         exists token spender order quote signature quantity fee,
           transactions
           = [ {| to := token;
                  data := ApproveData spender (quantity + fee);
                  tx_value := 0 |};
               {| to := spender;
                  data := CreateOrderData order quote signature;
                  tx_value := 0 |} ]
           /\ Number.to_bigint (paymentTokenQuantity order) = Some quantity
           /\ outcome (BigInt (fq_fee quote)) w = Ok fee)
  /\ (forall orderProcessor orderParams feeQuoteResponse totalSpendAmount
             orderProcessorAddress payment transactions,
         In (ECall (SendTransactions transactions))
           (trace
              (SmartAccount.createOrder orderProcessor orderParams
                 feeQuoteResponse totalSpendAmount orderProcessorAddress
                 payment) w) ->
         transactions
         = [ {| to := payment;
                data := ApproveData orderProcessorAddress totalSpendAmount;
                tx_value := 0 |};
             {| to := orderProcessorAddress;
                data := Common.encodeCreateOrder orderParams feeQuoteResponse;
                tx_value := 0 |} ]).
Proof.
  repeat apply conj.
  - apply totalSpendAmount_run.
  - intros o Ho.
    apply (totalSpendAmount_run w o 2500 1000000).
    rewrite Ho. apply to_bigint_1000000.
  - apply Direct_main_multicall.
  - apply Sponsored_main_sendTransactions.
  - apply SmartAccount_createOrder_sendTransactions.
Qed.

Lemma total_spend_is_quantity_plus_fee_witness :
  Common.totalSpendAmount Demo.order 2500 Demo.world = ([], Ok 1002500)
  /\ (exists token owner deadline v r s order quote signature quantity fee,
         demo_direct_batch
         = [SelfPermitData token owner (quantity + fee) deadline v r s;
            CreateOrderData order quote signature]
         /\ Number.to_bigint (paymentTokenQuantity order) = Some quantity
         /\ outcome (BigInt (fq_fee quote)) Demo.world = Ok fee)
  /\ (exists token spender order quote signature quantity fee,
         demo_sponsored_transactions
         = [ {| to := token;
                data := ApproveData spender (quantity + fee);
                tx_value := 0 |};
             {| to := spender;
                data := CreateOrderData order quote signature;
                tx_value := 0 |} ]
         /\ Number.to_bigint (paymentTokenQuantity order) = Some quantity
         /\ outcome (BigInt (fq_fee quote)) Demo.world = Ok fee)
  /\ In (ECall (SendTransactions demo_create_order_transactions))
       (trace
          (SmartAccount.createOrder Demo.processor Demo.order
             (Demo.quote (JNumber (Number.of_Z 2500))) 1002500
             Demo.processor Demo.usdc) Demo.world).
Proof.
  destruct (total_spend_is_quantity_plus_fee Demo.world)
    as (_ & T & D & S & C).
  assert (HD : In (ECall (Multicall Demo.processor demo_direct_batch))
                 (trace Direct.main Demo.world))
    by (vm_compute; tauto).
  assert (HS : In (ECall (SendTransactions demo_sponsored_transactions))
                 (trace Sponsored.main Demo.world))
    by (vm_compute; tauto).
  assert (HC : In (ECall (SendTransactions demo_create_order_transactions))
                 (trace
                    (SmartAccount.createOrder Demo.processor Demo.order
                       (Demo.quote (JNumber (Number.of_Z 2500))) 1002500
                       Demo.processor Demo.usdc) Demo.world))
    by (vm_compute; tauto).
  pose proof (C _ _ _ _ _ _ _ HC) as _.
  exact (conj (T Demo.order eq_refl) (conj (D _ _ HD) (conj (S _ HS) HC))).
Defined.

(** ** smart_account.ts sends tokens *)

Lemma SmartAccount_main_creates_no_order (w : World) :
  all_events (fun ev => creates_order ev = false) w SmartAccount.main.
Proof.
  unfold SmartAccount.main, SmartAccount.setupSmartAccount,
    SmartAccount.setupContracts, Common.getFeeQuote, SmartAccount.sendToken.
  cbv iota delta [SmartAccount.SENT_STOCKS].
  all_script reflexivity.
Qed.

Lemma SmartAccount_main_sendTransactions (w : World)
    (transactions : list transaction) :
  In (ECall (SendTransactions transactions)) (trace SmartAccount.main w) ->
  transactions = sent_token_batch
  /\ exists body response,
      In (ECall (Post "/api/v1/web3/orders/fee" body))
        (trace SmartAccount.main w)
      /\ w_post w "/api/v1/web3/orders/fee" body = Ok response.
Proof.
  unfold trace. destruct (SmartAccount.main w) as [tr out] eqn:Hrun.
  cbn [fst]. intros H.
  run_cases Hrun.
  all: injection Hrun as <- <-.
  all: split_in H.
  all: injection H as <-.
  all: split; [ reflexivity | ].
  all: do 2 eexists.
  all: split; [ cbn [In]; repeat first [ left; reflexivity | right ] | ].
  all: eassumption.
Qed.

(** C10. In smart_account.ts the constant [SENT_STOCKS] is [true].  Every
    batch [main] sends is the batch of [sendToken]: an approval and a
    transfer of [BigInt(0.1 * 10 ** 18) = 10^17] units, both addressed to
    the token (the default asset of [sendToken]), the transfer going to
    the default recipient.  The batch is sent after the fee quote was
    requested and obtained, and it does not depend on the quote.  No event
    of the run carries [createOrder] calldata. *)
Theorem smart_account_main_sends_tokens (w : World) :
  SmartAccount.SENT_STOCKS = true
  /\ Number.to_bigint (Number.mul (Number.of_ratio 1 10) (Number.pow10 18))
     = Some (10 ^ 17)
  /\ (forall transactions,
         In (ECall (SendTransactions transactions))
           (trace SmartAccount.main w) ->
         transactions = sent_token_batch
         /\ exists body response,
             In (ECall (Post "/api/v1/web3/orders/fee" body))
               (trace SmartAccount.main w)
             /\ w_post w "/api/v1/web3/orders/fee" body = Ok response)
  /\ all_events (fun ev => creates_order ev = false) w SmartAccount.main.
Proof.
  repeat apply conj.
  - reflexivity.
  - apply to_bigint_token_amount.
  - apply SmartAccount_main_sendTransactions.
  - apply SmartAccount_main_creates_no_order.
Qed.

Lemma smart_account_main_sends_tokens_witness :
  In (ECall (SendTransactions sent_token_batch))
    (trace SmartAccount.main Demo.world)
  /\ exists body response,
      In (ECall (Post "/api/v1/web3/orders/fee" body))
        (trace SmartAccount.main Demo.world)
      /\ w_post Demo.world "/api/v1/web3/orders/fee" body = Ok response.
Proof.
  assert (H : In (ECall (SendTransactions sent_token_batch))
                (trace SmartAccount.main Demo.world))
    by (vm_compute; tauto).
  destruct (smart_account_main_sends_tokens Demo.world) as (_ & _ & S & _).
  exact (conj H (proj2 (S _ H))).
Defined.

(** ** Errors *)

Lemma app_eq_elt {A} (t1 t2 pre post : list A) (x : A) :
  t1 ++ t2 = pre ++ x :: post ->
  (exists post1, t1 = pre ++ x :: post1 /\ post = post1 ++ t2)
  \/ (exists pre2, pre = t1 ++ pre2 /\ t2 = pre2 ++ x :: post).
Proof.
  revert pre. induction t1 as [ | a t1 IH]; intros pre H.
  - right. exists pre. split; [ reflexivity | exact H ].
  - destruct pre as [ | b pre]; cbn [app] in H; injection H as <- H.
    + left. exists t1. split; [ reflexivity | now symmetry ].
    + destruct (IH pre H) as [(post1 & -> & ->) | (pre2 & -> & ->)].
      * left. exists post1. split; reflexivity.
      * right. exists pre2. split; reflexivity.
Qed.

Lemma elt_in_one {A} (y x : A) (pre post : list A) :
  [y] = pre ++ x :: post -> pre = [] /\ post = [] /\ y = x.
Proof.
  destruct pre as [ | b [ | c pre]]; cbn [app]; intros H.
  - now injection H as -> <-.
  - discriminate H.
  - discriminate H.
Qed.

Section Surfaces.

Variable handled : list event -> Prop.
Hypothesis handled_app : forall t pre, handled pre -> handled (t ++ pre).
Variable w : World.

Lemma sf_ret {A} (a : A) : sf handled w (ret a).
Proof.
  split; cbn.
  - intros e [ | b pre] post H; discriminate H.
  - discriminate.
Qed.

Lemma sf_read {A} (f : World -> A) : sf handled w (read f).
Proof.
  split; cbn.
  - intros e [ | b pre] post H; discriminate H.
  - discriminate.
Qed.

Lemma sf_console_log (l : console) : sf handled w (console_log l).
Proof.
  split; cbn.
  - intros e pre post H. apply elt_in_one in H.
    destruct H as (_ & _ & H). discriminate H.
  - discriminate.
Qed.

Lemma sf_throw {A} (e : exn) : sf handled w (@throw A e).
Proof.
  split; cbn.
  - intros e' pre post H. apply elt_in_one in H.
    destruct H as (_ & -> & [= ->]). right. split; reflexivity.
  - intros e' [= <-]. exists []. reflexivity.
Qed.

Lemma sf_compute {A} (f : World -> result A) : sf handled w (compute f).
Proof.
  unfold sf, trace, outcome, compute. destruct (f w) as [a | e0]; cbn.
  - apply (sf_ret a).
  - apply (@sf_throw A e0).
Qed.

Lemma sf_request {A} (c : call) (f : World -> result A) :
  sf handled w (request c f).
Proof.
  unfold sf, trace, outcome, request. destruct (f w) as [a | e0]; cbn.
  - split.
    + intros e pre post H. apply elt_in_one in H.
      destruct H as (_ & _ & H). discriminate H.
    + discriminate.
  - split.
    + intros e pre post H.
      change [ECall c; ERaise e0] with ([ECall c] ++ [ERaise e0]) in H.
      apply app_eq_elt in H.
      destruct H as [(post1 & H & _) | (pre2 & -> & H)].
      * apply elt_in_one in H. destruct H as (_ & _ & H). discriminate H.
      * apply elt_in_one in H. destruct H as (_ & -> & [= ->]).
        right. split; reflexivity.
    + intros e [= <-]. exists [ECall c]. reflexivity.
Qed.

Lemma sf_bind {A B} (m : M A) (k : A -> M B) :
  sf handled w m ->
  (forall a, outcome m w = Ok a -> sf handled w (k a)) ->
  sf handled w (bind m k).
Proof.
  intros [Hm1 Hm2] Hk. unfold sf.
  destruct (outcome m w) as [a | e0] eqn:E.
  - rewrite (trace_bind_ok m k w a E), (outcome_bind_ok m k w a E).
    destruct (Hk a eq_refl) as [Hk1 Hk2]. split.
    + intros e pre post H. apply app_eq_elt in H.
      destruct H as [(post1 & H & _) | (pre2 & -> & H)].
      * destruct (Hm1 e pre post1 H) as [Hh | [_ Hout]];
          [ now left | discriminate Hout ].
      * destruct (Hk1 e pre2 post H) as [Hh | Hlast];
          [ left; now apply handled_app | now right ].
    + intros e He. destruct (Hk2 e He) as [pre Hpre].
      exists (trace m w ++ pre). rewrite Hpre. apply app_assoc.
  - rewrite (trace_bind_throw m k w e0 E), (outcome_bind_throw m k w e0 E).
    split.
    + intros e pre post H.
      destruct (Hm1 e pre post H) as [Hh | [Hpost Hout]];
        [ now left | right ].
      split; [ exact Hpost | ]. injection Hout as ->. reflexivity.
    + intros e [= <-]. apply Hm2. reflexivity.
Qed.

Lemma sf_map_parseLog (l : list Log) :
  sf handled w
    (Direct.map_M (fun log => compute (fun w => w_parseLog w log)) l).
Proof.
  induction l as [ | x l IH]; cbn [Direct.map_M].
  - apply sf_ret.
  - apply sf_bind; [ apply sf_compute | intros y _ ].
    apply sf_bind; [ exact IH | intros; apply sf_ret ].
Qed.

End Surfaces.

(** One step of a proof that the errors of a script surface. *)
Ltac sf_step :=
  lazymatch goal with
  | |- sf _ _ (ret _) => apply sf_ret
  | |- sf _ _ (read _) => apply sf_read
  | |- sf _ _ (throw _) => apply sf_throw
  | |- sf _ _ (console_log _) => apply sf_console_log
  | |- sf _ _ (compute _) => apply sf_compute
  | |- sf _ _ (request _ _) => apply sf_request
  | |- sf _ _ (Direct.map_M _ _) => apply sf_map_parseLog; assumption
  | |- sf _ _ (bind _ _) => apply sf_bind; [ assumption | | intros ? ? ]
  | |- sf _ _ (match ?x with _ => _ end) => destruct x
  end.

Ltac sf_script := repeat sf_step.

Lemma version_probe_app (t pre : list event) :
  version_probe pre -> version_probe (t ++ pre).
Proof.
  intros (pre' & token & ->). exists (t ++ pre'), token. apply app_assoc.
Qed.

Lemma never_app (t pre : list event) : never pre -> never (t ++ pre).
Proof. intros []. Qed.

(** The failure of the version probe is handled: the version is "1". *)
Lemma sf_getContractVersion (w : World) (contract : address) :
  sf version_probe w (Common.getContractVersion contract).
Proof.
  unfold sf, trace, outcome, Common.getContractVersion, try_catch, request.
  destruct (w_version w contract) as [v | e0]; cbn.
  - split.
    + intros e pre post H. apply elt_in_one in H.
      destruct H as (_ & _ & H). discriminate H.
    + discriminate.
  - split.
    + intros e pre post H.
      change [ECall (TokenVersion contract); ERaise e0]
        with ([ECall (TokenVersion contract)] ++ [ERaise e0]) in H.
      apply app_eq_elt in H.
      destruct H as [(post1 & H & _) | (pre2 & -> & H)].
      * apply elt_in_one in H. destruct H as (_ & _ & H). discriminate H.
      * apply elt_in_one in H. destruct H as (-> & _ & _).
        left. exists [], contract. reflexivity.
    + discriminate.
Qed.

(** The scripts with their functions inlined, down to the operations of
    the monad. *)
Ltac inline_scripts :=
  cbv beta iota zeta delta
    [new_Contract BigInt BigInt_of_number waitForUserOperationReceipt
     Common.getFeeQuote Common.totalSpendAmount Common.encodeCreateOrder
     Common.executeOrderTransaction Common.orderCreatedEvent
     Direct.main Direct.getenv Direct.configureOrder Direct.configurePermit
     Direct.submitOrder Direct.orderEvent
     Sponsored.main Sponsored.environment Sponsored.setupSmartAccount
     Sponsored.setupContracts Sponsored.configureOrder
     SmartAccount.main SmartAccount.environment
     SmartAccount.setupSmartAccount SmartAccount.setupContracts
     SmartAccount.configureOrder SmartAccount.sendToken
     SmartAccount.createOrder SmartAccount.default
     SmartAccount.SENT_STOCKS].

Lemma Direct_main_surfaces (w : World) :
  surfaces version_probe (trace Direct.main w) (outcome Direct.main w).
Proof.
  change (sf version_probe w Direct.main).
  pose proof version_probe_app as Happ.
  inline_scripts.
  repeat first [ apply sf_getContractVersion | sf_step ].
Qed.

Section CaughtAfterDispatch.

Variable w : World.

Lemma existsb_is_send_app (t pre : list event) :
  Forall (fun ev => is_send ev = false) t ->
  existsb is_send (t ++ pre) = existsb is_send pre.
Proof.
  intros Ht. rewrite existsb_app.
  replace (existsb is_send t) with false; [ reflexivity | ].
  symmetry. induction Ht as [ | x t Hx _ IH]; cbn; [ reflexivity | ].
  now rewrite Hx, IH.
Qed.

Lemma cad_bind {A} (m : M A) (k : A -> M unit) :
  sf never w m ->
  all_events (fun ev => is_send ev = false) w m ->
  (forall a, outcome m w = Ok a -> cad w (k a)) ->
  cad w (bind m k).
Proof.
  intros [Hm1 Hm2] Hsend Hk. unfold cad.
  destruct (outcome m w) as [a | e0] eqn:E.
  - rewrite (trace_bind_ok m k w a E), (outcome_bind_ok m k w a E).
    destruct (Hk a eq_refl) as [Hk1 Hk2]. split.
    + intros e pre post H. apply app_eq_elt in H.
      destruct H as [(post1 & H & _) | (pre2 & -> & H)].
      * destruct (Hm1 e pre post1 H) as [[] | [_ Hout]]. discriminate Hout.
      * rewrite (existsb_is_send_app _ _ Hsend). apply (Hk1 e pre2 post H).
    + intros e He. destruct (Hk2 e He) as [pre Hpre].
      exists (trace m w ++ pre). rewrite Hpre. apply app_assoc.
  - rewrite (trace_bind_throw m k w e0 E), (outcome_bind_throw m k w e0 E).
    split.
    + intros e pre post H.
      destruct (Hm1 e pre post H) as [[] | [Hpost Hout]].
      injection Hout as ->.
      replace (existsb is_send pre) with false; [ now split | ].
      symmetry. unfold all_events in Hsend. rewrite H in Hsend.
      apply Forall_app in Hsend. destruct Hsend as [Hpre _].
      rewrite <- (app_nil_r pre). now apply existsb_is_send_app.
    + intros e [= <-]. apply Hm2. reflexivity.
Qed.

(** [try { body } catch (error) { console.error("Error:", error) }]
    around a body that begins by dispatching the batch. *)
Lemma cad_try_catch (body : M unit) :
  sf never w body ->
  (exists transactions rest,
      trace body w = ECall (SendTransactions transactions) :: rest) ->
  cad w (try_catch body (fun error => console_log (LogCaught error))).
Proof.
  intros [Hb1 Hb2] (txs & rest & Hstart).
  unfold cad, trace, outcome, try_catch, console_log in *.
  destruct (body w) as [t1 [[] | e0]]; cbn [fst snd] in *.
  - split; [ | discriminate ].
    intros e pre post H.
    destruct (Hb1 e pre post H) as [[] | [_ Hout]]. discriminate Hout.
  - split; [ | discriminate ].
    intros e pre post H. apply app_eq_elt in H.
    destruct H as [(post1 & H & ->) | (pre2 & _ & H)].
    + destruct (Hb1 e pre post1 H) as [[] | [-> [= ->]]].
      rewrite H in Hstart.
      destruct pre as [ | ev pre]; cbn [app] in Hstart;
        [ discriminate Hstart | ].
      injection Hstart as -> _. cbn. split; reflexivity.
    + apply elt_in_one in H. destruct H as (_ & _ & H). discriminate H.
Qed.

Lemma starts_with_request {A} (c : call) (f : World -> result A)
    (k : A -> M unit) :
  exists rest, trace (bind (request c f) k) w = ECall c :: rest.
Proof.
  unfold trace, bind, request. destruct (f w) as [a | e].
  - destruct (k a w) as [t2 r]. eexists. reflexivity.
  - eexists. reflexivity.
Qed.

End CaughtAfterDispatch.

Lemma Sponsored_main_caught (w : World) :
  caught_after_dispatch (trace Sponsored.main w) (outcome Sponsored.main w).
Proof.
  change (cad w Sponsored.main).
  pose proof never_app as Happ.
  inline_scripts.
  repeat lazymatch goal with
         | |- cad _ (bind _ _) =>
             apply cad_bind;
             [ sf_script | all_script reflexivity | intros ? ? ]
         | |- cad _ (match ?x with _ => _ end) => destruct x
         end.
  apply cad_try_catch.
  - sf_script.
  - eexists. apply starts_with_request.
Qed.

Lemma SmartAccount_main_caught (w : World) :
  caught_after_dispatch (trace SmartAccount.main w)
    (outcome SmartAccount.main w).
Proof.
  change (cad w SmartAccount.main).
  pose proof never_app as Happ.
  inline_scripts.
  repeat lazymatch goal with
         | |- cad _ (bind _ _) =>
             apply cad_bind;
             [ sf_script | all_script reflexivity | intros ? ? ]
         | |- cad _ (match ?x with _ => _ end) => destruct x
         end.
  apply cad_try_catch.
  - sf_script.
  - rewrite to_bigint_token_amount. unfold trace, bind, ret, request.
    destruct (w_sendTransactions w _); do 2 eexists; reflexivity.
Qed.

Lemma run_script_exit (main : M unit) (w : World) :
  run_script main w
  = match outcome main w with
    | Ok _ => (trace main w, 0)
    | Throw e => (trace main w ++ [EConsole (LogFatal e)], 1)
    end.
Proof.
  unfold run_script, outcome, trace. now destruct (main w) as [t [a | e]].
Qed.

(** C8, amended. Nothing is retried, and:

    - direct script: an exception raised during the run, other than a
      failure of the token's version probe (which is caught, the version
      being "1" then), is the last event of the run and is what [main]
      throws, unmodified; what [main] throws was raised as its last event;
    - sponsored scripts (part_001 and smart_account.ts): the same holds
      for an exception raised before the batch is dispatched; an exception
      raised from [sendTransactions] on is caught by [main], written to
      the error console, and [main] returns;
    - the process ends with status 1 exactly when [main] throws, and with
      status 0 when it returns. *)
Theorem errors_surface_or_are_caught (w : World) :
  surfaces version_probe (trace Direct.main w) (outcome Direct.main w)
  /\ caught_after_dispatch (trace Sponsored.main w)
       (outcome Sponsored.main w)
  /\ caught_after_dispatch (trace SmartAccount.main w)
       (outcome SmartAccount.main w)
  /\ forall main,
      run_script main w
      = match outcome main w with
        | Ok _ => (trace main w, 0)
        | Throw e => (trace main w ++ [EConsole (LogFatal e)], 1)
        end.
Proof.
  split; [ | split; [ | split ] ].
  - apply Direct_main_surfaces.
  - apply Sponsored_main_caught.
  - apply SmartAccount_main_caught.
  - intros main. apply run_script_exit.
Qed.

(** The theorem at work: the sponsored script whose batch the bundler
    rejects writes the error to the console and returns. *)
Lemma errors_surface_or_are_caught_witness :
  trace Sponsored.main demo_rejecting_world
  = demo_rejected_prefix
      ++ ERaise (Error "bundler rejected")
      :: [EConsole (LogCaught (Error "bundler rejected"))]
  /\ outcome Sponsored.main demo_rejecting_world = Ok tt.
Proof.
  assert (H : trace Sponsored.main demo_rejecting_world
              = demo_rejected_prefix
                  ++ ERaise (Error "bundler rejected")
                  :: [EConsole (LogCaught (Error "bundler rejected"))])
    by (vm_compute; reflexivity).
  destruct (errors_surface_or_are_caught demo_rejecting_world)
    as (_ & [S _] & _).
  pose proof (S _ _ _ H) as C.
  change (existsb is_send demo_rejected_prefix) with true in C.
  exact (conj H (proj2 C)).
Defined.

(** C8 as stated fails: when the bundler rejects the batch, and when the
    receipt never comes, the sponsored scripts raise the error, catch it,
    and the process ends with status 0. *)
Lemma errors_surface_counterexample :
  In (ERaise (Error "bundler rejected"))
    (trace Sponsored.main demo_rejecting_world)
  /\ run_script Sponsored.main demo_rejecting_world
     = (trace Sponsored.main demo_rejecting_world, 0)
  /\ In (ERaise timed_out) (trace Sponsored.main demo_silent_world)
  /\ run_script Sponsored.main demo_silent_world
     = (trace Sponsored.main demo_silent_world, 0)
  /\ In (ERaise timed_out) (trace SmartAccount.main
                              (Demo.world_with 9 18 (Throw timed_out) None []))
  /\ snd (run_script SmartAccount.main
            (Demo.world_with 9 18 (Throw timed_out) None [])) = 0.
Proof.
  split; [ | split; [ | split; [ | split; [ | split ] ] ] ];
    vm_compute; tauto.
Qed.

(** * Further properties of the scripts *)

(** ** The permit of the direct script *)

(** Two successful answers of the same call are the same answer. *)
Ltac same_answers :=
  repeat match goal with
         | H : Ok _ = Ok _ |- _ => injection H as ->
         | H : Some _ = Some _ |- _ => injection H as ->
         end.

(** X1. Every permit the direct script signs is built from the answers
    of this run: the owner is the address of the wallet of
    [PRIVATE_KEY_EOA], the verifying contract is [PAYMENTTOKEN], the chain
    id is the network's, the spender is the processor of that chain, the
    nonce is the owner's nonce at the payment token, the deadline is the
    time of the latest block plus 300 seconds (a block time that is not
    0), the name is the token's, and the version is the token's version,
    or "1" when the token does not answer [version()]. *)
Theorem Direct_permit_fields (w : World) (domain : PermitDomain)
    (message : PermitMessage) :
  In (ECall (SignTypedData domain message)) (trace Direct.main w) ->
  exists key chain number time,
    w_env w "PRIVATE_KEY_EOA" = Some key
    /\ w_walletAddress w key = Ok (pm_owner message)
    /\ w_env w "PAYMENTTOKEN" = Some (pd_verifyingContract domain)
    /\ w_getNetwork w = Ok chain
    /\ pd_chainId domain = chain
    /\ w_networkAddresses w chain = Some (pm_spender message)
    /\ w_nonces w (pd_verifyingContract domain) (pm_owner message)
       = Ok (pm_nonce message)
    /\ w_getBlockNumber w = Ok number
    /\ w_getBlock w number = Ok (Some time)
    /\ time <> 0
    /\ pm_deadline message = time + 300
    /\ w_name w (pd_verifyingContract domain) = Ok (pd_name domain)
    /\ pd_version domain
       = match w_version w (pd_verifyingContract domain) with
         | Ok v => v
         | Throw _ => "1"
         end.
Proof.
  unfold trace. destruct (Direct.main w) as [tr out] eqn:Hrun.
  cbn [fst]. intros H.
  run_cases Hrun.
  all: injection Hrun as <- <-.
  all: split_in H.
  all: try (exfalso; eapply orderEvent_makes_no_call;
            match goal with
            | E : Direct.orderEvent _ _ _ = _ |- _ => rewrite E
            end;
            exact H).
  all: injection H as <- <-.
  all: same_answers.
  all: cbn [pm_owner pm_spender pm_nonce pm_deadline pd_name pd_version
              pd_chainId pd_verifyingContract].
  all: do 4 eexists.
  all: repeat (split; [ first [ eassumption | reflexivity ] | ]).
  all: try (split; [ apply Z.eqb_neq; eassumption | ]).
  all: repeat (split; [ first [ eassumption | reflexivity ] | ]).
  all: match goal with
       | Hv : w_version _ _ = _ |- _ => rewrite Hv
       end; reflexivity.
Qed.

Lemma Direct_permit_fields_witness :
  In (ECall (SignTypedData demo_domain demo_message))
    (trace Direct.main Demo.world)
  /\ exists key chain number time,
      w_env Demo.world "PRIVATE_KEY_EOA" = Some key
      /\ w_walletAddress Demo.world key = Ok (pm_owner demo_message)
      /\ w_env Demo.world "PAYMENTTOKEN"
         = Some (pd_verifyingContract demo_domain)
      /\ w_getNetwork Demo.world = Ok chain
      /\ pd_chainId demo_domain = chain
      /\ w_networkAddresses Demo.world chain = Some (pm_spender demo_message)
      /\ w_nonces Demo.world (pd_verifyingContract demo_domain)
           (pm_owner demo_message)
         = Ok (pm_nonce demo_message)
      /\ w_getBlockNumber Demo.world = Ok number
      /\ w_getBlock Demo.world number = Ok (Some time)
      /\ time <> 0
      /\ pm_deadline demo_message = time + 300
      /\ w_name Demo.world (pd_verifyingContract demo_domain)
         = Ok (pd_name demo_domain)
      /\ pd_version demo_domain
         = match w_version Demo.world (pd_verifyingContract demo_domain) with
           | Ok v => v
           | Throw _ => "1"
           end.
Proof.
  assert (H : In (ECall (SignTypedData demo_domain demo_message))
                (trace Direct.main Demo.world))
    by (vm_compute; tauto).
  exact (conj H (Direct_permit_fields Demo.world demo_domain demo_message H)).
Defined.

(** X2. [configurePermit] needs a block time: when the latest block is
    missing, or its time is 0, it throws [Error("no block time")] after
    reading the nonce, the block number and the block, and before reading
    the token's name and version. *)
Theorem configurePermit_needs_block_time (w : World)
    (signer paymentToken orderProcessorAddress : address)
    (totalSpendAmount nonce number : Z) (block : option Z) :
  w_nonces w paymentToken signer = Ok nonce ->
  w_getBlockNumber w = Ok number ->
  w_getBlock w number = Ok block ->
  block = None \/ block = Some 0 ->
  Direct.configurePermit signer paymentToken orderProcessorAddress
    totalSpendAmount w
  = ([ECall (Nonces paymentToken signer);
      ECall GetBlockNumber;
      ECall (GetBlock number);
      ERaise (Error "no block time")],
     Throw (Error "no block time")).
Proof.
  intros Hnonce Hnumber Hblock Hnone.
  unfold Direct.configurePermit, bind, request.
  rewrite Hnonce, Hnumber, Hblock.
  destruct Hnone as [-> | ->]; reflexivity.
Qed.

Lemma configurePermit_needs_block_time_witness :
  Direct.configurePermit "0xSigner" Demo.usdc Demo.processor 1002500
    demo_genesis_world
  = ([ECall (Nonces Demo.usdc "0xSigner");
      ECall GetBlockNumber;
      ECall (GetBlock 100);
      ERaise (Error "no block time")],
     Throw (Error "no block time")).
Proof.
  apply (configurePermit_needs_block_time demo_genesis_world "0xSigner"
           Demo.usdc Demo.processor 1002500 4 100 (Some 0)).
  - reflexivity.
  - reflexivity.
  - reflexivity.
  - right. reflexivity.
Defined.

(** ** The environment *)

(** The environment lookups of a branch are put into the hypotheses. *)
Ltac use_env :=
  repeat match goal with
         | E : w_env ?w ?n = _, H : context [w_env ?w ?n] |- _ =>
             rewrite E in H
         | E : w_env ?w ?n = _ |- context [w_env ?w ?n] => rewrite E
         end.

(** X3. The direct script checks its five environment variables in the
    order [PRIVATE_KEY_EOA], [RPC_URL], [ASSETTOKEN], [PAYMENTTOKEN],
    [DINARI_API_KEY]: the first one that is missing or empty ends the run
    with its own error, before anything else happens.  Hence a run that
    makes any outside call has all five. *)
Theorem Direct_main_checks_environment (w : World) :
  (falsy (w_env w "PRIVATE_KEY_EOA") = true ->
   Direct.main w = ([ERaise (Error "empty key")], Throw (Error "empty key")))
  /\ (falsy (w_env w "PRIVATE_KEY_EOA") = false ->
      falsy (w_env w "RPC_URL") = true ->
      Direct.main w
      = ([ERaise (Error "empty rpc url")], Throw (Error "empty rpc url")))
  /\ (falsy (w_env w "PRIVATE_KEY_EOA") = false ->
      falsy (w_env w "RPC_URL") = false ->
      falsy (w_env w "ASSETTOKEN") = true ->
      Direct.main w
      = ([ERaise (Error "empty asset token address")],
         Throw (Error "empty asset token address")))
  /\ (falsy (w_env w "PRIVATE_KEY_EOA") = false ->
      falsy (w_env w "RPC_URL") = false ->
      falsy (w_env w "ASSETTOKEN") = false ->
      falsy (w_env w "PAYMENTTOKEN") = true ->
      Direct.main w
      = ([ERaise (Error "empty payment token address")],
         Throw (Error "empty payment token address")))
  /\ (falsy (w_env w "PRIVATE_KEY_EOA") = false ->
      falsy (w_env w "RPC_URL") = false ->
      falsy (w_env w "ASSETTOKEN") = false ->
      falsy (w_env w "PAYMENTTOKEN") = false ->
      falsy (w_env w "DINARI_API_KEY") = true ->
      Direct.main w
      = ([ERaise (Error "empty dinari api key")],
         Throw (Error "empty dinari api key")))
  /\ (forall c,
         In (ECall c) (trace Direct.main w) ->
         falsy (w_env w "PRIVATE_KEY_EOA") = false
         /\ falsy (w_env w "RPC_URL") = false
         /\ falsy (w_env w "ASSETTOKEN") = false
         /\ falsy (w_env w "PAYMENTTOKEN") = false
         /\ falsy (w_env w "DINARI_API_KEY") = false).
Proof.
  unfold trace. destruct (Direct.main w) as [tr out] eqn:Hrun.
  cbn [fst].
  split; [ | split; [ | split; [ | split; [ | split ] ] ] ]; intros.
  all: run_cases Hrun.
  all: injection Hrun as <- <-.
  all: use_env.
  all: try solve [ reflexivity | congruence | discriminate
                 | repeat split; assumption ].
  all: match goal with
       | H : In (ECall _) _ |- _ => split_in H
       end.
Qed.

Lemma Direct_main_checks_environment_witness :
  Direct.main demo_bare_world
  = ([ERaise (Error "empty key")], Throw (Error "empty key"))
  /\ Direct.main demo_no_rpc_world
     = ([ERaise (Error "empty rpc url")], Throw (Error "empty rpc url"))
  /\ falsy (w_env Demo.world "PRIVATE_KEY_EOA") = false
  /\ falsy (w_env Demo.world "RPC_URL") = false
  /\ falsy (w_env Demo.world "ASSETTOKEN") = false
  /\ falsy (w_env Demo.world "PAYMENTTOKEN") = false
  /\ falsy (w_env Demo.world "DINARI_API_KEY") = false.
Proof.
  destruct (Direct_main_checks_environment demo_bare_world) as (K & _).
  destruct (Direct_main_checks_environment demo_no_rpc_world)
    as (_ & R & _).
  destruct (Direct_main_checks_environment Demo.world)
    as (_ & _ & _ & _ & _ & C).
  assert (H : In (ECall GetNetwork) (trace Direct.main Demo.world))
    by (vm_compute; tauto).
  exact (conj (K eq_refl) (conj (R eq_refl eq_refl) (C GetNetwork H))).
Defined.

(** X4. The sponsored script and smart_account.ts check their environment
    at once: when any variable is missing or empty, [main] throws
    [Error("Missing environment variables")] and nothing else happens.
    Hence a run that makes any outside call has all of them. *)
Theorem sponsored_mains_check_environment (w : World) :
  (sponsored_environment_missing w = true ->
   Sponsored.main w = ([ERaise missing_environment], Throw missing_environment))
  /\ (forall c,
         In (ECall c) (trace Sponsored.main w) ->
         sponsored_environment_missing w = false)
  /\ (smart_account_environment_missing w = true ->
      SmartAccount.main w
      = ([ERaise missing_environment], Throw missing_environment))
  /\ (forall c,
         In (ECall c) (trace SmartAccount.main w) ->
         smart_account_environment_missing w = false).
Proof.
  unfold trace, sponsored_environment_missing,
    smart_account_environment_missing.
  split; [ | split; [ | split ] ].
  - destruct (Sponsored.main w) as [tr out] eqn:Hrun. intros H.
    run_cases Hrun.
    all: injection Hrun as <- <-.
    all: use_env.
    all: try solve [ reflexivity | congruence | discriminate ].
  - destruct (Sponsored.main w) as [tr out] eqn:Hrun. cbn [fst]. intros c H.
    run_cases Hrun.
    all: injection Hrun as <- <-.
    all: use_env.
    all: try solve [ assumption | reflexivity ].
    all: split_in H.
  - destruct (SmartAccount.main w) as [tr out] eqn:Hrun. intros H.
    run_cases Hrun.
    all: injection Hrun as <- <-.
    all: use_env.
    all: try solve [ reflexivity | congruence | discriminate ].
  - destruct (SmartAccount.main w) as [tr out] eqn:Hrun. cbn [fst].
    intros c H.
    run_cases Hrun.
    all: injection Hrun as <- <-.
    all: use_env.
    all: try solve [ assumption | reflexivity ].
    all: split_in H.
Qed.

Lemma sponsored_mains_check_environment_witness :
  Sponsored.main demo_no_rpc_world
  = ([ERaise missing_environment], Throw missing_environment)
  /\ sponsored_environment_missing Demo.world = false
  /\ SmartAccount.main demo_bare_world
     = ([ERaise missing_environment], Throw missing_environment)
  /\ smart_account_environment_missing Demo.world = false.
Proof.
  destruct (sponsored_mains_check_environment demo_no_rpc_world)
    as (S & _).
  destruct (sponsored_mains_check_environment demo_bare_world)
    as (_ & _ & A & _).
  destruct (sponsored_mains_check_environment Demo.world)
    as (_ & CS & _ & CA).
  assert (HS : In (ECall GetNetwork) (trace Sponsored.main Demo.world))
    by (vm_compute; tauto).
  assert (HA : In (ECall GetNetwork) (trace SmartAccount.main Demo.world))
    by (vm_compute; tauto).
  exact (conj (S eq_refl) (conj (CS _ HS) (conj (A eq_refl) (CA _ HA)))).
Defined.

(** ** What is quoted is what is submitted *)

(** X5. In the sponsored script the batch that is sent is built from the
    fee request of the same run: the order in [createOrder] is the order
    that was sent for quoting, the quote and its signature are those of the
    service's answer, [approve] is addressed to the payment token of the
    order with the processor named in the request as spender, and
    [createOrder] is addressed to that processor. *)
Theorem Sponsored_batch_matches_quote (w : World)
    (transactions : list transaction) :
  In (ECall (SendTransactions transactions)) (trace Sponsored.main w) ->
  exists body response total,
    In (ECall (Post "/api/v1/web3/orders/fee" body)) (trace Sponsored.main w)
    /\ w_post w "/api/v1/web3/orders/fee" body = Ok response
    /\ transactions
       = [ {| to := paymentToken (order_data body);
              data := ApproveData (contract_address body) total;
              tx_value := 0 |};
           {| to := contract_address body;
              data := CreateOrderData (order_data body) (fee_quote response)
                        (fee_quote_signature response);
              tx_value := 0 |} ].
Proof.
  unfold trace. destruct (Sponsored.main w) as [tr out] eqn:Hrun.
  cbn [fst]. intros H.
  run_cases Hrun.
  all: injection Hrun as <- <-.
  all: split_in H.
  all: injection H as <-.
  all: do 3 eexists.
  all: split; [ cbn [In]; repeat first [ left; reflexivity | right ] | ].
  all: split; [ eassumption | reflexivity ].
Qed.

Lemma Sponsored_batch_matches_quote_witness :
  In (ECall (SendTransactions demo_sponsored_transactions))
    (trace Sponsored.main Demo.world)
  /\ exists body response total,
      In (ECall (Post "/api/v1/web3/orders/fee" body))
        (trace Sponsored.main Demo.world)
      /\ w_post Demo.world "/api/v1/web3/orders/fee" body = Ok response
      /\ demo_sponsored_transactions
         = [ {| to := paymentToken (order_data body);
                data := ApproveData (contract_address body) total;
                tx_value := 0 |};
             {| to := contract_address body;
                data := CreateOrderData (order_data body)
                          (fee_quote response)
                          (fee_quote_signature response);
                tx_value := 0 |} ].
Proof.
  assert (H : In (ECall (SendTransactions demo_sponsored_transactions))
                (trace Sponsored.main Demo.world))
    by (vm_compute; tauto).
  exact (conj H (Sponsored_batch_matches_quote Demo.world _ H)).
Defined.

(** X6. The fee request of each script is made of the answers of the run:
    the chain id is the network's, the contract is the processor of that
    chain, the payment token is [PAYMENTTOKEN], and the order is stamped
    with the clock.  The recipient of the order is the wallet's address in
    the direct script and the smart account's address in the sponsored
    scripts; the asset is [ASSETTOKEN], and in smart_account.ts the
    constant [ASSET_TOKEN_ADDRESS]. *)
Theorem fee_request_is_made_of_answers (w : World) (url : string)
    (body : FeeQuoteData) :
  let order := order_data body in
  let common :=
    url = "/api/v1/web3/orders/fee"
    /\ w_getNetwork w = Ok (chain_id body)
    /\ w_networkAddresses w (chain_id body) = Some (contract_address body)
    /\ w_env w "PAYMENTTOKEN" = Some (paymentToken order)
    /\ requestTimestamp order = Number.of_Z (w_now w) in
  (In (ECall (Post url body)) (trace Direct.main w) ->
   common
   /\ w_env w "ASSETTOKEN" = Some (assetToken order)
   /\ exists key,
       w_env w "PRIVATE_KEY_EOA" = Some key
       /\ w_walletAddress w key = Ok (recipient order))
  /\ (In (ECall (Post url body)) (trace Sponsored.main w) ->
      common
      /\ w_env w "ASSETTOKEN" = Some (assetToken order)
      /\ exists key,
          w_env w "PRIVATE_KEY" = Some key
          /\ w_smartAccountAddress w key = Ok (recipient order))
  /\ (In (ECall (Post url body)) (trace SmartAccount.main w) ->
      common
      /\ assetToken order = SmartAccount.ASSET_TOKEN_ADDRESS
      /\ exists key,
          w_env w "PRIVATE_KEY" = Some key
          /\ w_smartAccountAddress w key = Ok (recipient order)).
Proof.
  intros order common. subst order common. unfold trace.
  split; [ | split ].
  - destruct (Direct.main w) as [tr out] eqn:Hrun. cbn [fst]. intros H.
    run_cases Hrun.
    all: injection Hrun as <- <-.
    all: split_in H.
    all: try (exfalso; eapply orderEvent_makes_no_call;
              match goal with
              | E : Direct.orderEvent _ _ _ = _ |- _ => rewrite E
              end;
              exact H).
    all: injection H as <- <-.
    all: same_answers.
    all: repeat first [ split | eexists ].
    all: first [ eassumption | reflexivity ].
  - destruct (Sponsored.main w) as [tr out] eqn:Hrun. cbn [fst]. intros H.
    run_cases Hrun.
    all: injection Hrun as <- <-.
    all: split_in H.
    all: injection H as <- <-.
    all: repeat first [ split | eexists ].
    all: first [ eassumption | reflexivity ].
  - destruct (SmartAccount.main w) as [tr out] eqn:Hrun. cbn [fst]. intros H.
    run_cases Hrun.
    all: injection Hrun as <- <-.
    all: split_in H.
    all: injection H as <- <-.
    all: repeat first [ split | eexists ].
    all: first [ eassumption | reflexivity ].
Qed.

Lemma fee_request_is_made_of_answers_witness :
  (In (ECall (Post "/api/v1/web3/orders/fee" demo_direct_request))
     (trace Direct.main Demo.world)
   /\ w_getNetwork Demo.world = Ok (chain_id demo_direct_request))
  /\ (In (ECall (Post "/api/v1/web3/orders/fee" demo_sponsored_request))
        (trace Sponsored.main Demo.world)
      /\ w_getNetwork Demo.world = Ok (chain_id demo_sponsored_request))
  /\ (In (ECall (Post "/api/v1/web3/orders/fee" demo_smart_account_request))
        (trace SmartAccount.main Demo.world)
      /\ assetToken (order_data demo_smart_account_request)
         = SmartAccount.ASSET_TOKEN_ADDRESS).
Proof.
  assert (HD : In (ECall (Post "/api/v1/web3/orders/fee" demo_direct_request))
                 (trace Direct.main Demo.world))
    by (vm_compute; tauto).
  assert (HS : In (ECall (Post "/api/v1/web3/orders/fee"
                            demo_sponsored_request))
                 (trace Sponsored.main Demo.world))
    by (vm_compute; tauto).
  assert (HA : In (ECall (Post "/api/v1/web3/orders/fee"
                            demo_smart_account_request))
                 (trace SmartAccount.main Demo.world))
    by (vm_compute; tauto).
  pose proof (proj1 (fee_request_is_made_of_answers Demo.world
                       "/api/v1/web3/orders/fee" demo_direct_request) HD)
    as D.
  pose proof (proj1 (proj2 (fee_request_is_made_of_answers Demo.world
                              "/api/v1/web3/orders/fee"
                              demo_sponsored_request)) HS)
    as S.
  pose proof (proj2 (proj2 (fee_request_is_made_of_answers Demo.world
                              "/api/v1/web3/orders/fee"
                              demo_smart_account_request)) HA)
    as A.
  exact (conj (conj HD (proj1 (proj2 (proj1 D))))
           (conj (conj HS (proj1 (proj2 (proj1 S))))
              (conj HA (proj1 (proj2 A))))).
Defined.

(** ** One submission, in order *)

Lemma precedes_sound (a b : event -> bool) (tr : list event) :
  precedes a b tr = true -> always_after a b tr.
Proof.
  induction tr as [ | y tr IH]; intros Hp pre x post E Hb.
  - destruct pre; discriminate E.
  - cbn [precedes] in Hp. destruct pre as [ | z pre]; cbn [app] in E.
    + injection E as -> ->. rewrite Hb in Hp. discriminate Hp.
    + injection E as <- ->. cbn [existsb].
      destruct (b y); [ discriminate Hp | ].
      destruct (a y); [ reflexivity | ].
      cbn [orb]. exact (IH Hp pre x post eq_refl Hb).
Qed.

Lemma orderEvent_filter_calls (w : World) (p : address) (r : Receipt)
    (l : list event) (out : result (option string * option string))
    (kind : event -> bool) :
  Direct.orderEvent p r w = (l, out) ->
  (forall ev, kind ev = true -> is_call ev = true) ->
  filter kind l = [].
Proof.
  intros Hrun Hkind. apply none_such_filter. intros ev HIn.
  destruct (kind ev) eqn:E; [ exfalso | reflexivity ].
  apply Hkind in E. destruct ev as [c | e | c]; try discriminate E.
  apply (orderEvent_makes_no_call w p r c). now rewrite Hrun.
Qed.

(** The count of a kind of calls in a trace that may contain the trace
    of [orderEvent]. *)
Ltac count_calls :=
  unfold count_events; cbn;
  repeat match goal with
         | |- context [filter ?k (?l ++ ?r)] => rewrite (filter_app k l r)
         | E : Direct.orderEvent _ _ _ = (?l, _)
           |- context [filter ?k ?l] =>
             rewrite (orderEvent_filter_calls _ _ _ _ _ k E)
               by (intros ev; destruct ev; cbn; intros;
                   first [ reflexivity | discriminate ])
         end;
  cbn; lia.

(** X7. No script submits twice: a run of the direct script asks for at
    most one fee quote, signs at most one permit and sends at most one
    [multicall]; a run of a sponsored script asks for at most one fee quote
    and sends at most one batch. *)
Theorem at_most_one_submission (w : World) :
  ((count_events is_post (trace Direct.main w) <= 1)%nat
   /\ (count_events is_sign (trace Direct.main w) <= 1)%nat
   /\ (count_events is_multicall (trace Direct.main w) <= 1)%nat)
  /\ ((count_events is_post (trace Sponsored.main w) <= 1)%nat
      /\ (count_events is_send (trace Sponsored.main w) <= 1)%nat)
  /\ ((count_events is_post (trace SmartAccount.main w) <= 1)%nat
      /\ (count_events is_send (trace SmartAccount.main w) <= 1)%nat).
Proof.
  unfold trace. split; [ | split ].
  - destruct (Direct.main w) as [tr out] eqn:Hrun. cbn [fst].
    run_cases Hrun.
    all: injection Hrun as <- <-.
    all: repeat split; count_calls.
  - destruct (Sponsored.main w) as [tr out] eqn:Hrun. cbn [fst].
    run_cases Hrun.
    all: injection Hrun as <- <-.
    all: repeat split; count_calls.
  - destruct (SmartAccount.main w) as [tr out] eqn:Hrun. cbn [fst].
    run_cases Hrun.
    all: injection Hrun as <- <-.
    all: repeat split; count_calls.
Qed.

(** X8. The direct script works in stages: a permit is signed only after
    the fee was requested, a [multicall] is sent only after a permit was
    signed, the transaction is waited for only after the [multicall], and
    the order status is read only after the wait. *)
Theorem Direct_stages_in_order (w : World) :
  always_after is_post is_sign (trace Direct.main w)
  /\ always_after is_sign is_multicall (trace Direct.main w)
  /\ always_after is_multicall is_wait (trace Direct.main w)
  /\ always_after is_wait is_get_order_status (trace Direct.main w).
Proof.
  unfold trace. destruct (Direct.main w) as [tr out] eqn:Hrun. cbn [fst].
  run_cases Hrun.
  all: injection Hrun as <- <-.
  all: repeat split; apply precedes_sound; reflexivity.
Qed.

(** X9. The sponsored scripts work in stages: a batch is sent only after
    the fee was requested; in part_001 the receipt of the user operation
    is waited for only after the batch was sent, the chain receipt is read
    only after that wait, and the order status only after the chain
    receipt. *)
Theorem Sponsored_stages_in_order (w : World) :
  always_after is_post is_send (trace Sponsored.main w)
  /\ always_after is_send is_wait_for_receipt (trace Sponsored.main w)
  /\ always_after is_wait_for_receipt is_get_transaction_receipt
       (trace Sponsored.main w)
  /\ always_after is_get_transaction_receipt is_get_order_status
       (trace Sponsored.main w)
  /\ always_after is_post is_send (trace SmartAccount.main w).
Proof.
  unfold trace.
  assert (HS : always_after is_post is_send (fst (Sponsored.main w))
               /\ always_after is_send is_wait_for_receipt
                    (fst (Sponsored.main w))
               /\ always_after is_wait_for_receipt is_get_transaction_receipt
                    (fst (Sponsored.main w))
               /\ always_after is_get_transaction_receipt
                    is_get_order_status (fst (Sponsored.main w))).
  { destruct (Sponsored.main w) as [tr out] eqn:Hrun. cbn [fst].
    run_cases Hrun.
    all: injection Hrun as <- <-.
    all: repeat split; apply precedes_sound; reflexivity. }
  assert (HA : always_after is_post is_send (fst (SmartAccount.main w))).
  { destruct (SmartAccount.main w) as [tr out] eqn:Hrun. cbn [fst].
    run_cases Hrun.
    all: injection Hrun as <- <-.
    all: apply precedes_sound; reflexivity. }
  tauto.
Qed.

(** ** Each stage uses what the stage before returned *)

(** X10. The chain receipt [executeOrderTransaction] reads is the one of
    the user operation it sent: the batch was accepted with some hash, the
    bundler had the receipt of that hash within 60 000 ms, and the
    transaction hash asked for is the one in that receipt.  The order
    status is read at the processor, for an order id decoded from a created
    log of that chain receipt. *)
Theorem executeOrderTransaction_follows_its_operation (w : World)
    (transactions : list transaction) (orderProcessor : address) :
  let m := Common.executeOrderTransaction transactions orderProcessor in
  (forall h,
      In (ECall (GetTransactionReceipt h)) (trace m w) ->
      exists hash t r,
        w_sendTransactions w transactions = Ok hash
        /\ w_userOperationReceipt w hash = Some (t, r)
        /\ t <= 60000
        /\ uo_transactionHash r = h)
  /\ (forall p id,
         In (ECall (GetOrderStatus p id)) (trace m w) ->
         p = orderProcessor
         /\ exists h txReceipt log args,
             In (ECall (GetTransactionReceipt h)) (trace m w)
             /\ w_getTransactionReceipt w h = Ok txReceipt
             /\ find (Common.is_order_created orderProcessor
                        (w_getEventTopic w "OrderCreated"))
                  (logs txReceipt) = Some log
             /\ w_parseLog w log = Ok args
             /\ id = nth_error args 0).
Proof.
  intros m. subst m. unfold trace.
  destruct (Common.executeOrderTransaction transactions orderProcessor w)
    as [tr out] eqn:Hrun.
  cbn [fst]. split.
  - intros h H.
    run_cases Hrun.
    all: injection Hrun as <- <-.
    all: split_in H.
    all: injection H as <-.
    all: do 3 eexists.
    all: repeat (split; [ first [ eassumption | reflexivity ] | ]).
    all: split; [ apply Z.leb_le; eassumption | reflexivity ].
  - intros p id H.
    run_cases Hrun.
    all: injection Hrun as <- <-.
    all: split_in H.
    all: injection H as <- <-.
    all: split; [ reflexivity | ].
    all: do 4 eexists.
    all: split; [ cbn [In]; repeat first [ left; reflexivity | right ] | ].
    all: repeat (split; [ eassumption | ]).
    all: reflexivity.
Qed.

Lemma executeOrderTransaction_follows_its_operation_witness :
  let m :=
    Common.executeOrderTransaction demo_sponsored_transactions
      Demo.processor in
  (In (ECall (GetTransactionReceipt "0xtx")) (trace m Demo.world)
   /\ exists hash t r,
       w_sendTransactions Demo.world demo_sponsored_transactions = Ok hash
       /\ w_userOperationReceipt Demo.world hash = Some (t, r)
       /\ t <= 60000
       /\ uo_transactionHash r = "0xtx")
  /\ In (ECall (GetOrderStatus Demo.processor (Some "order-0x01")))
       (trace m Demo.world)
  /\ Demo.processor = Demo.processor
  /\ exists h txReceipt log args,
      In (ECall (GetTransactionReceipt h)) (trace m Demo.world)
      /\ w_getTransactionReceipt Demo.world h = Ok txReceipt
      /\ find (Common.is_order_created Demo.processor
                 (w_getEventTopic Demo.world "OrderCreated"))
           (logs txReceipt) = Some log
      /\ w_parseLog Demo.world log = Ok args
      /\ Some "order-0x01" = nth_error args 0.
Proof.
  intros m.
  assert (HR : In (ECall (GetTransactionReceipt "0xtx")) (trace m Demo.world))
    by (vm_compute; tauto).
  assert (HS : In (ECall (GetOrderStatus Demo.processor (Some "order-0x01")))
                 (trace m Demo.world))
    by (vm_compute; tauto).
  destruct (executeOrderTransaction_follows_its_operation Demo.world
              demo_sponsored_transactions Demo.processor) as [R S].
  exact (conj (conj HR (R _ HR)) (conj HS (S _ _ HS))).
Defined.



(** ** More on the sell-order precision check *)

(** X12. With a decimal reduction [r] read from the processor, the check
    accepts a sell amount of magnitude at most [2^53] exactly when [10^r]
    divides it, and then it returns after that one read: the decimals of
    the asset are not read.  In particular the amount 0 passes. *)
Theorem validateSellOrderPrecision_accepts_multiples (w : World)
    (orderProcessor assetToken assetTokenAddress : address)
    (orderAmount : Z) (reduction : N) :
  w_orderDecimalReduction w orderProcessor assetTokenAddress = Ok reduction ->
  Z.abs orderAmount <= 2 ^ 53 ->
  let m := Common.validateSellOrderPrecision orderProcessor assetToken
             assetTokenAddress orderAmount in
  ((10 ^ Z.of_N reduction | orderAmount) ->
   m w = ([ECall (OrderDecimalReduction orderProcessor assetTokenAddress)],
          Ok tt))
  /\ (outcome m w = Ok tt -> (10 ^ Z.of_N reduction | orderAmount)).
Proof.
  intros Hr Hq m. subst m.
  pose proof (nonzero_rem_iff orderAmount reduction Hq) as Htest.
  unfold outcome, Common.validateSellOrderPrecision, bind, request.
  rewrite Hr.
  destruct (Number.nonzero _) eqn:E.
  - split.
    + intros Hdiv. exfalso. apply Htest; [ reflexivity | exact Hdiv ].
    + destruct (w_decimals w assetToken); cbn; discriminate.
  - split; [ reflexivity | intros _ ].
    destruct (Z.eq_dec (orderAmount mod 10 ^ Z.of_N reduction) 0)
      as [Hdiv | Hndiv];
      [ apply Z.mod_divide; [ lia | exact Hdiv ] | ].
    assert (Hnot : ~ (10 ^ Z.of_N reduction | orderAmount))
      by (intros Hd; apply Hndiv, Z.mod_divide; [ lia | exact Hd ]).
    apply Htest in Hnot. discriminate Hnot.
Qed.

Lemma validateSellOrderPrecision_accepts_multiples_witness :
  let m := Common.validateSellOrderPrecision Demo.processor "0xAsset"
             "0xAsset" 3000000000 in
  m Demo.world
  = ([ECall (OrderDecimalReduction Demo.processor "0xAsset")], Ok tt)
  /\ (10 ^ Z.of_N 9 | 3000000000).
Proof.
  cbv zeta.
  assert (Hq : Z.abs 3000000000 <= 2 ^ 53) by (vm_compute; discriminate).
  destruct (validateSellOrderPrecision_accepts_multiples Demo.world
              Demo.processor "0xAsset" "0xAsset" 3000000000 9 eq_refl Hq)
    as [A B].
  assert (Hdiv : (10 ^ Z.of_N 9 | 3000000000)) by (exists 3; reflexivity).
  pose proof (A Hdiv) as Hrun.
  refine (conj Hrun (B _)).
  unfold outcome. rewrite Hrun. reflexivity.
Defined.

(** X13. The check passes on the errors of its two chain reads: when the
    decimal reduction cannot be read, that error is thrown and the decimals
    are not read; when an amount of magnitude at most [2^53] fails the test
    and the decimals cannot be read, the error of that read is thrown, not
    the precision error. *)
Theorem validateSellOrderPrecision_read_errors (w : World)
    (orderProcessor assetToken assetTokenAddress : address)
    (orderAmount : Z) (e : exn) :
  let m := Common.validateSellOrderPrecision orderProcessor assetToken
             assetTokenAddress orderAmount in
  (w_orderDecimalReduction w orderProcessor assetTokenAddress = Throw e ->
   m w = ([ECall (OrderDecimalReduction orderProcessor assetTokenAddress);
           ERaise e],
          Throw e))
  /\ (forall reduction,
         w_orderDecimalReduction w orderProcessor assetTokenAddress
         = Ok reduction ->
         Z.abs orderAmount <= 2 ^ 53 ->
         ~ (10 ^ Z.of_N reduction | orderAmount) ->
         w_decimals w assetToken = Throw e ->
         m w = ([ECall (OrderDecimalReduction orderProcessor
                          assetTokenAddress);
                 ECall (Decimals assetToken);
                 ERaise e],
                Throw e)).
Proof.
  intros m. subst m.
  unfold Common.validateSellOrderPrecision, bind, request. split.
  - intros ->. reflexivity.
  - intros reduction Hr Hq Hndiv Hd.
    apply (nonzero_rem_iff orderAmount reduction Hq) in Hndiv.
    rewrite Hr. cbv beta iota. rewrite Hndiv, Hd. reflexivity.
Qed.

Lemma validateSellOrderPrecision_read_errors_witness :
  Common.validateSellOrderPrecision Demo.processor "0xAsset" "0xAsset"
    1500000001 demo_no_decimals_world
  = ([ECall (OrderDecimalReduction Demo.processor "0xAsset");
      ECall (Decimals "0xAsset");
      ERaise (Error "call revert exception")],
     Throw (Error "call revert exception")).
Proof.
  apply (validateSellOrderPrecision_read_errors demo_no_decimals_world
           Demo.processor "0xAsset" "0xAsset" 1500000001
           (Error "call revert exception")) with (reduction := 9%N).
  - reflexivity.
  - vm_compute. discriminate.
  - apply not_divide; vm_compute; discriminate.
  - reflexivity.
Defined.

(** ** The order event of the direct script *)

(** Parsing stops at the first log that fails to parse. *)
Lemma map_parseLog_fails (w : World) (pre post : list Log) (log : Log)
    (e : exn) :
  (forall x, In x pre -> exists a, w_parseLog w x = Ok a) ->
  w_parseLog w log = Throw e ->
  Direct.map_M (fun log => compute (fun w => w_parseLog w log))
    (pre ++ log :: post) w
  = ([ERaise e], Throw e).
Proof.
  intros Hpre Hlog.
  induction pre as [ | y pre IH]; cbn [app Direct.map_M].
  - unfold bind, compute. rewrite Hlog. reflexivity.
  - destruct (Hpre y (or_introl eq_refl)) as [a Ha].
    unfold bind, compute. rewrite Ha.
    unfold bind, compute in IH. rewrite IH; [ reflexivity | ].
    intros x Hx. apply Hpre. right. exact Hx.
Qed.

(** X14. The direct script selects the order event by topic alone and
    parses every selected log before it takes the first.  When all the
    logs that carry the [OrderCreated] topic parse, the order id and the
    account are those of the first such log, whichever contract emitted
    it.  When one of them does not parse, also one that comes after a log
    that parsed, the error of the parser is thrown and no order id is
    reported. *)
Theorem Direct_orderEvent_parses_every_topic_log (w : World)
    (orderProcessor : address) (receipt : Receipt) :
  let topic := w_getEventTopic w "OrderCreated" in
  (forall log args,
      first_such (first_topic_is topic) (logs receipt) log ->
      (forall l, In l (logs receipt) -> first_topic_is topic l = true ->
                 exists a, w_parseLog w l = Ok a) ->
      w_parseLog w log = Ok args ->
      Direct.orderEvent orderProcessor receipt w
      = ([EConsole (LogOrderId (nth_error args 0));
          EConsole (LogOrderAccount (nth_error args 1))],
         Ok (nth_error args 0, nth_error args 1)))
  /\ (forall pre log post e,
         filter (first_topic_is topic) (logs receipt) = pre ++ log :: post ->
         (forall x, In x pre -> exists a, w_parseLog w x = Ok a) ->
         w_parseLog w log = Throw e ->
         Direct.orderEvent orderProcessor receipt w
         = ([ERaise e], Throw e)).
Proof.
  intros topic. split.
  - intros log args Hfirst Hall Hparse.
    destruct (first_such_filter _ _ _ Hfirst) as [rest Hfilter].
    destruct (map_parseLog_run w
                (filter (first_topic_is topic) (logs receipt)))
      as (parsed & Hrun & Hhead).
    { intros x Hx. apply filter_In in Hx. destruct Hx as [Hx Ht].
      apply (Hall x Hx Ht). }
    destruct (Hhead log rest args Hfilter Hparse) as [ps ->].
    unfold Direct.orderEvent, bind, read. fold topic.
    unfold bind in Hrun. rewrite Hrun. reflexivity.
  - intros pre log post e Hfilter Hpre Hlog.
    pose proof (map_parseLog_fails w pre post log e Hpre Hlog) as Hrun.
    unfold Direct.orderEvent, bind, read. fold topic.
    rewrite Hfilter. unfold bind in Hrun. rewrite Hrun. reflexivity.
Qed.

Lemma Direct_orderEvent_parses_every_topic_log_witness :
  let receipt := {| transactionHash := "0xtx";
                    logs := [Demo.approval; Demo.foreign; Demo.created] |} in
  let mined := {| transactionHash := "0xtx";
                  logs := [Demo.created; Demo.approval; Demo.foreign] |} in
  Direct.orderEvent Demo.processor receipt Demo.world
  = ([EConsole (LogOrderId (Some "order-0x03"));
      EConsole (LogOrderAccount (Some "0xAccount"))],
     Ok (Some "order-0x03", Some "0xAccount"))
  /\ Direct.orderEvent Demo.processor mined demo_strict_parser_world
     = ([ERaise (Error "data out-of-bounds")],
        Throw (Error "data out-of-bounds")).
Proof.
  intros receipt mined. split.
  - apply (proj1 (Direct_orderEvent_parses_every_topic_log Demo.world
                    Demo.processor receipt) Demo.foreign
             ["order-0x03"; "0xAccount"]).
    + exists [Demo.approval], [Demo.created].
      split; [ reflexivity | split; [ reflexivity | ] ].
      intros y [<- | []]. reflexivity.
    + intros l _ _. eexists. reflexivity.
    + reflexivity.
  - apply (proj2 (Direct_orderEvent_parses_every_topic_log
                    demo_strict_parser_world Demo.processor mined)
             [Demo.created] Demo.foreign [] (Error "data out-of-bounds")).
    + reflexivity.
    + intros x [<- | []]. eexists. reflexivity.
    + reflexivity.
Defined.

(** ** smart_account.ts *)


(** X16. The [amount] parameter of [configureOrder] in smart_account.ts:
    an integer amount of magnitude at most [2^53] comes back unchanged as
    the [paymentTokenQuantity] of the order, after the conversion to a
    bigint and back; an amount that is not an integer raises the
    RangeError of [BigInt] and no order is built.  Neither case makes a
    call. *)
Theorem SmartAccount_configureOrder_amount (w : World)
    (orderProcessor assetToken recipientAddress payment : address) :
  (forall n,
      Z.abs n <= 2 ^ 53 ->
      SmartAccount.configureOrder orderProcessor assetToken recipientAddress
        payment (Some (Number.of_Z n)) w
      = ([], Ok {| requestTimestamp := Number.of_Z (w_now w);
                   recipient := recipientAddress;
                   assetToken := SmartAccount.ASSET_TOKEN_ADDRESS;
                   paymentToken := payment;
                   sell := false;
                   orderType := Number.of_Z 0;
                   assetTokenQuantity := Number.of_Z 0;
                   paymentTokenQuantity := Number.of_Z n;
                   price := Number.of_Z 0;
                   tif := Number.of_Z 1 |}))
  /\ (forall x,
         Number.to_bigint x = None ->
         SmartAccount.configureOrder orderProcessor assetToken
           recipientAddress payment (Some x) w
         = ([ERaise not_an_integer], Throw not_an_integer)).
Proof.
  split.
  - intros n Hn. rewrite SmartAccount_configureOrder_run.
    cbn [SmartAccount.default].
    rewrite (NumberFacts.to_bigint_of_Z n Hn). reflexivity.
  - intros x Hx. rewrite SmartAccount_configureOrder_run.
    cbn [SmartAccount.default]. rewrite Hx. reflexivity.
Qed.

Lemma SmartAccount_configureOrder_amount_witness :
  paymentTokenQuantity
    match snd (SmartAccount.configureOrder Demo.processor "0xAsset"
                 "0xSmartAccount" Demo.usdc
                 (Some (Number.of_Z 2500000)) Demo.world) with
    | Ok o => o
    | Throw _ => Demo.order
    end
  = Number.of_Z 2500000
  /\ SmartAccount.configureOrder Demo.processor "0xAsset" "0xSmartAccount"
       Demo.usdc (Some (Number.of_ratio 5 2)) Demo.world
     = ([ERaise not_an_integer], Throw not_an_integer).
Proof.
  destruct (SmartAccount_configureOrder_amount Demo.world Demo.processor
              "0xAsset" "0xSmartAccount" Demo.usdc) as [A B].
  assert (Hn : Z.abs 2500000 <= 2 ^ 53) by (vm_compute; discriminate).
  split.
  - rewrite (A 2500000 Hn). reflexivity.
  - apply B. vm_compute. reflexivity.
Defined.

(** ** The approval of the sponsored script *)

(** X17. In the sponsored script the approval covers the order and its
    fee: whenever a batch is sent, the fee request of the run was
    answered, the fee of the answer converted to an integer, and the
    amount approved for the processor is the sum of the payment quantity
    of the quoted order and of that fee. *)
Theorem Sponsored_approval_is_total_spend (w : World)
    (transactions : list transaction) :
  In (ECall (SendTransactions transactions)) (trace Sponsored.main w) ->
  exists body response quantity fee,
    In (ECall (Post "/api/v1/web3/orders/fee" body)) (trace Sponsored.main w)
    /\ w_post w "/api/v1/web3/orders/fee" body = Ok response
    /\ Number.to_bigint (paymentTokenQuantity (order_data body))
       = Some quantity
    /\ outcome (BigInt (fq_fee (fee_quote response))) w = Ok fee
    /\ map data transactions
       = [ ApproveData (contract_address body) (quantity + fee);
           CreateOrderData (order_data body) (fee_quote response)
             (fee_quote_signature response) ].
Proof.
  unfold trace. destruct (Sponsored.main w) as [tr out] eqn:Hrun.
  cbn [fst]. intros H.
  run_cases Hrun.
  all: injection Hrun as <- <-.
  all: split_in H.
  all: injection H as <-.
  all: do 4 eexists.
  all: split; [ cbn [In]; repeat first [ left; reflexivity | right ] | ].
  all: split; [ eassumption | ].
  all: split; [ eassumption | ].
  all: split;
    [ first [ eapply BigInt_number_outcome; eassumption
            | eapply BigInt_string_outcome; eassumption ] | ].
  all: reflexivity.
Qed.

Lemma Sponsored_approval_is_total_spend_witness :
  In (ECall (SendTransactions demo_sponsored_transactions))
    (trace Sponsored.main Demo.world)
  /\ exists body response quantity fee,
      In (ECall (Post "/api/v1/web3/orders/fee" body))
        (trace Sponsored.main Demo.world)
      /\ w_post Demo.world "/api/v1/web3/orders/fee" body = Ok response
      /\ Number.to_bigint (paymentTokenQuantity (order_data body))
         = Some quantity
      /\ outcome (BigInt (fq_fee (fee_quote response))) Demo.world = Ok fee
      /\ map data demo_sponsored_transactions
         = [ ApproveData (contract_address body) (quantity + fee);
             CreateOrderData (order_data body) (fee_quote response)
               (fee_quote_signature response) ].
Proof.
  assert (H : In (ECall (SendTransactions demo_sponsored_transactions))
                (trace Sponsored.main Demo.world))
    by (vm_compute; tauto).
  exact (conj H (Sponsored_approval_is_total_spend Demo.world _ H)).
Defined.

(** ** The exit status of the direct script *)

(** X18. The direct script ends with status 0 exactly when it has read the
    status of the order: every earlier failure, from a missing environment
    variable to a receipt without order event, ends the process with
    status 1. *)
Theorem Direct_exit_status (w : World) :
  snd (run_script Direct.main w) = 0
  <-> exists p id status,
        In (ECall (GetOrderStatus p id)) (trace Direct.main w)
        /\ w_getOrderStatus w p id = Ok status.
Proof.
  rewrite run_script_exit. unfold outcome, trace.
  destruct (Direct.main w) as [tr out] eqn:Hrun. cbn [fst snd]. split.
  - intros H.
    run_cases Hrun.
    all: injection Hrun as <- <-.
    all: cbn [snd] in H.
    all: try discriminate H.
    all: do 3 eexists.
    all: split;
      [ cbn [In];
        repeat first [ left; reflexivity | right | apply in_or_app ]
      | eassumption ].
  - intros (p & id & status & H & Hstatus).
    run_cases Hrun.
    all: injection Hrun as <- <-.
    all: cbn [snd].
    all: try reflexivity.
    all: exfalso.
    all: split_in H.
    all: try (eapply orderEvent_makes_no_call;
              match goal with
              | E : Direct.orderEvent _ _ _ = _ |- _ => rewrite E
              end;
              exact H).
    all: injection H as <- <-.
    all: congruence.
Qed.

Lemma Direct_exit_status_witness :
  snd (run_script Direct.main Demo.world) = 0.
Proof.
  apply (proj2 (Direct_exit_status Demo.world)).
  exists Demo.processor, (Some "order-0x01"), "ACTIVE".
  split; [ vm_compute; tauto | reflexivity ].
Defined.
